(** * Geosift: aggregation, caching, normalization and weighting

    A shallow embedding of the Python back end of Geosift
    (Backend/services/aggregator.py, Backend/services/cache_manager.py,
    Backend/scoring/weighting_engine.py, Backend/scoring/scoring_engine.py,
    Backend/utils/normalizer.py, the request handler of Backend/server.py
    and the parts of Backend/services/external_clients.py the pipeline
    depends on) together with the properties its specification states
    about it and further properties of the code.

    Numbers.  Python's [float] is IEEE 754 binary64.  The arithmetic of the
    source is written once, over an interface [PyFloat], and used at two
    carriers: Rocq's primitive binary64 floats, on which every operation
    rounds exactly as CPython's does, and the rationals [Q], the exact
    arithmetic the formulas idealise.

    Coroutines.  asyncio runs coroutines cooperatively on one thread: the
    code between two [await]s is atomic.  [analyze_country] is therefore
    modelled as a transition system whose steps are these atomic segments. *)

From Stdlib Require Import ZArith QArith Qround Qabs Qminmax Lia Lqa Sorted.
From Stdlib Require Import PrimFloat FloatOps SpecFloat Uint63.
From stdpp Require Import gmap strings list pretty.

Set Default Proof Using "Type".
Local Open Scope Z_scope.

(* ===================================================================== *)
(** * Python numbers *)
(* ===================================================================== *)

(** The operations of Python's [float] the source uses.  [lit] reads a
    decimal or integer literal, [exact] gives the rational a finite value
    denotes ([None] for nan and the infinities). *)
Class PyFloat (F : Type) := {
  fadd : F → F → F;
  fsub : F → F → F;
  fmul : F → F → F;
  fdiv : F → F → F;
  flt : F → F → bool;
  fle : F → F → bool;
  fabs : F → F;
  lit : Q → F;
  exact : F → option Q;
}.
Arguments lit {F _} q%_Q.

Declare Scope py_scope.
Delimit Scope py_scope with py.
Infix "+" := fadd : py_scope.
Infix "-" := fsub : py_scope.
Infix "*" := fmul : py_scope.
Infix "/" := fdiv : py_scope.
Infix "<?" := flt : py_scope.
Infix "<=?" := fle : py_scope.

(** ** binary64 *)

Definition float_of_Z (z : Z) : float :=
  match z with
  | Z0 => PrimFloat.zero
  | Zpos _ => PrimFloat.of_uint63 (Uint63.of_Z z)
  | Zneg p => PrimFloat.opp (PrimFloat.of_uint63 (Uint63.of_Z (Zpos p)))
  end.

(** A literal [n/d] whose numerator and denominator are below 2^53 is the
    correctly rounded quotient of two exactly represented integers, hence
    the binary64 value nearest to the decimal, as Python's parser yields. *)
Definition float_of_Q (q : Q) : float :=
  PrimFloat.div (float_of_Z (Qnum q)) (float_of_Z (Zpos (Qden q))).

Definition float_to_Q (f : float) : option Q :=
  match Prim2SF f with
  | S754_zero _ => Some (0 # 1)%Q
  | S754_finite s m e =>
      let mz := if s then Zneg m else Zpos m in
      Some match e with
           | Z0 => (mz # 1)%Q
           | Zpos p => ((mz * 2 ^ Zpos p) # 1)%Q
           | Zneg p => (mz # (2 ^ p)%positive)%Q
           end
  | S754_infinity _ | S754_nan => None
  end.

#[export] Instance float_PyFloat : PyFloat float := {|
  fadd := PrimFloat.add;
  fsub := PrimFloat.sub;
  fmul := PrimFloat.mul;
  fdiv := PrimFloat.div;
  flt := PrimFloat.ltb;
  fle := PrimFloat.leb;
  fabs := PrimFloat.abs;
  lit := float_of_Q;
  exact := float_to_Q;
|}.

(** ** Exact rationals *)

#[export] Instance Q_PyFloat : PyFloat Q := {|
  fadd := Qplus;
  fsub := Qminus;
  fmul := Qmult;
  fdiv := Qdiv;
  flt := fun x y => negb (Qle_bool y x);
  fle := Qle_bool;
  fabs := Qabs;
  lit := fun q => q;
  exact := Some;
|}.

(* ===================================================================== *)
(** * Python builtins *)
(* ===================================================================== *)

(** ** Dictionaries

    A [dict] keeps its keys in insertion order, and [sum(d.values())] and
    [for k, v in d.items()] follow that order: an association list. *)
Definition pydict (V : Type) : Type := list (string * V).

Fixpoint dict_get {V} (d : pydict V) (k : string) : option V :=
  match d with
  | [] => None
  | (k', v) :: d' => if String.eqb k' k then Some v else dict_get d' k
  end.

(** [d[k] = v]: an existing key keeps its position. *)
Fixpoint dict_set {V} (d : pydict V) (k : string) (v : V) : pydict V :=
  match d with
  | [] => [(k, v)]
  | (k', v') :: d' =>
      if String.eqb k' k then (k', v) :: d' else (k', v') :: dict_set d' k v
  end.

Definition dict_values {V} (d : pydict V) : list V := map snd d.
Definition dict_keys {V} (d : pydict V) : list string := map fst d.

(** Rounding a rational to an integer, ties to even. *)
Definition round_half_even (q : Q) : Z :=
  let fl := Qfloor q in
  match (q - inject_Z fl ?= 1 # 2)%Q with
  | Lt => fl
  | Gt => fl + 1
  | Eq => if Z.even fl then fl else fl + 1
  end.

Definition pow10 (ndigits : nat) : positive := Z.to_pos (10 ^ Z.of_nat ndigits).

(** [n] followed by enough leading zeros to fill [width] digits. *)
Definition zero_padded (width : nat) (n : Z) : string :=
  let s := pretty n in
  String.concat "" (replicate (width - String.length s) "0"%string) +:+ s.

Section Builtins.
Context {F : Type} `{PyFloat F}.
Local Open Scope py_scope.

(** [min(a, b)] and [max(a, b)]: the first argument is kept unless the
    second compares strictly below (above) it. *)
Definition pymin (a b : F) : F := if b <? a then b else a.
Definition pymax (a b : F) : F := if a <? b then b else a.

(** [sum(xs)] as documented: [0 + x1 + x2 + ...], left to right. *)
Definition sum_plain (xs : list F) : F := fold_left fadd xs (lit 0).

(** [sum(xs)] as CPython 3.12 and later compute it on floats: Neumaier's
    compensated summation, the compensation added at the end when it is
    non-zero and finite. *)
Fixpoint sum_neumaier (f c : F) (xs : list F) : F :=
  match xs with
  | [] =>
      match exact c with
      | Some q => if Qeq_bool q 0 then f else f + c
      | None => f
      end
  | x :: xs' =>
      let t := f + x in
      let c' := if fabs x <=? fabs f then c + ((f - t) + x)
                else c + ((x - t) + f) in
      sum_neumaier t c' xs'
  end.

Definition sum_compensated (xs : list F) : F :=
  match xs with
  | [] => lit 0
  | x :: xs' => sum_neumaier (lit 0 + x) (lit 0.0) xs'
  end.

(** server.py nests quotes of one kind inside an f-string, which only
    Python 3.12 and later accept: [sum] is the compensated one. *)
Definition pysum : list F → F := sum_compensated.

(** [round(x, ndigits)]: the decimal nearest to the exact value of [x]
    (ties to even), read back as a float; nan and infinities unchanged.
    On binary64 the reading back is exact as long as the scaled value
    stays below 2^53, far above any score.  The sign of a zero is not
    tracked. *)
Definition pyround (x : F) (ndigits : nat) : F :=
  match exact x with
  | Some q =>
      lit (round_half_even (q * inject_Z (Zpos (pow10 ndigits))) # pow10 ndigits)
  | None => x
  end.

(** [f"{x:.<ndigits>f}"]: the same decimal rounding, printed. *)
Definition format_f (x : F) (ndigits : nat) : string :=
  match exact x with
  | Some q =>
      let n := round_half_even (q * inject_Z (Zpos (pow10 ndigits))) in
      let sign := if Qle_bool 0 q then ""%string else "-"%string in
      let a := Z.abs n in
      let whole := pretty (a / Zpos (pow10 ndigits))%Z in
      match ndigits with
      | O => sign +:+ whole
      | _ => sign +:+ whole +:+ "." +:+
             zero_padded ndigits (a mod Zpos (pow10 ndigits))%Z
      end
  | None => "nan"
  end.
End Builtins.

(** ** Values, exceptions *)

(** The values a result dictionary holds. *)
#[warnings="-register-all"]
Inductive pyvalue (F : Type) : Type :=
  | PNone
  | PStr (s : string)
  | PNum (x : F)
  | PDict (d : list (string * pyvalue F)).
Arguments PNone {F}.
Arguments PStr {F} s.
Arguments PNum {F} x.
Arguments PDict {F} d.

Definition of_optional {F} (v : option F) : pyvalue F :=
  match v with Some x => PNum x | None => PNone end.

Definition of_optional_str {F} (v : option string) : pyvalue F :=
  match v with Some s => PStr s | None => PNone end.

Inductive exn : Type :=
  | NameError (name : string)
  | TypeError.

(** The outcome of a call that may raise. *)
Inductive result (A : Type) : Type :=
  | Ok (a : A)
  | Raise (e : exn).
Arguments Ok {A} a.
Arguments Raise {A} e.

#[export] Instance result_ret : MRet result := fun A a => Ok a.
#[export] Instance result_bind : MBind result := fun A B f m =>
  match m with Ok a => f a | Raise e => Raise e end.

(** [d.get(k)] on a dictionary whose values may be [None]. *)
Definition get_optional {V} (d : pydict (option V)) (k : string) : option V :=
  match dict_get d k with Some v => v | None => None end.

(** [d.get(k, dflt)]. *)
Definition get_default {V} (d : pydict V) (k : string) (dflt : V) : V :=
  match dict_get d k with Some v => v | None => dflt end.

(** A module's global namespace, as far as the normalizers go: the
    functions of one optional number its [def] statements bind. *)
Definition globals (F : Type) : Type := pydict (option F → F).

(** Calling a global by name: the name is looked up when the call is
    evaluated, and an unbound one raises NameError. *)
Definition call_global {F} (g : globals F) (name : string) (arg : option F)
  : result F :=
  match dict_get g name with
  | Some f => Ok (f arg)
  | None => Raise (NameError name)
  end.

(** The statements of [normalize_metrics] (utils/normalizer.py, lines
    48-60) and of [_normalize_metrics] (services/aggregator.py, lines
    185-197): the two bodies are the same text, each run in the namespace
    [g] of its own module. *)
Definition normalize_metrics_in {F} (g : globals F)
    (metrics : pydict (option F)) : result (pydict F) :=
  let normalized := [] in
  v ← call_global g "_normalize_life_expectancy" (get_optional metrics "life_expectancy");
  let normalized := dict_set normalized "life_expectancy" v in
  v ← call_global g "_normalize_gdp_per_capita" (get_optional metrics "gdp_per_capita");
  let normalized := dict_set normalized "gdp_per_capita" v in
  v ← call_global g "_normalize_population" (get_optional metrics "population");
  let normalized := dict_set normalized "population" v in
  v ← call_global g "_normalize_pm25" (get_optional metrics "pm25");
  let normalized := dict_set normalized "pm25" v in
  v ← call_global g "_normalize_pm10" (get_optional metrics "pm10");
  let normalized := dict_set normalized "pm10" v in
  v ← call_global g "_normalize_travel_advisory_score" (get_optional metrics "travel_advisory_score");
  let normalized := dict_set normalized "travel_advisory_score" v in
  v ← call_global g "_normalize_temperature" (get_optional metrics "temperature");
  let normalized := dict_set normalized "temperature" v in
  v ← call_global g "_normalize_humidity" (get_optional metrics "humidity");
  let normalized := dict_set normalized "humidity" v in
  mret normalized.

(* ===================================================================== *)
(** * utils/normalizer.py *)
(* ===================================================================== *)

Module Normalizer.
Section Defs.
Context {F : Type} `{PyFloat F}.
Local Open Scope py_scope.

Definition _normalize_life_expectancy (value : option F) : F :=
  match value with
  | None => lit 0.5
  | Some value => pymax (lit 0.0) (pymin (lit 1.0) ((value - lit 50) / lit 35))
  end.

Definition _normalize_gdp_per_capita (value : option F) : F :=
  match value with
  | None => lit 0.5
  | Some value => pymin (value / lit 80000) (lit 1.0)
  end.

Definition _normalize_population (value : option F) : F :=
  match value with
  | None => lit 0.5
  | Some value => lit 1.0 - pymin (value / lit 1500000000) (lit 1.0)
  end.

Definition _normalize_pm25 (value : option F) : F :=
  match value with
  | None => lit 0.5
  | Some value => lit 1.0 - pymin (value / lit 100) (lit 1.0)
  end.

Definition _normalize_travel_advisory_score (value : option F) : F :=
  match value with
  | None => lit 0.5
  | Some value => lit 1.0 - (value / lit 5.0)
  end.

Definition _normalize_temperature (value : option F) : F :=
  match value with
  | None => lit 0.5
  | Some value =>
      if (lit 15 <=? value) && (value <=? lit 28) then lit 1.0
      else if value <? lit 15 then
        pymax (lit 0.0) (lit 1.0 - (lit 15 - value) / lit 15)
      else pymax (lit 0.0) (lit 1.0 - (value - lit 28) / lit 12)
  end.

Definition _normalize_humidity (value : option F) : F :=
  match value with
  | None => lit 0.5
  | Some value =>
      if (lit 30 <=? value) && (value <=? lit 70) then lit 1.0
      else if value <? lit 30 then pymax (lit 0.0) (value / lit 30)
      else pymax (lit 0.0) (lit 1.0 - (value - lit 70) / lit 30)
  end.

(** The names the module binds: its seven [def]s of a normalizer (and
    [normalize_metrics] itself, which takes a mapping); its only import
    is [typing].  There is no [_normalize_pm10]. *)
Definition module_globals : globals F :=
  [ ("_normalize_life_expectancy", _normalize_life_expectancy);
    ("_normalize_gdp_per_capita", _normalize_gdp_per_capita);
    ("_normalize_population", _normalize_population);
    ("_normalize_pm25", _normalize_pm25);
    ("_normalize_travel_advisory_score", _normalize_travel_advisory_score);
    ("_normalize_temperature", _normalize_temperature);
    ("_normalize_humidity", _normalize_humidity) ]%string.

Definition normalize_metrics (metrics : pydict (option F)) : result (pydict F) :=
  normalize_metrics_in module_globals metrics.
End Defs.
End Normalizer.

(* ===================================================================== *)
(** * scoring/weighting_engine.py and scoring/scoring_engine.py *)
(* ===================================================================== *)

(** [d[k] *= x].  Every key so updated below is a key of the dictionary
    literal it is applied to, so the KeyError of a missing key cannot
    arise; a missing key leaves the dictionary as it is. *)
Definition dict_imul {F} `{PyFloat F} (d : pydict F) (k : string) (x : F)
  : pydict F :=
  match dict_get d k with
  | Some v => dict_set d k (fmul v x)
  | None => d
  end.

Module WeightingEngine.
Section Defs.
Context {F : Type} `{PyFloat F}.
Local Open Scope py_scope.

(** [get_weights], with the builtin [sum] it calls as a parameter. *)
Definition get_weights_with (sum : list F → F)
    (risk_tolerance duration : string) : pydict F :=
  let weights : pydict F :=
    [ ("life_expectancy", lit 0.20);
      ("gdp_per_capita", lit 0.20);
      ("population", lit 0.10);
      ("pm25", lit 0.15);
      ("travel_advisory_score", lit 0.25);
      ("temperature", lit 0.10);
      ("humidity", lit 0.10) ]%string in
  let weights :=
    if String.eqb risk_tolerance "low" then
      let weights := dict_set weights "life_expectancy" (lit 0.20) in
      let weights := dict_set weights "gdp_per_capita" (lit 0.15) in
      let weights := dict_set weights "population" (lit 0.05) in
      let weights := dict_set weights "pm25" (lit 0.20) in
      let weights := dict_set weights "travel_advisory_score" (lit 0.35) in
      let weights := dict_set weights "temperature" (lit 0.15) in
      dict_set weights "humidity" (lit 0.00)
    else if String.eqb risk_tolerance "high" then
      let weights := dict_set weights "life_expectancy" (lit 0.20) in
      let weights := dict_set weights "gdp_per_capita" (lit 0.30) in
      let weights := dict_set weights "population" (lit 0.15) in
      let weights := dict_set weights "pm25" (lit 0.10) in
      let weights := dict_set weights "travel_advisory_score" (lit 0.10) in
      let weights := dict_set weights "temperature" (lit 0.15) in
      dict_set weights "humidity" (lit 0.00)
    else weights in
  let weights :=
    if String.eqb duration "short-term" then
      let weights := dict_imul weights "temperature" (lit 1.2) in
      let weights := dict_imul weights "humidity" (lit 1.1) in
      let weights := dict_imul weights "pm25" (lit 1.2) in
      let weights := dict_imul weights "travel_advisory_score" (lit 1.2) in
      let weights := dict_imul weights "life_expectancy" (lit 0.8) in
      dict_imul weights "population" (lit 0.8)
    else if String.eqb duration "long-term" then
      let weights := dict_imul weights "life_expectancy" (lit 1.2) in
      let weights := dict_imul weights "gdp_per_capita" (lit 1.2) in
      let weights := dict_imul weights "population" (lit 1.2) in
      let weights := dict_imul weights "temperature" (lit 0.8) in
      let weights := dict_imul weights "humidity" (lit 0.9) in
      let weights := dict_imul weights "pm25" (lit 0.9) in
      dict_imul weights "travel_advisory_score" (lit 0.9)
    else weights in
  let total_weight := sum (dict_values weights) in
  if lit 0 <? total_weight then
    map (fun kv => (kv.1, kv.2 / total_weight)) weights
  else weights.

Definition get_weights : string → string → pydict F :=
  get_weights_with pysum.
End Defs.
End WeightingEngine.

Module ScoringEngine.
Section Defs.
Context {F : Type} `{PyFloat F}.
Local Open Scope py_scope.

Definition score_country (metrics weights : pydict F) : F :=
  let score :=
    fold_left
      (fun score kv => score + kv.2 * get_default weights kv.1 (lit 0.0))
      metrics (lit 0.0) in
  pyround (score * lit 100) 2.
End Defs.
End ScoringEngine.

(* ===================================================================== *)
(** * services/cache_manager.py *)
(* ===================================================================== *)

(** One entry of the cache: key, value, and the clock reading from which
    it counts as expired. *)
Record link (V : Type) : Type := {
  l_key : string;
  l_value : V;
  l_expires : Z;
}.
Arguments l_key {V} _.
Arguments l_value {V} _.
Arguments l_expires {V} _.

(** Modelled from the spec: the class [TTLCache] that cache_manager.py
    instantiates comes from the third-party package cachetools, which is
    not among the sources.  Following sections 3 and 4.1 of the
    specification (and cachetools' documented behaviour): the cache holds
    at most [maxsize] entries; an entry is valid for [ttl] clock units
    after it was stored and is treated as absent afterwards; storing into a
    full cache evicts the least recently used entry.  [links] lists the
    entries from least to most recently used; the clock is read in whole
    units (seconds). *)
Record TTLCache (V : Type) : Type := {
  maxsize : nat;
  ttl : Z;
  links : list (link V);
}.
Arguments maxsize {V} _.
Arguments ttl {V} _.
Arguments links {V} _.

(** Modelled from the spec: the operations of [TTLCache] that
    cache_manager.py uses (membership, [get], item assignment), each at
    the clock reading [time] the cache takes when it is called. *)
Module TTL.
Section Defs.
Context {V : Type}.

Definition with_links (c : TTLCache V) (ls : list (link V)) : TTLCache V :=
  {| maxsize := maxsize c; ttl := ttl c; links := ls |}.

Definition find_link (ls : list (link V)) (key : string) : option (link V) :=
  List.find (fun l => String.eqb (l_key l) key) ls.

Definition remove_key (ls : list (link V)) (key : string) : list (link V) :=
  List.filter (fun l => negb (String.eqb (l_key l) key)) ls.

(** Drop every entry that has expired at [time]. *)
Definition expire (time : Z) (ls : list (link V)) : list (link V) :=
  List.filter (fun l => time <? l_expires l) ls.

(** [key in cache]. *)
Definition contains (time : Z) (c : TTLCache V) (key : string) : bool :=
  match find_link (links c) key with
  | Some l => time <? l_expires l
  | None => false
  end.

(** [cache[key]]: a valid entry becomes the most recently used one. *)
Definition getitem (time : Z) (c : TTLCache V) (key : string)
  : option V * TTLCache V :=
  match find_link (links c) key with
  | Some l =>
      let c' := with_links c (remove_key (links c) key ++ [l]) in
      if time <? l_expires l then (Some (l_value l), c') else (None, c')
  | None => (None, c)
  end.

(** [cache.get(key)]. *)
Definition get (time : Z) (c : TTLCache V) (key : string)
  : option V * TTLCache V :=
  if contains time c key then getitem time c key else (None, c).

(** [cache[key] = value]: expired entries go first, then, for a new key,
    least recently used ones until there is room. *)
Definition setitem (time : Z) (c : TTLCache V) (key : string) (value : V)
  : TTLCache V :=
  let ls := expire time (links c) in
  let ls :=
    match find_link ls key with
    | Some _ => ls
    | None => drop (length ls + 1 - maxsize c) ls
    end in
  with_links c
    (remove_key ls key
       ++ [{| l_key := key; l_value := value; l_expires := time + ttl c |}]).
End Defs.
End TTL.

(** Tasks and dictionaries are named by their index of creation. *)
Abbreviation task_id := nat.
Abbreviation loc := nat.

Module CacheManager.

(** [country_cache = TTLCache(maxsize=100, ttl=3600)] *)
Definition country_cache_init : TTLCache loc :=
  {| maxsize := 100; ttl := 3600; links := [] |}.

(** [in_flight_requests = {}] *)
Definition in_flight_requests_init : gmap string task_id := ∅.

Definition get_cached (time : Z) (country_cache : TTLCache loc)
    (country_code : string) : option loc * TTLCache loc :=
  TTL.get time country_cache country_code.

(** [data] is [None] or a reference to a dictionary. *)
Definition set_cache (time : Z) (country_cache : TTLCache loc)
    (country_code : string) (data : option loc) : TTLCache loc :=
  match data with
  | Some data => TTL.setitem time country_cache country_code data
  | None => country_cache
  end.

Definition is_in_flight (in_flight_requests : gmap string task_id)
    (country_code : string) : bool :=
  bool_decide (is_Some (in_flight_requests !! country_code)).

Definition get_in_flight (in_flight_requests : gmap string task_id)
    (country_code : string) : option task_id :=
  in_flight_requests !! country_code.

Definition set_in_flight (in_flight_requests : gmap string task_id)
    (country_code : string) (task : task_id) : gmap string task_id :=
  <[country_code := task]> in_flight_requests.

Definition remove_in_flight (in_flight_requests : gmap string task_id)
    (country_code : string) : gmap string task_id :=
  if bool_decide (is_Some (in_flight_requests !! country_code))
  then delete country_code in_flight_requests
  else in_flight_requests.
End CacheManager.

(* ===================================================================== *)
(** * services/aggregator.py: normalization and the fetch pipeline *)
(* ===================================================================== *)

(** The module's own [_get_weights] and [_score_country] (lines 200-263)
    are never called: the pipeline uses [get_weights] and [score_country]
    imported from the scoring package. *)

(** What [asyncio.gather(..., return_exceptions=True)] holds for one
    awaitable: its value, or the exception it raised. *)
Inductive gathered (A : Type) : Type :=
  | Value (a : A)
  | Exception_.
Arguments Value {A} a.
Arguments Exception_ {A}.

(** [x if not isinstance(x, Exception) else {}]. *)
Definition value_or_empty {V} (g : gathered (pydict V)) : pydict V :=
  match g with Value d => d | Exception_ => [] end.

(** The dictionary [fetch_country_profile] returns, with the fields the
    pipeline reads. *)
Record country_profile (F : Type) : Type := {
  country_name : option string;
  iso2 : option string;
  lat : option F;
  lon : option F;
  population : option F;
}.
Arguments country_name {F} _.
Arguments iso2 {F} _.
Arguments lat {F} _.
Arguments lon {F} _.
Arguments population {F} _.

(** What the five providers answer to one run of the pipeline.  A profile
    of [None] stands for any falsy value. *)
Record responses (F : Type) : Type := {
  r_country_profile : option (country_profile F);
  r_worldbank_health : gathered (pydict (option F));
  r_travel_advisory : gathered (pydict (option F));
  r_weather : gathered (pydict (option F));
  r_aqi : gathered (pydict (option F));
}.
Arguments r_country_profile {F} _.
Arguments r_worldbank_health {F} _.
Arguments r_travel_advisory {F} _.
Arguments r_weather {F} _.
Arguments r_aqi {F} _.

(** [not s] for an optional string. *)
Definition falsy (s : option string) : bool :=
  match s with
  | None => true
  | Some s => String.eqb s ""
  end.

(** The values of the local variables of [_fetch_and_build] once the
    scores are computed. *)
Record pipeline_locals (F : Type) : Type := {
  raw_metrics : pydict (option F);
  missing_metrics : list string;
  normalized_scores : pydict F;
  travel_risk_sub_score : F;
  health_infra_score : F;
  env_stability_score : F;
  weights : pydict F;
  overall_score : F;
}.
Arguments raw_metrics {F} _.
Arguments missing_metrics {F} _.
Arguments normalized_scores {F} _.
Arguments travel_risk_sub_score {F} _.
Arguments health_infra_score {F} _.
Arguments env_stability_score {F} _.
Arguments weights {F} _.
Arguments overall_score {F} _.

Module Aggregator.
Section Defs.
Context {F : Type} `{PyFloat F}.
Local Open Scope py_scope.

Definition _normalize_life_expectancy (value : option F) : F :=
  match value with
  | None => lit 0.5
  | Some value => pymax (lit 0.0) (pymin (lit 1.0) ((value - lit 50) / lit 35))
  end.

Definition _normalize_gdp_per_capita (value : option F) : F :=
  match value with
  | None => lit 0.5
  | Some value => pymin (value / lit 80000) (lit 1.0)
  end.

Definition _normalize_population (value : option F) : F :=
  match value with
  | None => lit 0.5
  | Some value => lit 1.0 - pymin (value / lit 1500000000) (lit 1.0)
  end.

Definition _normalize_pm25 (value : option F) : F :=
  match value with
  | None => lit 0.5
  | Some value => lit 1.0 - pymin (value / lit 100) (lit 1.0)
  end.

Definition _normalize_pm10 (value : option F) : F :=
  match value with
  | None => lit 0.5
  | Some value => lit 1.0 - pymin (value / lit 100) (lit 1.0)
  end.

Definition _normalize_travel_advisory_score (value : option F) : F :=
  match value with
  | None => lit 0.2
  | Some value => lit 1.0 - (value / lit 100.0)
  end.

Definition _normalize_temperature (value : option F) : F :=
  match value with
  | None => lit 0.5
  | Some value =>
      if (lit 15 <=? value) && (value <=? lit 28) then lit 1.0
      else if value <? lit 15 then
        pymax (lit 0.0) (lit 1.0 - (lit 15 - value) / lit 15)
      else pymax (lit 0.0) (lit 1.0 - (value - lit 28) / lit 12)
  end.

Definition _normalize_humidity (value : option F) : F :=
  match value with
  | None => lit 0.5
  | Some _ => lit 0.5
  end.

Definition _normalize_metrics (metrics : pydict (option F)) : pydict F :=
  let normalized := [] in
  let normalized := dict_set normalized "life_expectancy"
    (_normalize_life_expectancy (get_optional metrics "life_expectancy")) in
  let normalized := dict_set normalized "gdp_per_capita"
    (_normalize_gdp_per_capita (get_optional metrics "gdp_per_capita")) in
  let normalized := dict_set normalized "population"
    (_normalize_population (get_optional metrics "population")) in
  let normalized := dict_set normalized "pm25"
    (_normalize_pm25 (get_optional metrics "pm25")) in
  let normalized := dict_set normalized "pm10"
    (_normalize_pm10 (get_optional metrics "pm10")) in
  let normalized := dict_set normalized "travel_advisory_score"
    (_normalize_travel_advisory_score
       (get_optional metrics "travel_advisory_score")) in
  let normalized := dict_set normalized "temperature"
    (_normalize_temperature (get_optional metrics "temperature")) in
  let normalized := dict_set normalized "humidity"
    (_normalize_humidity (get_optional metrics "humidity")) in
  normalized.

(** The normalizers the module binds, by name. *)
Definition module_globals : globals F :=
  [ ("_normalize_life_expectancy", _normalize_life_expectancy);
    ("_normalize_gdp_per_capita", _normalize_gdp_per_capita);
    ("_normalize_population", _normalize_population);
    ("_normalize_pm25", _normalize_pm25);
    ("_normalize_pm10", _normalize_pm10);
    ("_normalize_travel_advisory_score", _normalize_travel_advisory_score);
    ("_normalize_temperature", _normalize_temperature);
    ("_normalize_humidity", _normalize_humidity) ]%string.

(** The values of a mapping as floats; a [None] among them is what
    [metric_value * weight] in [score_country] raises TypeError on. *)
Fixpoint as_floats (metrics : pydict (option F)) : result (pydict F) :=
  match metrics with
  | [] => Ok []
  | (k, Some v) :: rest => rest' ← as_floats rest; mret ((k, v) :: rest')
  | (_, None) :: _ => Raise TypeError
  end.

(** Lines 50-71 of [_fetch_and_build]: the raw metrics assembled from the
    profile's population and the four gathered results. *)
Definition assemble_raw_metrics (population : option F) (r : responses F)
  : pydict (option F) :=
  let world_bank_metrics_data := value_or_empty (r_worldbank_health r) in
  let travel_advisory_data := value_or_empty (r_travel_advisory r) in
  let weather_data := value_or_empty (r_weather r) in
  let aqi_data := value_or_empty (r_aqi r) in
  [ ("life_expectancy", get_optional world_bank_metrics_data "life_expectancy");
    ("gdp_per_capita", get_optional world_bank_metrics_data "gdp_per_capita");
    ("population", population);
    ("pm25", get_optional aqi_data "aqi");
    ("pm10", get_optional aqi_data "aqi");
    ("travel_advisory_score", get_optional travel_advisory_data "advisory_score");
    ("temperature", get_optional weather_data "temperature");
    ("humidity", None) ]%string.

(** Lines 73-107: missing metrics, normalization, sub-scores, weights and
    the overall score. *)
Definition score_raw_metrics (risk_tolerance duration : string)
    (raw_metrics : pydict (option F)) : result (pipeline_locals F) :=
  let missing_metrics :=
    [] ++ dict_keys (filter (fun kv => kv.2 = None) raw_metrics) in
  let normalized_scores := _normalize_metrics raw_metrics in
  let travel_risk_sub_score :=
    (lit 1 - get_default normalized_scores "travel_advisory_score" (lit 0.5))
    * lit 100 in
  let health_infra_score :=
    (get_default normalized_scores "life_expectancy" (lit 0.5)
     + get_default normalized_scores "gdp_per_capita" (lit 0.5))
    / lit 2 * lit 100 in
  let env_stability_score :=
    (get_default normalized_scores "pm25" (lit 0.5)
     + get_default normalized_scores "pm10" (lit 0.5)
     + get_default normalized_scores "temperature" (lit 0.5))
    / lit 3 * lit 100 in
  let weights := WeightingEngine.get_weights risk_tolerance duration in
  let metrics_for_scoring : pydict (option F) :=
    [ ("life_expectancy", dict_get normalized_scores "life_expectancy");
      ("gdp_per_capita", dict_get normalized_scores "gdp_per_capita");
      ("population", dict_get normalized_scores "population");
      ("pm25", dict_get normalized_scores "pm25");
      ("pm10", dict_get normalized_scores "pm10");
      ("travel_advisory_score", dict_get normalized_scores "travel_advisory_score");
      ("temperature", dict_get normalized_scores "temperature");
      ("humidity", dict_get normalized_scores "humidity") ]%string in
  metrics ← as_floats metrics_for_scoring;
  let overall_score := ScoringEngine.score_country metrics weights in
  let overall_score := pyround overall_score 1 in
  mret {| raw_metrics := raw_metrics;
          missing_metrics := missing_metrics;
          normalized_scores := normalized_scores;
          travel_risk_sub_score := travel_risk_sub_score;
          health_infra_score := health_infra_score;
          env_stability_score := env_stability_score;
          weights := weights;
          overall_score := overall_score |}.

(** [_fetch_and_build] from the point where the profile is known to
    carry an ISO2 code, up to the scores (lines 50-107). *)
Definition pipeline (risk_tolerance duration : string)
    (country_profile_data : country_profile F) (r : responses F)
  : result (pipeline_locals F) :=
  let population := population country_profile_data in
  let raw_metrics := assemble_raw_metrics population r in
  score_raw_metrics risk_tolerance duration raw_metrics.

(** Lines 109-136: the result dictionary built from the locals. *)
Definition build_result (country_code risk_tolerance duration : string)
    (debug_mode : bool) (country_profile_data : country_profile F)
    (l : pipeline_locals F) : pydict (pyvalue F) :=
  let explanation :=
    ("Overall score of " +:+ format_f (overall_score l) 1
     +:+ " based on risk tolerance '" +:+ risk_tolerance
     +:+ "' and duration '" +:+ duration +:+ "'. "
     +:+ "Travel risk: " +:+ format_f (pyround (travel_risk_sub_score l) 0) 0
     +:+ ", Health infrastructure: "
     +:+ format_f (pyround (health_infra_score l) 0) 0
     +:+ ", Environmental stability: "
     +:+ format_f (pyround (env_stability_score l) 0) 0 +:+ ".")%string in
  let result : pydict (pyvalue F) :=
    [ ("country_code", PStr country_code);
      ("country_name", of_optional_str (country_name country_profile_data));
      ("overall_score", PNum (overall_score l));
      ("sub_scores",
        PDict [ ("travel_risk", PNum (pyround (travel_risk_sub_score l) 0));
                ("health_infra", PNum (pyround (health_infra_score l) 0));
                ("env_stability", PNum (pyround (env_stability_score l) 0)) ]);
      ("explanation", PStr explanation) ]%string in
  if debug_mode then
    dict_set result "debug_analysis"
      (PDict [ ("weights_used", PDict (map (prod_map id PNum) (weights l)));
               ("raw_metrics",
                 PDict (map (prod_map id of_optional) (raw_metrics l)));
               ("normalized_metrics",
                 PDict (map (prod_map id PNum) (normalized_scores l))) ]%string)
  else result.

(** [_fetch_and_build]: the tuple [(result, is_cache_hit, missing_metrics)]
    it returns for the providers' answers [r], or the exception it
    raises. *)
Definition _fetch_and_build (country_code risk_tolerance duration : string)
    (debug_mode : bool) (r : responses F)
  : result (pydict (pyvalue F) * bool * list string) :=
  match r_country_profile r with
  | None => Ok ([], false, ["country_profile"%string])
  | Some country_profile_data =>
      let iso2_code := iso2 country_profile_data in
      if falsy iso2_code then Ok ([], false, ["iso2_code"%string])
      else
        l ← pipeline risk_tolerance duration country_profile_data r;
        let result :=
          build_result country_code risk_tolerance duration debug_mode
            country_profile_data l in
        mret (result, false, missing_metrics l)
  end.
End Defs.

(** ** [analyze_country] and the event loop *)

Abbreviation caller_id := nat.

(** The arguments of one call of [analyze_country]. *)
Record call_args : Type := {
  country_code : string;
  risk_tolerance : string;
  duration : string;
  debug_mode : bool;
}.

(** [f"{country_code}_{risk_tolerance}_{duration}"] *)
Definition cache_key (a : call_args) : string :=
  country_code a +:+ "_" +:+ risk_tolerance a +:+ "_" +:+ duration a.

(** The tuple a finished [_fetch_and_build] task holds; its first
    component is a reference to the result dictionary. *)
Record built : Type := {
  b_result : loc;
  b_is_cache_hit : bool;
  b_missing_metrics : list string;
}.

Inductive task_state : Type :=
  | Pending
  | Done (b : built)
  | Failed (e : exn).

(** A task created by [asyncio.create_task(_fetch_and_build(...))]. *)
Record task : Type := {
  t_args : call_args;
  t_state : task_state;
}.

(** What sits in the first position of the tuple [analyze_country]
    returns: a reference to a dictionary, or (line 278) whatever awaiting
    the in-flight task yields, which is that task's whole tuple. *)
Inductive returned_result : Type :=
  | RDict (l : loc)
  | RTuple (b : built).

(** Where a call of [analyze_country] stands. *)
Inductive caller_state : Type :=
  | AwaitOwn (cache_key : string) (t : task_id)   (* suspended at line 287 *)
  | AwaitShared (t : task_id)                     (* suspended at line 278 *)
  | Returned (r : returned_result) (is_cache_hit : bool)
             (missing_metrics : list string)
  | Raised (e : exn).

(** Line 278, [return await get_in_flight(cache_key), False, []]: the call
    waits for the task unless it is done already, and returns what the
    task holds; an exception of the task propagates. *)
Definition await_in_flight (t : task_id) (st : task_state) : caller_state :=
  match st with
  | Pending => AwaitShared t
  | Done b => Returned (RTuple b) false []
  | Failed e => Raised e
  end.

Section Coroutine.
Context {F : Type} `{PyFloat F}.

(** The process: the clock, the two module-level objects of
    cache_manager.py, the tasks created so far (a task's id is its
    index), the dictionaries allocated so far (a reference is an index),
    and the calls of [analyze_country] made so far. *)
Record world : Type := {
  now : Z;
  country_cache : TTLCache loc;
  in_flight_requests : gmap string task_id;
  tasks : list task;
  heap : list (pydict (pyvalue F));
  callers : gmap caller_id caller_state;
}.

Definition init_world : world :=
  {| now := 0;
     country_cache := CacheManager.country_cache_init;
     in_flight_requests := CacheManager.in_flight_requests_init;
     tasks := [];
     heap := [];
     callers := ∅ |}.

(** What the event loop and its environment can do next.  The awaits
    inside [_fetch_and_build] touch neither the cache nor the registry, so
    a task runs from creation to its end in one step, on the answers the
    providers give it. *)
Inductive event : Type :=
  | Tick (dt : Z)                        (* the clock advances *)
  | Call (c : caller_id) (a : call_args) (* a call runs up to its first await or return *)
  | Finish (t : task_id) (r : responses F) (* a task runs to its end on the answers r *)
  | Crash (t : task_id) (e : exn)        (* a task ends by an exception from outside the pipeline *)
  | Resume (c : caller_id)               (* a suspended call continues after its await *)
  | Mutate (l : loc) (d : pydict (pyvalue F)). (* a holder of a reference updates the dictionary in place *)

(** Lines 269-284, up to the first [await] that suspends.  Awaiting a
    task that is already done does not suspend. *)
Definition analyze_country_enter (c : caller_id) (a : call_args) (w : world)
  : option world :=
  let cache_key := cache_key a in
  let '(cached_result, cache) :=
    CacheManager.get_cached (now w) (country_cache w) cache_key in
  match cached_result with
  | Some l =>
      Some {| now := now w; country_cache := cache;
              in_flight_requests := in_flight_requests w;
              tasks := tasks w; heap := heap w;
              callers := <[c := Returned (RDict l) true []]> (callers w) |}
  | None =>
      if CacheManager.is_in_flight (in_flight_requests w) cache_key then
        t ← CacheManager.get_in_flight (in_flight_requests w) cache_key;
        tk ← tasks w !! t;
        Some {| now := now w; country_cache := cache;
                in_flight_requests := in_flight_requests w;
                tasks := tasks w; heap := heap w;
                callers := <[c := await_in_flight t (t_state tk)]> (callers w) |}
      else
        let t := length (tasks w) in
        Some {| now := now w; country_cache := cache;
                in_flight_requests :=
                  CacheManager.set_in_flight (in_flight_requests w) cache_key t;
                tasks := tasks w ++ [{| t_args := a; t_state := Pending |}];
                heap := heap w;
                callers := <[c := AwaitOwn cache_key t]> (callers w) |}
  end.

(** The rest of [analyze_country] once the awaited task is done: lines
    287-291 for the call that created the task, line 278 for a call that
    found it in flight. *)
Definition analyze_country_resume (c : caller_id) (w : world) : option world :=
  st ← callers w !! c;
  match st with
  | AwaitOwn cache_key t =>
      tk ← tasks w !! t;
      match t_state tk with
      | Pending => None
      | Done b =>
          let result := b_result b in
          let is_cache_hit := b_is_cache_hit b in
          let missing_metrics := b_missing_metrics b in
          let cache :=
            CacheManager.set_cache (now w) (country_cache w) cache_key
              (Some result) in
          Some {| now := now w; country_cache := cache;
                  in_flight_requests :=
                    CacheManager.remove_in_flight (in_flight_requests w) cache_key;
                  tasks := tasks w; heap := heap w;
                  callers :=
                    <[c := Returned (RDict result) is_cache_hit missing_metrics]>
                      (callers w) |}
      | Failed e =>
          Some {| now := now w; country_cache := country_cache w;
                  in_flight_requests :=
                    CacheManager.remove_in_flight (in_flight_requests w) cache_key;
                  tasks := tasks w; heap := heap w;
                  callers := <[c := Raised e]> (callers w) |}
      end
  | AwaitShared t =>
      tk ← tasks w !! t;
      match t_state tk with
      | Pending => None
      | Done _ | Failed _ =>
          Some {| now := now w; country_cache := country_cache w;
                  in_flight_requests := in_flight_requests w;
                  tasks := tasks w; heap := heap w;
                  callers := <[c := await_in_flight t (t_state tk)]> (callers w) |}
      end
  | Returned _ _ _ | Raised _ => None
  end.

(** A pending task ends with the state [st]. *)
Definition settle (t : task_id) (st : task_state)
    (hp : list (pydict (pyvalue F))) (w : world) : option world :=
  tk ← tasks w !! t;
  match t_state tk with
  | Pending =>
      Some {| now := now w; country_cache := country_cache w;
              in_flight_requests := in_flight_requests w;
              tasks := <[t := {| t_args := t_args tk; t_state := st |}]> (tasks w);
              heap := hp;
              callers := callers w |}
  | Done _ | Failed _ => None
  end.

(** The task [t] runs [_fetch_and_build] on its arguments. *)
Definition run_task (t : task_id) (r : responses F) (w : world) : option world :=
  tk ← tasks w !! t;
  let a := t_args tk in
  match _fetch_and_build (country_code a) (risk_tolerance a) (duration a)
          (debug_mode a) r with
  | Ok (result, is_cache_hit, missing_metrics) =>
      settle t
        (Done {| b_result := length (heap w); b_is_cache_hit := is_cache_hit;
                 b_missing_metrics := missing_metrics |})
        (heap w ++ [result]) w
  | Raise e => settle t (Failed e) (heap w) w
  end.

Definition step (e : event) (w : world) : option world :=
  match e with
  | Tick dt =>
      if 0 <=? dt then
        Some {| now := now w + dt; country_cache := country_cache w;
                in_flight_requests := in_flight_requests w;
                tasks := tasks w; heap := heap w; callers := callers w |}
      else None
  | Call c a =>
      match callers w !! c with
      | None => analyze_country_enter c a w
      | Some _ => None
      end
  | Finish t r => run_task t r w
  | Crash t e => settle t (Failed e) (heap w) w
  | Resume c => analyze_country_resume c w
  | Mutate l d =>
      if bool_decide (l < length (heap w))%nat then
        Some {| now := now w; country_cache := country_cache w;
                in_flight_requests := in_flight_requests w;
                tasks := tasks w; heap := <[l := d]> (heap w);
                callers := callers w |}
      else None
  end.

Fixpoint run (es : list event) (w : world) : option world :=
  match es with
  | [] => Some w
  | e :: es' => w' ← step e w; run es' w'
  end.

(** The states the process can be in. *)
Inductive reachable : world → Prop :=
  | reachable_init : reachable init_world
  | reachable_step e w w' : reachable w → step e w = Some w' → reachable w'.

(** The tasks created so far for one cache key: the executions of the
    fetch pipeline triggered for it. *)
Definition pipelines (key : string) (w : world) : list task :=
  List.filter (fun tk => String.eqb (cache_key (t_args tk)) key) (tasks w).
End Coroutine.
Arguments world F : clear implicits.
Arguments event F : clear implicits.
End Aggregator.

(* ===================================================================== *)
(** * Vocabulary of the properties *)
(* ===================================================================== *)

Set Warnings "-inexact-float".

(** The two request parameters, as the request validator admits them. *)
Inductive risk_level : Type := Low | Moderate | High.
Inductive stay : Type := ShortTerm | LongTerm.

Definition risk_name (r : risk_level) : string :=
  match r with Low => "low" | Moderate => "moderate" | High => "high" end.

Definition stay_name (d : stay) : string :=
  match d with ShortTerm => "short-term" | LongTerm => "long-term" end.

(** The exact sum of the rationals a list of numbers denotes. *)
Definition exact_sum {F} `{PyFloat F} (xs : list F) : option Q :=
  foldr (fun x acc =>
           match exact x, acc with
           | Some a, Some b => Some (a + b)%Q
           | _, _ => None
           end) (Some 0%Q) xs.

(** [|x - target| <= tol], for a finite [x]. *)
Definition within (tol target : Q) (x : option Q) : bool :=
  match x with
  | Some q => Qle_bool (Qabs (q - target)) tol
  | None => false
  end.

(** A finite value between 0 and 1. *)
Definition in_unit_interval {F} `{PyFloat F} (x : F) : bool :=
  match exact x with
  | Some q => Qle_bool 0 q && Qle_bool q 1
  | None => false
  end.

Definition all_in_unit_interval {F} `{PyFloat F} (d : pydict F) : bool :=
  forallb (fun kv => in_unit_interval kv.2) d.

(** The table of section 4.3 of the specification, formula by formula. *)
Definition spec_clamp (x lo hi : Q) : Q := Qmax lo (Qmin hi x).
Definition spec_life_expectancy (v : Q) : Q := spec_clamp ((v - 50) / 35) 0 1.
Definition spec_gdp_per_capita (v : Q) : Q := Qmin (v / 80000) 1.
Definition spec_population (v : Q) : Q := 1 - Qmin (v / 1500000000) 1.
Definition spec_pm (v : Q) : Q := 1 - Qmin (v / 100) 1.
Definition spec_travel_advisory_score (v : Q) : Q := 1 - v / 100.
Definition spec_temperature (v : Q) : Q :=
  if Qle_bool 15 v && Qle_bool v 28 then 1
  else if Qle_bool 15 v then Qmax 0 (1 - (v - 28) / 12)
  else Qmax 0 (1 - (15 - v) / 15).
Definition spec_humidity (v : Q) : Q := 0.5.

(** The raw values the providers can deliver: amounts and concentrations
    are not negative, an advisory score lies on the 0-100 scale. *)
Definition nonneg (v : option Q) : bool :=
  match v with Some q => Qle_bool 0 q | None => true end.

Definition provider_ranges (metrics : pydict (option Q)) : bool :=
  nonneg (get_optional metrics "gdp_per_capita")
  && nonneg (get_optional metrics "population")
  && nonneg (get_optional metrics "pm25")
  && nonneg (get_optional metrics "pm10")
  && match get_optional metrics "travel_advisory_score" with
     | Some q => Qle_bool 0 q && Qle_bool q 100
     | None => true
     end.

(** A provider fetch that failed: it raised, or it returned a dictionary
    whose every metric is [None]. *)
Definition failing {F} (g : gathered (pydict (option F))) : Prop :=
  ∀ k, get_optional (value_or_empty g) k = None.

(** The [overall_score] entry of a result dictionary. *)
Definition overall_score_of {F} (d : pydict (pyvalue F)) : option F :=
  match dict_get d "overall_score" with
  | Some (PNum x) => Some x
  | _ => None
  end.

(** France as the profile provider describes it. *)
Definition france : country_profile float :=
  {| country_name := Some "France"%string; iso2 := Some "FR"%string;
     lat := Some 46%float; lon := Some 2%float;
     population := Some 67391582%float |}.

(** The identity fetch answers [p]; the four provider fetches raise. *)
Definition all_four_fail (p : country_profile float) : responses float :=
  {| r_country_profile := Some p;
     r_worldbank_health := Exception_; r_travel_advisory := Exception_;
     r_weather := Exception_; r_aqi := Exception_ |}.


(** ** The cache and the coroutines *)

Import Aggregator.

(** No entry for [key] is still valid at [time]. *)
Definition uncached {V} (time : Z) (c : TTLCache V) (key : string) : Prop :=
  ∀ l, In l (links c) → l_key l = key → l_expires l <= time.

(** Every key has at most one entry. *)
Definition distinct_keys {V} (c : TTLCache V) : Prop :=
  List.NoDup (map l_key (links c)).

(** The number of executions of the fetch pipeline triggered so far for
    one cache key. *)
Definition pipelines_started {F} (key : string) (w : world F) : nat :=
  length (pipelines key w).

(** The task [t] is an execution of the pipeline for [key] that has not
    finished. *)
Definition running {F} (w : world F) (t : task_id) (key : string) : Prop :=
  ∃ tk, tasks w !! t = Some tk ∧ t_state tk = Pending
        ∧ cache_key (t_args tk) = key.

(** The call [c] shares the computation of task [t]: it is suspended on
    it, or it has already taken what the finished task holds. *)
Definition shares {F} (w : world F) (c : caller_id) (t : task_id) : Prop :=
  callers w !! c = Some (AwaitShared t)
  ∨ (∃ tk b, tasks w !! t = Some tk ∧ t_state tk = Done b
             ∧ callers w !! c = Some (Returned (RTuple b) false []))
  ∨ (∃ tk e, tasks w !! t = Some tk ∧ t_state tk = Failed e
             ∧ callers w !! c = Some (Raised e)).

(** What holds of the registry, the cache and the suspended calls in
    every state of the process. *)
Record consistent {F} (w : world F) : Prop := {
  pending_registered :
    ∀ t tk, tasks w !! t = Some tk → t_state tk = Pending →
            in_flight_requests w !! cache_key (t_args tk) = Some t;
  registered_task :
    ∀ key t, in_flight_requests w !! key = Some t →
             ∃ tk, tasks w !! t = Some tk ∧ cache_key (t_args tk) = key;
  owner_registered :
    ∀ c key t, callers w !! c = Some (AwaitOwn key t) →
               in_flight_requests w !! key = Some t;
  owner_unique :
    ∀ c c' key t t', callers w !! c = Some (AwaitOwn key t) →
                     callers w !! c' = Some (AwaitOwn key t') → c = c';
  owner_uncached :
    ∀ c key t, callers w !! c = Some (AwaitOwn key t) →
               uncached (now w) (country_cache w) key;
  cache_distinct : distinct_keys (country_cache w);
}.

(** The time a list of events lets pass. *)
Fixpoint elapsed {F} (es : list (event F)) : Z :=
  match es with
  | [] => 0
  | Tick dt :: es' => dt + elapsed es'
  | _ :: es' => elapsed es'
  end.

(** A call has come to its end. *)
Definition finished (st : caller_state) : bool :=
  match st with
  | Returned _ _ _ | Raised _ => true
  | AwaitOwn _ _ | AwaitShared _ => false
  end.

(** The request [analyze("FRA", "low", "short-term", debug=False)]. *)
Definition analyze_fra : call_args :=
  {| country_code := "FRA"; risk_tolerance := "low";
     duration := "short-term"; debug_mode := false |}.

(** What [fetch_country_profile] returns when the profile provider cannot
    be reached (external_clients.py, lines 61-99): the code as the name,
    zero coordinates, and no ISO2 code; the other providers are not asked. *)
Definition profile_unavailable : responses float :=
  {| r_country_profile :=
       Some {| country_name := Some "FRA"%string; iso2 := None;
               lat := Some 0%float; lon := Some 0%float;
               population := None |};
     r_worldbank_health := Exception_; r_travel_advisory := Exception_;
     r_weather := Exception_; r_aqi := Exception_ |}.

(** The seven metrics the four providers supply, or would. *)
Definition provider_metrics : list string :=
  [ "life_expectancy"; "gdp_per_capita"; "pm25"; "pm10";
    "travel_advisory_score"; "temperature"; "humidity" ]%string.

(* ===================================================================== *)
(** * services/aggregator.py: the module's own weighting and scoring *)
(* ===================================================================== *)

(** [_get_weights] and [_score_country] (aggregator.py, lines 200-263),
    the copies the module keeps and never calls. *)
Module AggregatorLocal.
Section Defs.
Context {F : Type} `{PyFloat F}.
Local Open Scope py_scope.

Definition _get_weights (risk_tolerance duration : string) : pydict F :=
  let weights : pydict F :=
    [ ("life_expectancy", lit 0.20);
      ("gdp_per_capita", lit 0.20);
      ("population", lit 0.10);
      ("pm25", lit 0.15);
      ("travel_advisory_score", lit 0.15);
      ("temperature", lit 0.10);
      ("humidity", lit 0.10) ]%string in
  let weights :=
    if String.eqb risk_tolerance "low" then
      let weights := dict_set weights "life_expectancy" (lit 0.20) in
      let weights := dict_set weights "gdp_per_capita" (lit 0.15) in
      let weights := dict_set weights "population" (lit 0.05) in
      let weights := dict_set weights "pm25" (lit 0.20) in
      let weights := dict_set weights "travel_advisory_score" (lit 0.25) in
      let weights := dict_set weights "temperature" (lit 0.15) in
      dict_set weights "humidity" (lit 0.00)
    else if String.eqb risk_tolerance "high" then
      let weights := dict_set weights "life_expectancy" (lit 0.20) in
      let weights := dict_set weights "gdp_per_capita" (lit 0.30) in
      let weights := dict_set weights "population" (lit 0.15) in
      let weights := dict_set weights "pm25" (lit 0.10) in
      let weights := dict_set weights "travel_advisory_score" (lit 0.10) in
      let weights := dict_set weights "temperature" (lit 0.15) in
      dict_set weights "humidity" (lit 0.00)
    else weights in
  let weights :=
    if String.eqb duration "short-term" then
      let weights := dict_imul weights "temperature" (lit 1.2) in
      let weights := dict_imul weights "humidity" (lit 1.1) in
      let weights := dict_imul weights "pm25" (lit 1.2) in
      let weights := dict_imul weights "travel_advisory_score" (lit 1.2) in
      let weights := dict_imul weights "life_expectancy" (lit 0.8) in
      dict_imul weights "population" (lit 0.8)
    else if String.eqb duration "long-term" then
      let weights := dict_imul weights "life_expectancy" (lit 1.2) in
      let weights := dict_imul weights "gdp_per_capita" (lit 1.2) in
      let weights := dict_imul weights "population" (lit 1.2) in
      let weights := dict_imul weights "temperature" (lit 0.8) in
      let weights := dict_imul weights "humidity" (lit 0.9) in
      let weights := dict_imul weights "pm25" (lit 0.9) in
      dict_imul weights "travel_advisory_score" (lit 0.9)
    else weights in
  let total_weight := pysum (dict_values weights) in
  if lit 0 <? total_weight then
    map (fun kv => (kv.1, kv.2 / total_weight)) weights
  else weights.

Definition _score_country (metrics weights : pydict F) : F :=
  let score :=
    fold_left
      (fun score kv => score + kv.2 * get_default weights kv.1 (lit 0.0))
      metrics (lit 0.0) in
  pyround (score * lit 100) 2.
End Defs.
End AggregatorLocal.

(* ===================================================================== *)
(** * services/external_clients.py *)
(* ===================================================================== *)

(** The first country of the profile provider's answer, as far as
    [fetch_country_profile] reads it: the common name, the coordinates
    (if the key is there), the two-letter code and the population. *)
Record rest_country (F : Type) : Type := {
  rc_name_common : option string;
  rc_latlng : option (list F);
  rc_cca2 : option string;
  rc_population : option F;
}.
Arguments rc_name_common {F} _.
Arguments rc_latlng {F} _.
Arguments rc_cca2 {F} _.
Arguments rc_population {F} _.

(** How the request to the profile provider ends: with a list whose first
    element is a country, with no data, or with an exception (an HTTP
    error status, a failed request, or anything else). *)
Inductive profile_outcome (F : Type) : Type :=
  | ProfileFound (country_data : rest_country F)
  | ProfileNoData
  | ProfileFailed.
Arguments ProfileFound {F} country_data.
Arguments ProfileNoData {F}.
Arguments ProfileFailed {F}.

(** The answer to the request for one World Bank indicator: an exception
    (an HTTP error status, a failed request, an answer that is not JSON),
    or the values of the entries of the series in the order of the
    answer, [None] for null; no entries when the series is missing or
    empty. *)
Inductive indicator_response (F : Type) : Type :=
  | IndicatorError
  | IndicatorData (values : list (option F)).
Arguments IndicatorError {F}.
Arguments IndicatorData {F} values.

Module ExternalClients.
Section Defs.
Context {F : Type} `{PyFloat F}.
Local Open Scope py_scope.

(** [fetch_country_profile] (lines 23-99), in the fields the pipeline
    reads.  Every path returns a dictionary with all its keys; outside
    the first, the name is the country code, the coordinates are 0 and
    the ISO2 code and the population are [None]. *)
Definition fetch_country_profile (country_code : string)
    (outcome : profile_outcome F) : country_profile F :=
  match outcome with
  | ProfileFound country_data =>
      let latlng := default [lit 0; lit 0] (rc_latlng country_data) in
      {| country_name :=
           Some (default country_code (rc_name_common country_data));
         iso2 := rc_cca2 country_data;
         lat := Some (nth 0 latlng (lit 0));
         lon := Some (nth 1 latlng (lit 0));
         population := rc_population country_data |}
  | ProfileNoData | ProfileFailed =>
      {| country_name := Some country_code; iso2 := None;
         lat := Some (lit 0); lon := Some (lit 0); population := None |}
  end.

(** The first value of a series that is not null (lines 126-130). *)
Definition first_value (values : list (option F)) : option F :=
  List.fold_right (fun v rest => match v with Some x => Some x | None => rest end)
    None values.

(** [fetch_worldbank_health] (lines 101-161) on the answers to its three
    requests.  The three requests are made and their status checked before
    any answer is read, inside one [try]: if one of them fails, the three
    metrics stay [None].  Otherwise each metric is the first value that is
    not null in its series (the values are taken to be numbers). *)
Definition fetch_worldbank_health
    (life_expectancy health_expenditure gdp_per_capita : indicator_response F)
  : pydict (option F) :=
  match life_expectancy, health_expenditure, gdp_per_capita with
  | IndicatorData l, IndicatorData h, IndicatorData g =>
      [ ("life_expectancy", first_value l);
        ("health_expenditure", first_value h);
        ("gdp_per_capita", first_value g) ]%string
  | _, _, _ =>
      [ ("life_expectancy", None); ("health_expenditure", None);
        ("gdp_per_capita", None) ]%string
  end.

(** Line 245 of [fetch_travel_advisory],
    [advisory_score = (level / 4.0) * 100.0], for the integer [level]
    read from a category "Level X: ...". *)
Definition advisory_score (level : Z) : F :=
  (lit (inject_Z level) / lit 4.0) * lit 100.0.
End Defs.
End ExternalClients.

(* ===================================================================== *)
(** * server.py *)
(* ===================================================================== *)

(** [d.pop(k)], for a key the dictionary has. *)
Definition dict_pop {V} (d : pydict V) (k : string) : pydict V :=
  List.filter (fun kv => negb (String.eqb kv.1 k)) d.

Module Server.

(** The exceptions of the validators and of the handler. *)
Inductive server_exn : Type :=
  | ValueError (msg : string)
  | AttributeError (name : string)
  | KeyError (key : string)
  | TypeError.

Inductive outcome (A : Type) : Type :=
  | Return (a : A)
  | Raises (e : server_exn).
Arguments Return {A} a.
Arguments Raises {A} e.

(** ** The validators of [AnalyzeRequest] (lines 63-87) *)

Section Validators.
(** [str.lower], [str.upper], [str.isalpha] and [len]: builtins of
    Python's Unicode strings, which the validators are written over. *)
Variables (lower upper : string → string) (isalpha : string → bool)
  (len : string → nat).

Definition validate_countries (v : list string) : outcome (list string) :=
  if bool_decide (length v < 3)%nat then
    Raises (ValueError "At least 3 countries required")
  else if forallb (fun code => negb (negb (Nat.eqb (len code) 3)
                                      || negb (isalpha code))) v then
    Return (map upper v)
  else Raises (ValueError "Countries must be ISO3 codes (e.g., FRA, JPN)").

Definition validate_risk (v : string) : outcome string :=
  let allowed := ["low"; "moderate"; "high"]%string in
  if bool_decide (lower v ∉ allowed) then
    Raises (ValueError "risk_tolerance must be low, moderate, or high")
  else Return (lower v).

Definition validate_duration (v : string) : outcome string :=
  let allowed := ["short-term"; "long-term"]%string in
  if bool_decide (lower v ∉ allowed) then
    Raises (ValueError "duration must be short-term or long-term")
  else Return (lower v).
End Validators.

(** The builtins on strings of ASCII characters. *)
Definition ascii_is_upper (a : Ascii.ascii) : bool :=
  (65 <=? Ascii.N_of_ascii a)%N && (Ascii.N_of_ascii a <=? 90)%N.
Definition ascii_is_lower (a : Ascii.ascii) : bool :=
  (97 <=? Ascii.N_of_ascii a)%N && (Ascii.N_of_ascii a <=? 122)%N.

Definition ascii_lower (s : string) : string :=
  String.string_of_list_ascii
    (map (fun a => if ascii_is_upper a
                   then Ascii.ascii_of_N (Ascii.N_of_ascii a + 32) else a)
       (String.list_ascii_of_string s)).
Definition ascii_upper (s : string) : string :=
  String.string_of_list_ascii
    (map (fun a => if ascii_is_lower a
                   then Ascii.ascii_of_N (Ascii.N_of_ascii a - 32) else a)
       (String.list_ascii_of_string s)).
Definition ascii_isalpha (s : string) : bool :=
  negb (String.eqb s "")
  && forallb (fun a => ascii_is_upper a || ascii_is_lower a)
       (String.list_ascii_of_string s).

(** ** The handler [analyze] (lines 90-158) *)

Record request : Type := {
  countries : list string;
  risk_tolerance : string;
  duration : string;
  debug : bool;
}.

(** Line 92: one call of [analyze_country] per country. *)
Definition analyze_tasks (request : request) : list call_args :=
  map (fun country_code =>
         {| Aggregator.country_code := country_code;
            Aggregator.risk_tolerance := risk_tolerance request;
            Aggregator.duration := duration request;
            Aggregator.debug_mode := debug request |})
    (countries request).

Section Handler.
Context {F : Type} `{PyFloat F}.

(** The lists and the dictionary the first loop fills (lines 95-99). *)
Record collected : Type := {
  final_results : list returned_result;
  cache_hits : list string;
  cache_misses : list string;
  all_missing_metrics : list string;
  debug_analyses : pydict (pydict (pyvalue F));
}.

(** What the handler returns.  [list(set(all_missing_metrics))] comes in
    an order Python does not fix: the set of its elements.  The results
    are references to the dictionaries, as the handler holds them; the
    check of the returned value against [AnalyzeResponse], which the
    framework runs afterwards, is not part of the handler. *)
Record response : Type := {
  results : list returned_result;
  metadata_cache_hits : list string;
  metadata_cache_misses : list string;
  metadata_missing_metrics : gset string;
  metadata_debug_analyses : option (pydict (pydict (pyvalue F)));
}.

(** An [int] written into a dictionary: the number of the same value. *)
Definition of_int (n : nat) : pyvalue F := PNum (lit (inject_Z (Z.of_nat n))).

(** One round of the first loop (lines 101-128), on the dictionaries
    [hp]: [None] when [gather] cannot have returned this ([res_tuple] is
    of a call that has not finished, or a reference to no dictionary). *)
Definition collect_one (debug : bool) (country_code : string)
    (res_tuple : caller_state) (acc : collected)
    (hp : list (pydict (pyvalue F)))
  : option (outcome collected * list (pydict (pyvalue F))) :=
  let failed :=
    {| final_results := final_results acc;
       cache_hits := cache_hits acc;
       cache_misses := cache_misses acc;
       all_missing_metrics := all_missing_metrics acc ++ [country_code];
       debug_analyses := debug_analyses acc |} in
  let appended (result_dict : returned_result) (is_cache_hit : bool)
      (country_missing_metrics : list string)
      (debug_analyses : pydict (pydict (pyvalue F))) :=
    {| final_results := final_results acc ++ [result_dict];
       cache_hits :=
         if is_cache_hit then cache_hits acc ++ [country_code]
         else cache_hits acc;
       cache_misses :=
         if is_cache_hit then cache_misses acc
         else cache_misses acc ++ [country_code];
       all_missing_metrics := all_missing_metrics acc ++ country_missing_metrics;
       debug_analyses := debug_analyses |} in
  match res_tuple with
  | AwaitOwn _ _ | AwaitShared _ => None
  | Raised _ => Some (Return failed, hp)
  | Returned (RTuple b) is_cache_hit country_missing_metrics =>
      (* a tuple of three is true, and none of its members equals
         "debug_analysis" *)
      Some (Return (appended (RTuple b) is_cache_hit country_missing_metrics
                      (debug_analyses acc)), hp)
  | Returned (RDict l) is_cache_hit country_missing_metrics =>
      result_dict ← hp !! l;
      match result_dict with
      | [] => Some (Return failed, hp)
      | _ :: _ =>
          match (if debug then dict_get result_dict "debug_analysis" else None) with
          | Some debug_analysis =>
              let result_dict := dict_pop result_dict "debug_analysis" in
              let hp := <[l := result_dict]> hp in
              match dict_get result_dict "overall_score" with
              | None => Some (Raises (KeyError "overall_score"), hp)
              | Some overall_score =>
                  match debug_analysis with
                  | PDict debug_analysis =>
                      let debug_analysis :=
                        dict_set debug_analysis "pre_sorted_score" overall_score in
                      Some (Return (appended (RDict l) is_cache_hit
                                      country_missing_metrics
                                      (dict_set (debug_analyses acc) country_code
                                         debug_analysis)), hp)
                  | PNone | PStr _ | PNum _ => Some (Raises TypeError, hp)
                  end
              end
          | None =>
              Some (Return (appended (RDict l) is_cache_hit
                              country_missing_metrics (debug_analyses acc)), hp)
          end
      end
  end.

(** The first loop, over the results of [gather] and the countries they
    belong to. *)
Fixpoint collect (debug : bool) (entries : list (string * caller_state))
    (acc : collected) (hp : list (pydict (pyvalue F)))
  : option (outcome collected * list (pydict (pyvalue F))) :=
  match entries with
  | [] => Some (Return acc, hp)
  | (country_code, res_tuple) :: entries' =>
      '(o, hp') ← collect_one debug country_code res_tuple acc hp;
      match o with
      | Return acc' => collect debug entries' acc' hp'
      | Raises e => Some (Raises e, hp')
      end
  end.

(** [x.get("overall_score", 0)] (line 131). *)
Definition sort_key (hp : list (pydict (pyvalue F))) (x : returned_result)
  : option (outcome (pyvalue F)) :=
  match x with
  | RTuple _ => Some (Raises (AttributeError "get"))
  | RDict l => d ← hp !! l; Some (Return (get_default d "overall_score" (of_int 0)))
  end.

(** The keys of all elements are computed before any is compared. *)
Fixpoint sort_keys (hp : list (pydict (pyvalue F))) (xs : list returned_result)
  : option (outcome (list (pyvalue F * returned_result))) :=
  match xs with
  | [] => Some (Return [])
  | x :: xs' =>
      k ← sort_key hp x;
      match k with
      | Raises e => Some (Raises e)
      | Return k =>
          ks ← sort_keys hp xs';
          match ks with
          | Raises e => Some (Raises e)
          | Return ks => Some (Return ((k, x) :: ks))
          end
      end
  end.

(** [a < b] on two keys: numbers and strings are ordered among
    themselves, anything else raises TypeError. *)
Definition key_lt (a b : pyvalue F) : outcome bool :=
  match a, b with
  | PNum x, PNum y => Return (flt x y)
  | PStr s, PStr t => Return (String.ltb s t)
  | _, _ => Raises TypeError
  end.

(** [list.sort(key=..., reverse=True)] is stable: the elements come out
    in descending order of their keys, those with equal keys in the order
    they had.  It is written here as an insertion from the left, which
    yields what CPython's merge sort yields whenever [<] orders the keys
    (no nan among them), and raises as it does when two keys cannot be
    compared. *)
Fixpoint insert_descending (kx : pyvalue F * returned_result)
    (sorted : list (pyvalue F * returned_result))
  : outcome (list (pyvalue F * returned_result)) :=
  match sorted with
  | [] => Return [kx]
  | ky :: sorted' =>
      match key_lt ky.1 kx.1 with
      | Raises e => Raises e
      | Return true => Return (kx :: ky :: sorted')
      | Return false =>
          match insert_descending kx sorted' with
          | Raises e => Raises e
          | Return r => Return (ky :: r)
          end
      end
  end.

Definition sort_descending (keyed : list (pyvalue F * returned_result))
  : outcome (list (pyvalue F * returned_result)) :=
  fold_left
    (fun acc kx =>
       match acc with
       | Return sorted => insert_descending kx sorted
       | Raises e => Raises e
       end)
    keyed (Return []).

(** The second loop (lines 134-138), from index [i] on. *)
Fixpoint assign_ranks (debug : bool) (i : nat) (final_results : list returned_result)
    (debug_analyses : pydict (pydict (pyvalue F)))
    (hp : list (pydict (pyvalue F)))
  : option (outcome (pydict (pydict (pyvalue F)))
            * list (pydict (pyvalue F))) :=
  match final_results with
  | [] => Some (Return debug_analyses, hp)
  | RTuple _ :: _ => Some (Raises TypeError, hp)
  | RDict l :: final_results' =>
      result ← hp !! l;
      let result := dict_set result "rank" (of_int (i + 1)) in
      let hp := <[l := result]> hp in
      if debug then
        match dict_get result "country_code" with
        | None => Some (Raises (KeyError "country_code"), hp)
        | Some (PDict _) => Some (Raises TypeError, hp)
        | Some (PStr country_code) =>
            match dict_get debug_analyses country_code with
            | Some debug_analysis =>
                assign_ranks debug (S i) final_results'
                  (dict_set debug_analyses country_code
                     (dict_set debug_analysis "post_sort_rank" (of_int (i + 1))))
                  hp
            | None => assign_ranks debug (S i) final_results' debug_analyses hp
            end
        | Some PNone | Some (PNum _) =>
            assign_ranks debug (S i) final_results' debug_analyses hp
        end
      else assign_ranks debug (S i) final_results' debug_analyses hp
  end.

(** Line 153: the list the log message is formatted from reads
    [r['country_code']] and [r['overall_score']] of every result. *)
Fixpoint log_final_results (hp : list (pydict (pyvalue F)))
    (final_results : list returned_result) : option (outcome ()) :=
  match final_results with
  | [] => Some (Return ())
  | RTuple _ :: _ => Some (Raises TypeError)
  | RDict l :: final_results' =>
      r ← hp !! l;
      match dict_get r "country_code", dict_get r "overall_score" with
      | None, _ => Some (Raises (KeyError "country_code"))
      | Some _, None => Some (Raises (KeyError "overall_score"))
      | Some _, Some _ => log_final_results hp final_results'
      end
  end.

(** Lines 95-158: what the handler does with the results of [gather],
    [raw_results], on the dictionaries [hp]; together with the
    dictionaries as it leaves them. *)
Definition analyze_respond (request : request) (raw_results : list caller_state)
    (hp : list (pydict (pyvalue F)))
  : option (outcome response * list (pydict (pyvalue F))) :=
  '(o, hp) ← collect (debug request) (zip (countries request) raw_results)
               {| final_results := []; cache_hits := []; cache_misses := [];
                  all_missing_metrics := []; debug_analyses := [] |} hp;
  match o with
  | Raises e => Some (Raises e, hp)
  | Return acc =>
      keyed ← sort_keys hp (final_results acc);
      match keyed with
      | Raises e => Some (Raises e, hp)
      | Return keyed =>
          match sort_descending keyed with
          | Raises e => Some (Raises e, hp)
          | Return sorted =>
              let final_results := map snd sorted in
              '(o, hp) ← assign_ranks (debug request) 0 final_results
                           (debug_analyses acc) hp;
              match o with
              | Raises e => Some (Raises e, hp)
              | Return debug_analyses =>
                  let unique_missing_metrics : gset string :=
                    list_to_set (all_missing_metrics acc) in
                  logged ← log_final_results hp final_results;
                  match logged with
                  | Raises e => Some (Raises e, hp)
                  | Return _ =>
                      Some (Return
                              {| results := final_results;
                                 metadata_cache_hits := cache_hits acc;
                                 metadata_cache_misses := cache_misses acc;
                                 metadata_missing_metrics := unique_missing_metrics;
                                 metadata_debug_analyses :=
                                   if debug request then Some debug_analyses
                                   else None |}, hp)
                  end
              end
          end
      end
  end.

(** The handler resumed after [gather], in the process [w]: [cs] are the
    calls of [analyze_country] it made, in the order of the countries. *)
Definition analyze_resume (request : request) (cs : list caller_id)
    (w : world F) : option (outcome response * world F) :=
  if bool_decide (length cs = length (countries request)) then
    raw_results ← mapM (fun c => callers w !! c) cs;
    '(o, hp) ← analyze_respond request raw_results (heap w);
    Some (o, {| now := now w; country_cache := country_cache w;
                in_flight_requests := in_flight_requests w;
                tasks := tasks w; heap := hp; callers := callers w |})
  else None.
End Handler.
Arguments collected F : clear implicits.
Arguments response F : clear implicits.
End Server.

(* ===================================================================== *)
(** * Vocabulary of the further properties *)
(* ===================================================================== *)

(** Every key of the registry was put there by a call that is still
    suspended on the task the key names. *)
Definition registry_owned {F} (w : world F) : Prop :=
  ∀ key t, in_flight_requests w !! key = Some t →
           ∃ c, callers w !! c = Some (AwaitOwn key t).

(** A call that waits for a task waits for one that exists. *)
Definition waits_on_task {F} (w : world F) : Prop :=
  ∀ c t, callers w !! c = Some (AwaitShared t) → is_Some (tasks w !! t).

(** The answers of providers none of which can be reached. *)
Definition unreachable_providers {F} : responses F :=
  {| r_country_profile := None;
     r_worldbank_health := Exception_; r_travel_advisory := Exception_;
     r_weather := Exception_; r_aqi := Exception_ |}.

(** The eight raw metrics, in the order [_fetch_and_build] lists them. *)
Definition metric_names : list string :=
  [ "life_expectancy"; "gdp_per_capita"; "population"; "pm25"; "pm10";
    "travel_advisory_score"; "temperature"; "humidity" ]%string.

(** The [rank] entry of a result dictionary. *)
Definition rank_of {F} (d : pydict (pyvalue F)) : option F :=
  match dict_get d "rank" with
  | Some (PNum x) => Some x
  | _ => None
  end.

(** The position of the last occurrence of [x] in a list. *)
Fixpoint last_index {A} `{EqDecision A} (x : A) (l : list A) : option nat :=
  match l with
  | [] => None
  | y :: l' =>
      match last_index x l' with
      | Some i => Some (S i)
      | None => if decide (y = x) then Some 0%nat else None
      end
  end.

(** Weights under which a weighted sum of values between 0 and 1 stays
    between 0 and 1: none is negative, and over the eight metrics they add
    up to at most 1. *)
Definition weights_admissible (w : pydict Q) : bool :=
  forallb (fun k => Qle_bool 0 (get_default w k (lit 0.0))) metric_names
  && Qle_bool
       (foldr Qplus 0%Q (map (fun k => get_default w k (lit 0.0)) metric_names))
       1.

(** The providers' answers identify the country: the profile is there and
    carries an ISO2 code. *)
Definition identified {F} (r : responses F) : bool :=
  match r_country_profile r with
  | Some p => negb (falsy (iso2 p))
  | None => false
  end.

(** The cache as cache_manager.py creates it, holding no more than it
    has room for. *)
Definition cache_bounded {V} (c : TTLCache V) : Prop :=
  maxsize c = 100%nat ∧ ttl c = 3600 ∧ (length (links c) <= 100)%nat.

(** What [gather] can hold for a call, on the dictionaries [hp]: the
    call has returned or raised, and a dictionary it returned exists. *)
Definition gathered_from {F} (hp : list (pydict (pyvalue F)))
    (st : caller_state) : Prop :=
  match st with
  | Returned (RDict l) _ _ => is_Some (hp !! l)
  | Returned (RTuple _) _ _ | Raised _ => True
  | AwaitOwn _ _ | AwaitShared _ => False
  end.

(** The result a call hands to the handler, if the handler takes it for
    one: what it returned, unless that is an empty dictionary. *)
Definition succeeded {F} (hp : list (pydict (pyvalue F)))
    (st : caller_state) : option returned_result :=
  match st with
  | Returned (RDict l) _ _ =>
      match hp !! l with
      | Some (_ :: _) => Some (RDict l)
      | _ => None
      end
  | Returned (RTuple b) _ _ => Some (RTuple b)
  | _ => None
  end.

(** [b] does not rank above [a]: if both are numbers, [b <= a]. *)
Definition not_above (a b : pyvalue Q) : Prop :=
  ∀ x y, a = PNum x → b = PNum y → (y <= x)%Q.

#[global] Instance built_eq_dec : EqDecision built.
Proof. solve_decision. Defined.

#[global] Instance returned_result_eq_dec : EqDecision returned_result.
Proof. solve_decision. Defined.

(** Germany at 12 degrees and Japan at 2 degrees, the other providers
    failing. *)
Definition germany_cool {F} `{PyFloat F} : responses F :=
  {| r_country_profile :=
       Some {| country_name := Some "Germany"%string; iso2 := Some "DE"%string;
               lat := Some (lit 51); lon := Some (lit 9);
               population := Some (lit 83240525) |};
     r_worldbank_health := Exception_; r_travel_advisory := Exception_;
     r_weather := Value [("temperature"%string, Some (lit 12))];
     r_aqi := Exception_ |}.

Definition japan_cold {F} `{PyFloat F} : responses F :=
  {| r_country_profile :=
       Some {| country_name := Some "Japan"%string; iso2 := Some "JP"%string;
               lat := Some (lit 36); lon := Some (lit 138);
               population := Some (lit 125836021) |};
     r_worldbank_health := Exception_; r_travel_advisory := Exception_;
     r_weather := Value [("temperature"%string, Some (lit 2))];
     r_aqi := Exception_ |}.

Definition france_failing {F} `{PyFloat F} : responses F :=
  {| r_country_profile :=
       Some {| country_name := Some "France"%string; iso2 := Some "FR"%string;
               lat := Some (lit 46); lon := Some (lit 2);
               population := Some (lit 67391582) |};
     r_worldbank_health := Exception_; r_travel_advisory := Exception_;
     r_weather := Exception_; r_aqi := Exception_ |}.

(** The request for France, Germany and Japan, low risk tolerance, short
    term, and the calls it makes answered in turn. *)
Definition three_countries (debug : bool) : Server.request :=
  {| Server.countries := ["FRA"; "DEU"; "JPN"]%string;
     Server.risk_tolerance := "low"; Server.duration := "short-term";
     Server.debug := debug |}.

Definition three_countries_run {F} `{PyFloat F} (debug : bool) (c : caller_id)
    (t : task_id) : list (event F) :=
  match Server.analyze_tasks (three_countries debug) with
  | [fra; deu; jpn] =>
      [ Call c fra; Call (c + 1) deu; Call (c + 2) jpn;
        Finish t france_failing; Finish (t + 1) germany_cool;
        Finish (t + 2) japan_cold;
        Resume c; Resume (c + 1); Resume (c + 2) ]%nat
  | _ => []
  end.

(* ===================================================================== *)
(** * Vocabulary: the normalization table by metric name *)
(* ===================================================================== *)

(** The table of section 4.3 of the specification read by metric name:
    the normalized value of a raw value, the fallback constant for an
    absent one, the formula of the metric for a present one; [None] for a
    name that is no metric. *)
Definition spec_normalize (metric_name : string) (value : option Q)
  : option Q :=
  let entry (fallback : Q) (formula : Q → Q) : option Q :=
    Some (match value with None => fallback | Some v => formula v end) in
  if String.eqb metric_name "life_expectancy" then
    entry 0.5%Q spec_life_expectancy
  else if String.eqb metric_name "gdp_per_capita" then
    entry 0.5%Q spec_gdp_per_capita
  else if String.eqb metric_name "population" then
    entry 0.5%Q spec_population
  else if String.eqb metric_name "pm25" then entry 0.5%Q spec_pm
  else if String.eqb metric_name "pm10" then entry 0.5%Q spec_pm
  else if String.eqb metric_name "travel_advisory_score" then
    entry 0.2%Q spec_travel_advisory_score
  else if String.eqb metric_name "temperature" then
    entry 0.5%Q spec_temperature
  else if String.eqb metric_name "humidity" then entry 0.5%Q spec_humidity
  else None.

(** The fallback constants of the table, as binary64 numbers. *)
Definition spec_fallback (metric_name : string) : option float :=
  if String.eqb metric_name "travel_advisory_score" then Some 0.2%float
  else if bool_decide (metric_name ∈ metric_names) then Some 0.5%float
  else None.

(* ===================================================================== *)
(** * Vocabulary: the weights before the duration adjusts them *)
(* ===================================================================== *)

(** Lines 5-31 of [get_weights]: the weights of a risk tolerance, as they
    stand before the multipliers of the duration are applied. *)
Definition risk_weights {F} `{PyFloat F} (risk_tolerance : string) : pydict F :=
  if String.eqb risk_tolerance "low" then
    [ ("life_expectancy", lit 0.20); ("gdp_per_capita", lit 0.15);
      ("population", lit 0.05); ("pm25", lit 0.20);
      ("travel_advisory_score", lit 0.35); ("temperature", lit 0.15);
      ("humidity", lit 0.00) ]%string
  else if String.eqb risk_tolerance "high" then
    [ ("life_expectancy", lit 0.20); ("gdp_per_capita", lit 0.30);
      ("population", lit 0.15); ("pm25", lit 0.10);
      ("travel_advisory_score", lit 0.10); ("temperature", lit 0.15);
      ("humidity", lit 0.00) ]%string
  else
    [ ("life_expectancy", lit 0.20); ("gdp_per_capita", lit 0.20);
      ("population", lit 0.10); ("pm25", lit 0.15);
      ("travel_advisory_score", lit 0.25); ("temperature", lit 0.10);
      ("humidity", lit 0.10) ]%string.

(** Lines 52-55 of [get_weights]: every weight divided by the total, if
    the total is positive. *)
Definition renormalized {F} `{PyFloat F} (weights : pydict F) : pydict F :=
  let total_weight := pysum (dict_values weights) in
  if flt (lit 0) total_weight then
    map (fun kv => (kv.1, fdiv kv.2 total_weight)) weights
  else weights.

(* ===================================================================== *)
(** * Vocabulary: the cache between two calls *)
(* ===================================================================== *)

(** The calls among [es] for a key other than [key]. *)
Fixpoint other_calls {F} (key : string) (es : list (event F)) : nat :=
  match es with
  | [] => 0
  | Call _ a :: es' =>
      (if String.eqb (cache_key a) key then 0 else 1) + other_calls key es'
  | _ :: es' => other_calls key es'
  end.

(** No event of [es] updates the dictionary [l] in place. *)
Fixpoint untouched {F} (l : loc) (es : list (event F)) : bool :=
  match es with
  | [] => true
  | Mutate l' _ :: es' => negb (Nat.eqb l' l) && untouched l es'
  | _ :: es' => untouched l es'
  end.

(** The number of entries of the cache used more recently than the entry
    of [key] ([links] runs from the least to the most recently used). *)
Fixpoint behind {V} (key : string) (ls : list (link V)) : nat :=
  match ls with
  | [] => 0
  | l :: ls' => if String.eqb (l_key l) key then length ls' else behind key ls'
  end.

(** The entry [lk] is what a lookup of its key finds, its key is not in
    flight, and the cache has room for [budget] further keys on top of
    the entries used more recently than [lk] and the keys in flight. *)
Definition resident {F} (lk : link loc) (budget : nat) (w : world F) : Prop :=
  TTL.find_link (links (country_cache w)) (l_key lk) = Some lk
  ∧ in_flight_requests w !! l_key lk = None
  ∧ (behind (l_key lk) (links (country_cache w))
     + size (in_flight_requests w) + budget
     < maxsize (country_cache w))%nat.

(** A hundred country codes other than FRA: AAQ, ABQ, ..., DVQ. *)
Definition numbered_country (n : nat) : string :=
  String (Ascii.ascii_of_nat (65 + n / 26))
    (String (Ascii.ascii_of_nat (65 + n mod 26)) "Q").

(** The analysis of the [n]-th of these countries, from the call to its
    return: the call [S n] creates the task [S n], which runs to its end. *)
Definition numbered_analysis (n : nat) : list (event float) :=
  [ Call (S n) {| country_code := numbered_country n; risk_tolerance := "low";
                  duration := "short-term"; debug_mode := false |};
    Finish (S n) (all_four_fail france);
    Resume (S n) ].

Definition numbered_analyses (count : nat) : list (event float) :=
  flat_map numbered_analysis (seq 0 count).

(* ===================================================================== *)
(** * Vocabulary: the dictionaries the handler reads *)
(* ===================================================================== *)

(** A dictionary that has an entry debug_analysis has a dictionary there,
    beside an entry overall_score: so [_fetch_and_build] builds a result
    in debug mode. *)
Definition debug_entry_sound {F} (d : pydict (pyvalue F)) : Prop :=
  match dict_get d "debug_analysis" with
  | Some debug_analysis =>
      (∃ entries, debug_analysis = PDict entries)
      ∧ is_Some (dict_get d "overall_score")
  | None => True
  end.

(** A result the handler holds refers to a dictionary that exists. *)
Definition held {F} (hp : list (pydict (pyvalue F))) (r : returned_result)
  : Prop :=
  match r with
  | RDict l => is_Some (hp !! l)
  | RTuple _ => True
  end.

(* ===================================================================== *)
(** * Normalization *)
(* ===================================================================== *)

Section ExactNormalization.
Local Open Scope Q_scope.

Lemma pymin_Q (a b : Q) : pymin (F:=Q) a b == Qmin a b.
Proof.
  unfold pymin; simpl. destruct (Qle_bool a b) eqn:E; simpl.
  - apply Qle_bool_iff in E. symmetry. now apply Q.min_l.
  - symmetry. apply Q.min_r. apply Qlt_le_weak, Qnot_le_lt.
    intros Hle. apply Qle_bool_iff in Hle. congruence.
Qed.

Lemma pymax_Q (a b : Q) : pymax (F:=Q) a b == Qmax a b.
Proof.
  unfold pymax; simpl. destruct (Qle_bool b a) eqn:E; simpl.
  - apply Qle_bool_iff in E. symmetry. now apply Q.max_l.
  - symmetry. apply Q.max_r. apply Qlt_le_weak, Qnot_le_lt.
    intros Hle. apply Qle_bool_iff in Hle. congruence.
Qed.

Lemma pymin_Q_cases (a b : Q) :
  (pymin (F:=Q) a b = a ∧ a <= b) ∨ (pymin (F:=Q) a b = b ∧ b < a).
Proof.
  unfold pymin; simpl. destruct (Qle_bool a b) eqn:E; simpl.
  - left. split; [reflexivity | now apply Qle_bool_iff].
  - right. split; [reflexivity |]. apply Qnot_le_lt.
    intros Hle. apply Qle_bool_iff in Hle. congruence.
Qed.

Lemma pymax_Q_cases (a b : Q) :
  (pymax (F:=Q) a b = a ∧ b <= a) ∨ (pymax (F:=Q) a b = b ∧ a < b).
Proof.
  unfold pymax; simpl. destruct (Qle_bool b a) eqn:E; simpl.
  - left. split; [reflexivity | now apply Qle_bool_iff].
  - right. split; [reflexivity |]. apply Qnot_le_lt.
    intros Hle. apply Qle_bool_iff in Hle. congruence.
Qed.

Lemma Qle_bool_false (a b : Q) : Qle_bool a b = false → b < a.
Proof.
  intros E. apply Qnot_le_lt. intros Hle. apply Qle_bool_iff in Hle. congruence.
Qed.

Lemma in_unit_interval_Q (q : Q) : 0 <= q → q <= 1 → in_unit_interval (F:=Q) q = true.
Proof.
  intros H0 H1. unfold in_unit_interval; simpl.
  apply andb_true_intro; split; now apply Qle_bool_iff.
Qed.
End ExactNormalization.

(** Case analysis on every [min] and [max] of a goal over the rationals,
    then linear arithmetic. *)
Ltac q_minmax :=
  repeat match goal with
    | |- context [pymin ?a ?b] =>
        let E := fresh "E" in
        destruct (pymin_Q_cases a b) as [[E ?] | [E ?]]; rewrite E; clear E
    | |- context [pymax ?a ?b] =>
        let E := fresh "E" in
        destruct (pymax_Q_cases a b) as [[E ?] | [E ?]]; rewrite E; clear E
    end;
  repeat match goal with
    | |- context [Qmin ?a ?b] =>
        let m := fresh "m" in
        let Hm := fresh "Hm" in
        destruct (Q.min_spec a b) as [[? Hm] | [? Hm]];
        revert Hm; generalize (Qmin a b); intros m Hm
    | |- context [Qmax ?a ?b] =>
        let m := fresh "m" in
        let Hm := fresh "Hm" in
        destruct (Q.max_spec a b) as [[? Hm] | [? Hm]];
        revert Hm; generalize (Qmax a b); intros m Hm
    end;
  simpl in *; unfold Qdiv in *; cbn [Qinv Qnum Qden] in *; lra.

(** The eight fallbacks, on binary64. *)
Lemma fallbacks_float :
  Aggregator._normalize_metrics (F:=float) [] =
    [ ("life_expectancy", 0.5); ("gdp_per_capita", 0.5); ("population", 0.5);
      ("pm25", 0.5); ("pm10", 0.5); ("travel_advisory_score", 0.2);
      ("temperature", 0.5); ("humidity", 0.5) ]%float%string.
Proof. vm_compute. reflexivity. Qed.

Section TableOverQ.
Local Open Scope Q_scope.

Lemma gdp_per_capita_table (v : Q) :
  Aggregator._normalize_gdp_per_capita (F:=Q) (Some v) == spec_gdp_per_capita v.
Proof. unfold Aggregator._normalize_gdp_per_capita, spec_gdp_per_capita. q_minmax. Qed.

Lemma population_table (v : Q) :
  Aggregator._normalize_population (F:=Q) (Some v) == spec_population v.
Proof. unfold Aggregator._normalize_population, spec_population. q_minmax. Qed.

Lemma pm25_table (v : Q) : Aggregator._normalize_pm25 (F:=Q) (Some v) == spec_pm v.
Proof. unfold Aggregator._normalize_pm25, spec_pm. q_minmax. Qed.

Lemma travel_advisory_score_table (v : Q) :
  Aggregator._normalize_travel_advisory_score (F:=Q) (Some v)
  == spec_travel_advisory_score v.
Proof.
  unfold Aggregator._normalize_travel_advisory_score, spec_travel_advisory_score.
  simpl. unfold Qdiv. cbn [Qinv Qnum Qden]. lra.
Qed.

Lemma pm10_table (v : Q) : Aggregator._normalize_pm10 (F:=Q) (Some v) == spec_pm v.
Proof. unfold Aggregator._normalize_pm10, spec_pm. q_minmax. Qed.

Lemma life_expectancy_table (v : Q) :
  Aggregator._normalize_life_expectancy (F:=Q) (Some v) == spec_life_expectancy v.
Proof.
  unfold Aggregator._normalize_life_expectancy, spec_life_expectancy, spec_clamp.
  q_minmax.
Qed.

Lemma temperature_table (v : Q) :
  Aggregator._normalize_temperature (F:=Q) (Some v) == spec_temperature v.
Proof.
  unfold Aggregator._normalize_temperature, spec_temperature; simpl.
  destruct (Qle_bool 15 v) eqn:E1; destruct (Qle_bool v 28) eqn:E2; simpl;
    try reflexivity.
  - apply Qle_bool_iff in E1. apply Qle_bool_false in E2.
    destruct (Qle_bool 15 v) eqn:E3; simpl.
    + q_minmax.
    + apply Qle_bool_false in E3. lra.
  - apply Qle_bool_false in E1.
    destruct (Qle_bool 15 v) eqn:E3; simpl.
    + apply Qle_bool_iff in E3. lra.
    + q_minmax.
  - apply Qle_bool_false in E1. apply Qle_bool_false in E2. lra.
Qed.
End TableOverQ.

Lemma eqb_prefix (p a b : string) :
  String.eqb (p +:+ a) (p +:+ b) = String.eqb a b.
Proof.
  induction p as [| c p IH]; [reflexivity |].
  simpl. now rewrite Ascii.eqb_refl.
Qed.

Section ByName.
Context {F : Type} `{PyFloat F}.

(** The normalized mapping, entry by entry. *)
Lemma normalize_metrics_entries (metrics : pydict (option F)) :
  Aggregator._normalize_metrics metrics
  = [ ("life_expectancy",
        Aggregator._normalize_life_expectancy
          (get_optional metrics "life_expectancy"));
      ("gdp_per_capita",
        Aggregator._normalize_gdp_per_capita
          (get_optional metrics "gdp_per_capita"));
      ("population",
        Aggregator._normalize_population (get_optional metrics "population"));
      ("pm25", Aggregator._normalize_pm25 (get_optional metrics "pm25"));
      ("pm10", Aggregator._normalize_pm10 (get_optional metrics "pm10"));
      ("travel_advisory_score",
        Aggregator._normalize_travel_advisory_score
          (get_optional metrics "travel_advisory_score"));
      ("temperature",
        Aggregator._normalize_temperature (get_optional metrics "temperature"));
      ("humidity",
        Aggregator._normalize_humidity (get_optional metrics "humidity")) ]%string.
Proof. reflexivity. Qed.

(** The entry of a metric is the value of the module's function
    [_normalize_<metric>] at the raw value of that metric. *)
Lemma normalize_metrics_by_name (metrics : pydict (option F))
    (metric_name : string) (f : option F → F) :
  dict_get Aggregator.module_globals ("_normalize_" +:+ metric_name) = Some f →
  dict_get (Aggregator._normalize_metrics metrics) metric_name
  = Some (f (get_optional metrics metric_name)).
Proof.
  rewrite normalize_metrics_entries.
  unfold Aggregator.module_globals.
  change "_normalize_life_expectancy"%string
    with ("_normalize_" +:+ "life_expectancy")%string.
  change "_normalize_gdp_per_capita"%string
    with ("_normalize_" +:+ "gdp_per_capita")%string.
  change "_normalize_population"%string
    with ("_normalize_" +:+ "population")%string.
  change "_normalize_pm25"%string with ("_normalize_" +:+ "pm25")%string.
  change "_normalize_pm10"%string with ("_normalize_" +:+ "pm10")%string.
  change "_normalize_travel_advisory_score"%string
    with ("_normalize_" +:+ "travel_advisory_score")%string.
  change "_normalize_temperature"%string
    with ("_normalize_" +:+ "temperature")%string.
  change "_normalize_humidity"%string
    with ("_normalize_" +:+ "humidity")%string.
  cbn [dict_get]. rewrite !eqb_prefix.
  repeat match goal with
    | |- context [String.eqb ?k metric_name] =>
        destruct (String.eqb_spec k metric_name) as [<- | _];
        [now intros [= <-] |]
    end.
  discriminate.
Qed.
End ByName.

Lemma normalize_metrics_table (metrics : pydict (option Q))
    (metric_name : string) :
  option_Forall2 Qeq
    (dict_get (Aggregator._normalize_metrics metrics) metric_name)
    (spec_normalize metric_name (get_optional metrics metric_name)).
Proof.
  rewrite normalize_metrics_entries. unfold spec_normalize.
  cbn [dict_get].
  repeat match goal with
    | |- context [String.eqb ?k metric_name] =>
        rewrite (String.eqb_sym metric_name k);
        destruct (String.eqb_spec k metric_name) as [<- | _];
        [constructor;
         destruct (get_optional metrics k) as [v |]; [| reflexivity] |]
    end.
  - apply life_expectancy_table.
  - apply gdp_per_capita_table.
  - apply population_table.
  - apply pm25_table.
  - apply pm10_table.
  - apply travel_advisory_score_table.
  - apply temperature_table.
  - reflexivity.
  - constructor.
Qed.

Lemma normalize_metrics_fallback (metrics : pydict (option float))
    (metric_name : string) (fallback : float) :
  spec_fallback metric_name = Some fallback →
  get_optional metrics metric_name = None →
  dict_get (Aggregator._normalize_metrics metrics) metric_name = Some fallback.
Proof.
  unfold spec_fallback. intros Hf Hnone.
  assert (Hin : metric_name ∈ metric_names).
  { destruct (String.eqb_spec metric_name "travel_advisory_score") as [-> | _].
    - apply (bool_decide_unpack _). vm_compute. reflexivity.
    - case_bool_decide; [assumption | discriminate]. }
  rewrite normalize_metrics_entries. cbn [dict_get].
  unfold metric_names in Hin.
  repeat (apply elem_of_cons in Hin as [-> | Hin];
          [revert Hf; rewrite Hnone; vm_compute; now intros [= <-] |]).
  inversion Hin.
Qed.

(** C4.  The active normalization functions reproduce the table of
    section 4.3: an absent value yields the metric's fallback constant
    exactly (0.5, and 0.2 for travel_advisory_score), on binary64 as in
    exact arithmetic; a temperature of 21.5 normalizes to 1.0 and
    temperatures of 0 and 40 to 0.0; and a present value is mapped by the
    table's formula for its metric.  This holds of the eight functions
    and of [_normalize_metrics], which normalizes by metric name: for
    every mapping and every name, its entry is what the table gives the
    raw value under that name (in exact arithmetic; no entry for a name
    that is no metric); on binary64 the entry of an absent value is the
    fallback constant, that of a temperature of 21.5, 0 or 40 is 1.0, 0.0
    or 0.0; and on every carrier the entry of a metric is the value of the
    module's function [_normalize_<metric>] at the raw value of that
    metric. *)
Theorem C4_normalization_table :
  Aggregator._normalize_metrics (F:=float) [] =
    [ ("life_expectancy", 0.5); ("gdp_per_capita", 0.5); ("population", 0.5);
      ("pm25", 0.5); ("pm10", 0.5); ("travel_advisory_score", 0.2);
      ("temperature", 0.5); ("humidity", 0.5) ]%float%string
  ∧ (Aggregator._normalize_life_expectancy (F:=float) None = 0.5
     ∧ Aggregator._normalize_gdp_per_capita (F:=float) None = 0.5
     ∧ Aggregator._normalize_population (F:=float) None = 0.5
     ∧ Aggregator._normalize_pm25 (F:=float) None = 0.5
     ∧ Aggregator._normalize_pm10 (F:=float) None = 0.5
     ∧ Aggregator._normalize_travel_advisory_score (F:=float) None = 0.2
     ∧ Aggregator._normalize_temperature (F:=float) None = 0.5
     ∧ Aggregator._normalize_humidity (F:=float) None = 0.5)%float
  ∧ (Aggregator._normalize_temperature (Some 21.5) = 1.0
     ∧ Aggregator._normalize_temperature (Some 0) = 0.0
     ∧ Aggregator._normalize_temperature (Some 40) = 0.0)%float
  ∧ (∀ v : Q,
       Aggregator._normalize_life_expectancy (Some v) == spec_life_expectancy v
       ∧ Aggregator._normalize_gdp_per_capita (Some v) == spec_gdp_per_capita v
       ∧ Aggregator._normalize_population (Some v) == spec_population v
       ∧ Aggregator._normalize_pm25 (Some v) == spec_pm v
       ∧ Aggregator._normalize_pm10 (Some v) == spec_pm v
       ∧ Aggregator._normalize_travel_advisory_score (Some v)
           == spec_travel_advisory_score v
       ∧ Aggregator._normalize_temperature (Some v) == spec_temperature v
       ∧ Aggregator._normalize_humidity (Some v) == spec_humidity v)%Q
  ∧ (∀ (metrics : pydict (option Q)) (metric_name : string),
       option_Forall2 Qeq
         (dict_get (Aggregator._normalize_metrics metrics) metric_name)
         (spec_normalize metric_name (get_optional metrics metric_name)))
  ∧ (∀ (metrics : pydict (option float)) (metric_name : string)
       (fallback : float),
       spec_fallback metric_name = Some fallback →
       get_optional metrics metric_name = None →
       dict_get (Aggregator._normalize_metrics metrics) metric_name
       = Some fallback)
  ∧ (∀ metrics : pydict (option float),
       (get_optional metrics "temperature" = Some 21.5%float →
        dict_get (Aggregator._normalize_metrics metrics) "temperature"
        = Some 1.0%float)
       ∧ (get_optional metrics "temperature" = Some 0%float →
          dict_get (Aggregator._normalize_metrics metrics) "temperature"
          = Some 0.0%float)
       ∧ (get_optional metrics "temperature" = Some 40%float →
          dict_get (Aggregator._normalize_metrics metrics) "temperature"
          = Some 0.0%float))
  ∧ (∀ (F : Type) (HF : PyFloat F) (metrics : pydict (option F))
       (metric_name : string) (f : option F → F),
       dict_get Aggregator.module_globals ("_normalize_" +:+ metric_name)
       = Some f →
       dict_get (Aggregator._normalize_metrics metrics) metric_name
       = Some (f (get_optional metrics metric_name))).
Proof.
  split; [exact fallbacks_float |].
  split; [repeat apply conj; vm_compute; reflexivity |].
  split; [repeat apply conj; vm_compute; reflexivity |].
  split.
  { intros v. repeat apply conj.
    - apply life_expectancy_table.
    - apply gdp_per_capita_table.
    - apply population_table.
    - apply pm25_table.
    - apply pm10_table.
    - apply travel_advisory_score_table.
    - apply temperature_table.
    - reflexivity. }
  split; [exact normalize_metrics_table |].
  split; [exact normalize_metrics_fallback |].
  split; [| intros F HF; apply normalize_metrics_by_name].
  intros metrics.
  repeat apply conj; intros Ht;
    rewrite (normalize_metrics_by_name metrics "temperature"
               Aggregator._normalize_temperature eq_refl), Ht;
    vm_compute; reflexivity.
Qed.

(** C4 at a mapping that holds a temperature of 21.5 and an absent pm25,
    and no travel advisory score. *)
Lemma C4_normalization_table_witness :
  dict_get
    (Aggregator._normalize_metrics
       [("temperature", Some 21.5%float); ("pm25", None)]%string)
    "temperature" = Some 1.0%float
  ∧ dict_get
      (Aggregator._normalize_metrics
         [("temperature", Some 21.5%float); ("pm25", None)]%string)
      "pm25" = Some 0.5%float
  ∧ dict_get
      (Aggregator._normalize_metrics
         [("temperature", Some 21.5%float); ("pm25", None)]%string)
      "travel_advisory_score" = Some 0.2%float.
Proof.
  destruct C4_normalization_table as (_ & _ & _ & _ & _ & Hfb & Htemp & _).
  split; [apply (Htemp _); reflexivity |].
  split; apply Hfb; reflexivity.
Defined.

(** C8, counterexample to the unrestricted statement: a negative GDP per
    capita normalizes to -1, outside [0,1]. *)
Lemma C8_negative_gdp_leaves_unit_interval :
  Aggregator._normalize_metrics (F:=float)
    [("gdp_per_capita"%string, Some (-80000)%float)]
  = [ ("life_expectancy", 0.5); ("gdp_per_capita", -1); ("population", 0.5);
      ("pm25", 0.5); ("pm10", 0.5); ("travel_advisory_score", 0.2);
      ("temperature", 0.5); ("humidity", 0.5) ]%float%string
  ∧ ¬ (∀ metrics : pydict (option float),
         all_in_unit_interval (Aggregator._normalize_metrics metrics) = true).
Proof.
  split; [vm_compute; reflexivity |].
  intros Hall.
  specialize (Hall [("gdp_per_capita"%string, Some (-80000)%float)]).
  vm_compute in Hall. discriminate.
Qed.

Section RangeOverQ.
Local Open Scope Q_scope.

Lemma unit_life_expectancy (v : option Q) :
  in_unit_interval (Aggregator._normalize_life_expectancy v) = true.
Proof.
  destruct v as [v |]; [| reflexivity].
  unfold Aggregator._normalize_life_expectancy.
  apply in_unit_interval_Q; q_minmax.
Qed.

Lemma unit_gdp_per_capita (v : option Q) :
  nonneg v = true →
  in_unit_interval (Aggregator._normalize_gdp_per_capita v) = true.
Proof.
  destruct v as [v |]; [| reflexivity]. simpl. intros Hv.
  apply Qle_bool_iff in Hv.
  unfold Aggregator._normalize_gdp_per_capita.
  apply in_unit_interval_Q; q_minmax.
Qed.

Lemma unit_population (v : option Q) :
  nonneg v = true →
  in_unit_interval (Aggregator._normalize_population v) = true.
Proof.
  destruct v as [v |]; [| reflexivity]. simpl. intros Hv.
  apply Qle_bool_iff in Hv.
  unfold Aggregator._normalize_population.
  apply in_unit_interval_Q; q_minmax.
Qed.

Lemma unit_pm25 (v : option Q) :
  nonneg v = true → in_unit_interval (Aggregator._normalize_pm25 v) = true.
Proof.
  destruct v as [v |]; [| reflexivity]. simpl. intros Hv.
  apply Qle_bool_iff in Hv.
  unfold Aggregator._normalize_pm25.
  apply in_unit_interval_Q; q_minmax.
Qed.

Lemma unit_pm10 (v : option Q) :
  nonneg v = true → in_unit_interval (Aggregator._normalize_pm10 v) = true.
Proof.
  destruct v as [v |]; [| reflexivity]. simpl. intros Hv.
  apply Qle_bool_iff in Hv.
  unfold Aggregator._normalize_pm10.
  apply in_unit_interval_Q; q_minmax.
Qed.

Lemma unit_travel_advisory_score (v : Q) :
  0 <= v → v <= 100 →
  in_unit_interval (Aggregator._normalize_travel_advisory_score (Some v)) = true.
Proof.
  intros H0 H100.
  pose proof (travel_advisory_score_table v) as E.
  unfold spec_travel_advisory_score in E.
  apply in_unit_interval_Q; rewrite E;
    unfold Qdiv; cbn [Qinv Qnum Qden]; lra.
Qed.

Lemma unit_temperature (v : option Q) :
  in_unit_interval (Aggregator._normalize_temperature v) = true.
Proof.
  destruct v as [v |]; [| reflexivity].
  unfold Aggregator._normalize_temperature; simpl.
  destruct (Qle_bool 15 v) eqn:E1; destruct (Qle_bool v 28) eqn:E2; simpl;
    try reflexivity.
  - apply Qle_bool_iff in E1. apply Qle_bool_false in E2.
    apply in_unit_interval_Q; q_minmax.
  - apply Qle_bool_false in E1. apply Qle_bool_iff in E2.
    apply in_unit_interval_Q; q_minmax.
  - apply Qle_bool_false in E1. apply Qle_bool_false in E2. lra.
Qed.

Lemma unit_humidity (v : option Q) :
  in_unit_interval (Aggregator._normalize_humidity v) = true.
Proof. destruct v; reflexivity. Qed.
End RangeOverQ.

(** C8.  For every RawMetrics mapping whose present values lie
    in the ranges the providers deliver (gdp_per_capita, population, pm25
    and pm10 not negative, travel_advisory_score between 0 and 100;
    life_expectancy, temperature and humidity unrestricted), every value
    of the normalized mapping lies in [0,1], in exact arithmetic. *)
Theorem C8_normalized_in_unit_interval (metrics : pydict (option Q)) :
  provider_ranges metrics = true →
  all_in_unit_interval (Aggregator._normalize_metrics metrics) = true.
Proof.
  unfold provider_ranges. intros Hr.
  apply andb_prop in Hr as [Hr Htas].
  apply andb_prop in Hr as [Hr Hpm10].
  apply andb_prop in Hr as [Hr Hpm25].
  apply andb_prop in Hr as [Hgdp Hpop].
  unfold Aggregator._normalize_metrics, all_in_unit_interval.
  cbn [dict_set String.eqb Ascii.eqb Bool.eqb forallb fst snd].
  rewrite unit_life_expectancy, unit_gdp_per_capita, unit_population,
    unit_pm25, unit_pm10, unit_temperature, unit_humidity by assumption.
  destruct (get_optional metrics "travel_advisory_score") as [q |] eqn:E.
  - apply andb_prop in Htas as [H0 H100].
    apply Qle_bool_iff in H0, H100.
    rewrite unit_travel_advisory_score by assumption. reflexivity.
  - reflexivity.
Qed.

(** C8 at a mapping within the ranges. *)
Lemma C8_normalized_in_unit_interval_witness :
  all_in_unit_interval
    (Aggregator._normalize_metrics (F:=Q)
       [ ("life_expectancy", Some 82.5); ("gdp_per_capita", Some 44000);
         ("population", Some 67391582); ("pm25", Some 35); ("pm10", Some 35);
         ("travel_advisory_score", Some 50); ("temperature", Some 3.5);
         ("humidity", None) ]%Q%string) = true.
Proof.
  apply C8_normalized_in_unit_interval. vm_compute. reflexivity.
Defined.

(* ===================================================================== *)
(** * Weights *)
(* ===================================================================== *)

(** In exact arithmetic the renormalized weights sum to 1. *)
Lemma weights_sum_exact (r : risk_level) (d : stay) :
  (sum_plain (dict_values
     (WeightingEngine.get_weights (F:=Q) (risk_name r) (stay_name d))) == 1)%Q.
Proof. destruct r, d; vm_compute; reflexivity. Qed.

(** C2.  For each of the six (riskTolerance, duration) pairs, the
    weights [get_weights] returns on binary64 sum to 1.0 within 1e-9:
    as Python's [sum] adds them up, and as the exact sum of the seven
    floats; with the compensated [sum] of CPython 3.12 and with the plain
    left-to-right one alike.  In exact arithmetic the sum is 1. *)
Theorem C2_weights_sum_to_one (r : risk_level) (d : stay) :
  let ws := WeightingEngine.get_weights (F:=float) (risk_name r) (stay_name d) in
  let ws' :=
    WeightingEngine.get_weights_with (F:=float) sum_plain
      (risk_name r) (stay_name d) in
  within 1e-9 1 (exact (pysum (dict_values ws))) = true
  ∧ within 1e-9 1 (exact_sum (dict_values ws)) = true
  ∧ within 1e-9 1 (exact (sum_plain (dict_values ws'))) = true
  ∧ within 1e-9 1 (exact_sum (dict_values ws')) = true
  ∧ (sum_plain (dict_values
       (WeightingEngine.get_weights (F:=Q) (risk_name r) (stay_name d))) == 1)%Q.
Proof.
  cbv zeta. repeat apply conj; try (destruct r, d; vm_compute; reflexivity).
Qed.

(* ===================================================================== *)
(** * The two normalization modules *)
(* ===================================================================== *)

(** C9.  [normalize_metrics] of utils/normalizer.py raises NameError on
    every input: it calls [_normalize_pm10], a name its module neither
    defines nor imports.  The same statements run in the namespace of
    services/aggregator.py, which defines all eight normalizers, return
    the normalized mapping. *)
Theorem C9_alternate_normalizer_raises
    (F : Type) (HF : PyFloat F) (metrics : pydict (option F)) :
  Normalizer.normalize_metrics metrics = Raise (NameError "_normalize_pm10")
  ∧ dict_get (Normalizer.module_globals (F:=F)) "_normalize_pm10" = None
  ∧ normalize_metrics_in Aggregator.module_globals metrics
    = Ok (Aggregator._normalize_metrics metrics).
Proof. repeat apply conj; reflexivity. Qed.

(* ===================================================================== *)
(** * The fetch pipeline *)
(* ===================================================================== *)

Section Pipeline.
Context {F : Type} `{PyFloat F}.

(** The pipeline has no failing path of its own: the mapping it scores
    holds the eight normalized values. *)
Lemma pipeline_returns (risk_tolerance duration : string)
    (p : country_profile F) (r : responses F) :
  ∃ l, Aggregator.pipeline risk_tolerance duration p r = Ok l.
Proof.
  unfold Aggregator.pipeline, Aggregator.score_raw_metrics. cbn.
  eexists. reflexivity.
Qed.

Lemma pipeline_air_quality (risk_tolerance duration : string)
    (p : country_profile F) (r : responses F) (l : pipeline_locals F) :
  Aggregator.pipeline risk_tolerance duration p r = Ok l →
  get_optional (raw_metrics l) "pm25" = get_optional (raw_metrics l) "pm10"
  ∧ dict_get (normalized_scores l) "pm25" = dict_get (normalized_scores l) "pm10"
  ∧ ∃ pm temperature,
      dict_get (normalized_scores l) "pm25" = Some pm
      ∧ dict_get (normalized_scores l) "temperature" = Some temperature
      ∧ env_stability_score l
        = ((pm + pm + temperature) / lit 3 * lit 100)%py.
Proof.
  unfold Aggregator.pipeline, Aggregator.score_raw_metrics. cbn.
  intros [= <-]. cbn.
  repeat apply conj; try reflexivity.
  eexists _, _. repeat apply conj; reflexivity.
Qed.
End Pipeline.

(** C10.  In every result the pipeline builds, the raw pm25 and pm10
    metrics are the same value (the one [aqi] of the air-quality fetch, or
    both absent), so their normalized values are equal and the two
    air-quality terms of the environmental-stability score coincide. *)
Theorem C10_pm25_equals_pm10 (F : Type) (HF : PyFloat F)
    (country_code risk_tolerance duration : string) (debug_mode : bool)
    (r : responses F) (p : country_profile F) :
  r_country_profile r = Some p →
  falsy (iso2 p) = false →
  ∃ l,
    Aggregator.pipeline risk_tolerance duration p r = Ok l
    ∧ Aggregator._fetch_and_build country_code risk_tolerance duration
        debug_mode r
      = Ok (Aggregator.build_result country_code risk_tolerance duration
              debug_mode p l, false, missing_metrics l)
    ∧ get_optional (raw_metrics l) "pm25" = get_optional (value_or_empty (r_aqi r)) "aqi"
    ∧ get_optional (raw_metrics l) "pm10" = get_optional (value_or_empty (r_aqi r)) "aqi"
    ∧ dict_get (normalized_scores l) "pm25" = dict_get (normalized_scores l) "pm10"
    ∧ ∃ pm temperature,
        dict_get (normalized_scores l) "pm25" = Some pm
        ∧ dict_get (normalized_scores l) "temperature" = Some temperature
        ∧ env_stability_score l = ((pm + pm + temperature) / lit 3 * lit 100)%py.
Proof.
  intros Hp Hiso.
  destruct (pipeline_returns risk_tolerance duration p r) as [l Hl].
  exists l. split; [exact Hl |].
  split.
  { unfold Aggregator._fetch_and_build. rewrite Hp, Hiso, Hl. reflexivity. }
  destruct (pipeline_air_quality _ _ _ _ _ Hl) as (Hraw & Hnorm & Henv).
  assert (Hpm : get_optional (raw_metrics l) "pm25"
                = get_optional (value_or_empty (r_aqi r)) "aqi").
  { revert Hl. unfold Aggregator.pipeline, Aggregator.score_raw_metrics. cbn.
    intros [= <-]. reflexivity. }
  repeat apply conj; try assumption. now rewrite <- Hraw.
Qed.

(** C10 at a concrete run: France, an air-quality index of 42. *)
Lemma C10_pm25_equals_pm10_witness :
  ∃ l,
    Aggregator.pipeline "low" "short-term" france
      {| r_country_profile := Some france;
         r_worldbank_health := Exception_; r_travel_advisory := Exception_;
         r_weather := Exception_;
         r_aqi := Value [("aqi"%string, Some 42%float)] |} = Ok l
    ∧ get_optional (raw_metrics l) "pm25" = Some 42%float
    ∧ get_optional (raw_metrics l) "pm10" = Some 42%float.
Proof.
  destruct (C10_pm25_equals_pm10 float _ "FRA" "low" "short-term" false
              {| r_country_profile := Some france;
                 r_worldbank_health := Exception_;
                 r_travel_advisory := Exception_;
                 r_weather := Exception_;
                 r_aqi := Value [("aqi"%string, Some 42%float)] |} france
              eq_refl eq_refl) as (l & Hl & _ & H25 & H10 & _).
  exists l. repeat apply conj; assumption.
Defined.

(* ===================================================================== *)
(** * All four providers failing *)
(* ===================================================================== *)

(** C7, counterexample to the score of 50.0: for France (identity fetch
    succeeding, the four provider fetches raising) the result is not empty
    and the seven metrics are reported missing, but the overall score is
    40.9. *)
Lemma C7_overall_score_is_not_50 :
  ∃ d,
    Aggregator._fetch_and_build "FRA" "low" "short-term" false
      (all_four_fail france)
    = Ok (d, false,
          [ "life_expectancy"; "gdp_per_capita"; "pm25"; "pm10";
            "travel_advisory_score"; "temperature"; "humidity" ]%string)
    ∧ overall_score_of d = Some 40.9%float
    ∧ PrimFloat.eqb 40.9 50.0 = false.
Proof. eexists. repeat apply conj; vm_compute; reflexivity. Qed.

Section RoundingOverQ.
Local Open Scope Q_scope.

Lemma round_half_even_bounds (q : Q) :
  q - 1 <= inject_Z (round_half_even q) ∧ inject_Z (round_half_even q) <= q + 1.
Proof.
  unfold round_half_even.
  pose proof (Qfloor_le q) as Hlo.
  pose proof (Qlt_floor q) as Hhi.
  rewrite inject_Z_plus in Hhi. change (inject_Z 1) with 1 in Hhi.
  assert (E : inject_Z (Qfloor q + 1) == inject_Z (Qfloor q) + 1)
    by (rewrite inject_Z_plus; reflexivity).
  destruct (q - inject_Z (Qfloor q) ?= 1 # 2); [destruct (Z.even (Qfloor q)) | |];
    rewrite ?E; split; lra.
Qed.

Lemma pyround_Q_bounds (x : Q) (ndigits : nat) :
  x - (1 # pow10 ndigits) <= pyround (F:=Q) x ndigits
  ∧ pyround (F:=Q) x ndigits <= x + (1 # pow10 ndigits).
Proof.
  unfold pyround; simpl.
  set (p := pow10 ndigits).
  destruct (round_half_even_bounds (x * inject_Z (Z.pos p))) as [Hlo Hhi].
  set (z := round_half_even (x * inject_Z (Z.pos p))) in *.
  assert (Ez : z # p == inject_Z z * (1 # p)).
  { unfold Qeq, inject_Z; simpl. lia. }
  assert (Ep : inject_Z (Z.pos p) * (1 # p) == 1).
  { unfold Qeq, inject_Z; simpl. lia. }
  assert (Hp : 0 <= 1 # p) by discriminate.
  assert (Ex : x * inject_Z (Z.pos p) * (1 # p) == x)
    by (rewrite <- Qmult_assoc, Ep; ring).
  pose proof (Qmult_le_compat_r _ _ (1 # p) Hlo Hp) as Hlo'.
  pose proof (Qmult_le_compat_r _ _ (1 # p) Hhi Hp) as Hhi'.
  revert Ez Ex Hlo' Hhi'.
  generalize (z # p) (1 # p) (inject_Z z) (x * inject_Z (Z.pos p)).
  intros zp ip iz a Ez Ex Hlo' Hhi'.
  split; lra.
Qed.

(** The overall score of fallback values under the low/short-term
    weights, as a function of the normalized population. *)
Lemma overall_score_low_short_term (npop : Q) :
  0 <= npop → npop <= 1 →
  let metrics : pydict Q :=
    [ ("life_expectancy", lit 0.5); ("gdp_per_capita", lit 0.5);
      ("population", npop); ("pm25", lit 0.5); ("pm10", lit 0.5);
      ("travel_advisory_score", lit 0.2); ("temperature", lit 0.5);
      ("humidity", lit 0.5) ]%string in
  let s :=
    pyround (ScoringEngine.score_country metrics
               (WeightingEngine.get_weights "low" "short-term")) 1 in
  37 < s ∧ s < 42.
Proof.
  intros H0 H1 metrics s. subst s metrics.
  unfold ScoringEngine.score_country.
  set (w := WeightingEngine.get_weights "low" "short-term").
  cbn [fold_left fst snd].
  assert (Ele : get_default w "life_expectancy" (lit 0.0) == 16 # 119)
    by (vm_compute; reflexivity).
  assert (Egdp : get_default w "gdp_per_capita" (lit 0.0) == 15 # 119)
    by (vm_compute; reflexivity).
  assert (Epop : get_default w "population" (lit 0.0) == 4 # 119)
    by (vm_compute; reflexivity).
  assert (Epm25 : get_default w "pm25" (lit 0.0) == 24 # 119)
    by (vm_compute; reflexivity).
  assert (Epm10 : get_default w "pm10" (lit 0.0) == 0)
    by (vm_compute; reflexivity).
  assert (Etas : get_default w "travel_advisory_score" (lit 0.0) == 42 # 119)
    by (vm_compute; reflexivity).
  assert (Etemp : get_default w "temperature" (lit 0.0) == 18 # 119)
    by (vm_compute; reflexivity).
  assert (Ehum : get_default w "humidity" (lit 0.0) == 0)
    by (vm_compute; reflexivity).
  revert Ele Egdp Epop Epm25 Epm10 Etas Etemp Ehum.
  generalize (get_default w "life_expectancy" (lit 0.0)).
  generalize (get_default w "gdp_per_capita" (lit 0.0)).
  generalize (get_default w "population" (lit 0.0)).
  generalize (get_default w "pm25" (lit 0.0)).
  generalize (get_default w "pm10" (lit 0.0)).
  generalize (get_default w "travel_advisory_score" (lit 0.0)).
  generalize (get_default w "temperature" (lit 0.0)).
  generalize (get_default w "humidity" (lit 0.0)).
  intros whum wtemp wtas wpm10 wpm25 wpop wgdp wle Ele Egdp Epop Epm25 Epm10
    Etas Etemp Ehum.
  match goal with
  | |- context [pyround (pyround ?x 2) 1] =>
      destruct (pyround_Q_bounds x 2) as [Hlo2 Hhi2];
      destruct (pyround_Q_bounds (pyround x 2) 1) as [Hlo1 Hhi1];
      revert Hlo1 Hhi1 Hlo2 Hhi2;
      generalize (pyround (pyround x 2) 1); generalize (pyround x 2)
  end.
  intros s s' Hlo1 Hhi1 Hlo2 Hhi2.
  change (1 # pow10 1) with (1 # 10) in *.
  change (1 # pow10 2) with (1 # 100) in *.
  simpl in Hlo2, Hhi2.
  rewrite Epop in Hlo2, Hhi2.
  split; lra.
Qed.
End RoundingOverQ.

Section AllFail.
Context {F : Type} `{PyFloat F}.

(** What [_fetch_and_build] computes once the four failed fetches have
    contributed only absent values. *)
Lemma fetch_and_build_all_fail (country_code risk_tolerance duration : string)
    (debug_mode : bool) (r : responses F) (p : country_profile F) :
  r_country_profile r = Some p →
  falsy (iso2 p) = false →
  failing (r_worldbank_health r) → failing (r_travel_advisory r) →
  failing (r_weather r) → failing (r_aqi r) →
  Aggregator._fetch_and_build country_code risk_tolerance duration debug_mode r
  = Aggregator._fetch_and_build country_code risk_tolerance duration debug_mode
      {| r_country_profile := Some p;
         r_worldbank_health := Exception_; r_travel_advisory := Exception_;
         r_weather := Exception_; r_aqi := Exception_ |}.
Proof.
  intros Hp Hiso Hwb Hta Hw Haqi.
  unfold Aggregator._fetch_and_build. rewrite Hp. cbn [r_country_profile].
  rewrite Hiso. unfold Aggregator.pipeline. cbv zeta.
  replace (Aggregator.assemble_raw_metrics (population p) r)
    with (Aggregator.assemble_raw_metrics (population p)
            {| r_country_profile := Some p;
               r_worldbank_health := Exception_;
               r_travel_advisory := Exception_;
               r_weather := Exception_; r_aqi := Exception_ |}); [reflexivity |].
  unfold failing in *.
  unfold Aggregator.assemble_raw_metrics. cbv zeta.
  rewrite !Hwb, !Hta, !Hw, !Haqi. reflexivity.
Qed.
End AllFail.

(** C7.  With the identity fetch succeeding and all four
    provider fetches failing, [analyze("FRA", "low", "short-term",
    debug=False)] builds a non-empty result, reports life_expectancy,
    gdp_per_capita, pm25, pm10, travel_advisory_score, temperature and
    humidity missing (and population, when the profile has none), and
    computes the overall score from the fallback-normalized values and the
    normalized population with the renormalized low/short-term weights:
    39.4 when the population is absent, and for a population that is not
    negative a value strictly between 37 and 42 (exact arithmetic). *)
Theorem C7_all_providers_fail :
  (∀ (r : responses float) (p : country_profile float),
     r_country_profile r = Some p →
     falsy (iso2 p) = false →
     population p = None →
     failing (r_worldbank_health r) → failing (r_travel_advisory r) →
     failing (r_weather r) → failing (r_aqi r) →
     ∃ d,
       Aggregator._fetch_and_build "FRA" "low" "short-term" false r
       = Ok (d, false,
             [ "life_expectancy"; "gdp_per_capita"; "population"; "pm25";
               "pm10"; "travel_advisory_score"; "temperature";
               "humidity" ]%string)
       ∧ d ≠ []
       ∧ overall_score_of d = Some 39.4%float
       ∧ dict_get d "debug_analysis" = None)
  ∧ (∀ (r : responses Q) (p : country_profile Q) (pop : Q),
       r_country_profile r = Some p →
       falsy (iso2 p) = false →
       population p = Some pop →
       (0 <= pop)%Q →
       failing (r_worldbank_health r) → failing (r_travel_advisory r) →
       failing (r_weather r) → failing (r_aqi r) →
       ∃ d s,
         Aggregator._fetch_and_build "FRA" "low" "short-term" false r
         = Ok (d, false,
               [ "life_expectancy"; "gdp_per_capita"; "pm25"; "pm10";
                 "travel_advisory_score"; "temperature"; "humidity" ]%string)
         ∧ d ≠ []
         ∧ overall_score_of d = Some s
         ∧ (37 < s)%Q ∧ (s < 42)%Q
         ∧ dict_get d "debug_analysis" = None).
Proof.
  split.
  - intros r p Hp Hiso Hpop Hwb Hta Hw Haqi.
    rewrite (fetch_and_build_all_fail _ _ _ _ r p) by assumption.
    unfold Aggregator._fetch_and_build. cbn [r_country_profile].
    rewrite Hiso. unfold Aggregator.pipeline. cbv zeta. rewrite Hpop.
    eexists. split; [vm_compute; reflexivity |].
    repeat apply conj; [discriminate | vm_compute; reflexivity | reflexivity].
  - intros r p pop Hp Hiso Hpop Hpos Hwb Hta Hw Haqi.
    rewrite (fetch_and_build_all_fail _ _ _ _ r p) by assumption.
    unfold Aggregator._fetch_and_build. cbn [r_country_profile].
    rewrite Hiso. unfold Aggregator.pipeline. cbv zeta. rewrite Hpop.
    unfold Aggregator.score_raw_metrics.
    cbn -[WeightingEngine.get_weights ScoringEngine.score_country pyround
          format_f Aggregator._normalize_population].
    eexists _, _. split; [reflexivity |].
    split; [discriminate |].
    split; [reflexivity |].
    assert (Hn : (0 <= Aggregator._normalize_population (Some pop)
                  ∧ Aggregator._normalize_population (Some pop) <= 1)%Q).
    { unfold Aggregator._normalize_population. split; q_minmax. }
    destruct Hn as [Hn0 Hn1].
    destruct (overall_score_low_short_term _ Hn0 Hn1) as [Hlo Hhi].
    repeat apply conj; [exact Hlo | exact Hhi | reflexivity].
Qed.

(** C7 at France without a population, and at France with 67 million
    inhabitants. *)
Lemma C7_all_providers_fail_witness :
  (∃ d,
     Aggregator._fetch_and_build "FRA" "low" "short-term" false
       (all_four_fail
          {| country_name := Some "France"%string; iso2 := Some "FR"%string;
             lat := Some 46%float; lon := Some 2%float; population := None |})
     = Ok (d, false,
           [ "life_expectancy"; "gdp_per_capita"; "population"; "pm25";
             "pm10"; "travel_advisory_score"; "temperature";
             "humidity" ]%string)
     ∧ overall_score_of d = Some 39.4%float)
  ∧ (∃ d s,
       Aggregator._fetch_and_build (F:=Q) "FRA" "low" "short-term" false
         {| r_country_profile :=
              Some {| country_name := Some "France"%string;
                      iso2 := Some "FR"%string;
                      lat := Some 46%Q; lon := Some 2%Q;
                      population := Some 67391582%Q |};
            r_worldbank_health := Exception_; r_travel_advisory := Exception_;
            r_weather := Exception_; r_aqi := Exception_ |}
       = Ok (d, false,
             [ "life_expectancy"; "gdp_per_capita"; "pm25"; "pm10";
               "travel_advisory_score"; "temperature"; "humidity" ]%string)
       ∧ overall_score_of d = Some s ∧ (37 < s)%Q ∧ (s < 42)%Q).
Proof.
  split.
  - destruct (proj1 C7_all_providers_fail
                (all_four_fail
                   {| country_name := Some "France"%string;
                      iso2 := Some "FR"%string;
                      lat := Some 46%float; lon := Some 2%float;
                      population := None |}) _
                eq_refl eq_refl eq_refl
                (fun _ => eq_refl) (fun _ => eq_refl)
                (fun _ => eq_refl) (fun _ => eq_refl))
      as (d & Hd & _ & Hs & _).
    exists d. split; assumption.
  - destruct (proj2 C7_all_providers_fail
                {| r_country_profile :=
                     Some {| country_name := Some "France"%string;
                             iso2 := Some "FR"%string;
                             lat := Some 46%Q; lon := Some 2%Q;
                             population := Some 67391582%Q |};
                   r_worldbank_health := Exception_;
                   r_travel_advisory := Exception_;
                   r_weather := Exception_; r_aqi := Exception_ |} _ _
                eq_refl eq_refl eq_refl ltac:(discriminate)
                (fun _ => eq_refl) (fun _ => eq_refl)
                (fun _ => eq_refl) (fun _ => eq_refl))
      as (d & s & Hd & _ & Hs & Hlo & Hhi & _).
    exists d, s. repeat apply conj; assumption.
Defined.

(* ===================================================================== *)
(** * The cache *)
(* ===================================================================== *)

Section CacheLemmas.
Context {V : Type}.
Implicit Types (ls : list (link V)) (c : TTLCache V) (l : link V).

Lemma find_link_Some ls key l :
  TTL.find_link ls key = Some l → In l ls ∧ l_key l = key.
Proof.
  unfold TTL.find_link. intros Hf. apply find_some in Hf as [Hin Heq].
  split; [exact Hin | now apply String.eqb_eq].
Qed.

Lemma find_link_None ls key l :
  TTL.find_link ls key = None → In l ls → l_key l ≠ key.
Proof.
  unfold TTL.find_link. intros Hf Hin Heq.
  pose proof (find_none _ _ Hf l Hin) as Hn. cbn in Hn.
  apply String.eqb_neq in Hn. contradiction.
Qed.

Lemma In_remove_key ls key l :
  In l (TTL.remove_key ls key) ↔ In l ls ∧ l_key l ≠ key.
Proof.
  unfold TTL.remove_key. rewrite filter_In, negb_true_iff, String.eqb_neq.
  reflexivity.
Qed.

Lemma In_expire time ls l :
  In l (TTL.expire time ls) ↔ In l ls ∧ time < l_expires l.
Proof. unfold TTL.expire. rewrite filter_In, Z.ltb_lt. reflexivity. Qed.

Lemma NoDup_keys_filter (p : link V → bool) ls :
  List.NoDup (map l_key ls) → List.NoDup (map l_key (List.filter p ls)).
Proof.
  induction ls as [| l ls IH]; cbn; [trivial |].
  intros Hnd. apply List.NoDup_cons_iff in Hnd as [Hnotin Hnd].
  destruct (p l); cbn; [| now apply IH].
  apply List.NoDup_cons_iff. split; [| now apply IH].
  intros Hin. apply Hnotin. apply in_map_iff in Hin as (l' & Hk & Hin').
  apply filter_In in Hin' as [Hin' _]. apply in_map_iff. eauto.
Qed.

Lemma NoDup_keys_skipn n ls :
  List.NoDup (map l_key ls) → List.NoDup (map l_key (skipn n ls)).
Proof.
  revert ls. induction n as [| n IH]; intros ls Hnd; [exact Hnd |].
  destruct ls as [| l ls]; [exact Hnd |]. cbn.
  apply List.NoDup_cons_iff in Hnd as [_ Hnd]. now apply IH.
Qed.

Lemma NoDup_keys_move_to_end ls key l :
  List.NoDup (map l_key ls) → l_key l = key →
  List.NoDup (map l_key (TTL.remove_key ls key ++ [l])).
Proof.
  intros Hnd Hk. rewrite map_app. cbn.
  apply List.NoDup_app.
  - now apply NoDup_keys_filter.
  - apply List.NoDup_cons; [intros [] | apply List.NoDup_nil].
  - intros k Hin [<- | []].
    apply in_map_iff in Hin as (l' & Hk' & Hin').
    apply In_remove_key in Hin' as [_ Hne]. congruence.
Qed.

(** With distinct keys, a key whose lookup misses has no valid entry. *)
Lemma contains_false_uncached time c key :
  distinct_keys c → TTL.contains time c key = false → uncached time c key.
Proof.
  unfold distinct_keys, TTL.contains, uncached. intros Hnd Hc l Hin Hk.
  destruct (TTL.find_link (links c) key) as [l' |] eqn:Hf.
  - apply find_link_Some in Hf as [Hin' Hk'].
    assert (l = l') as ->.
    { clear Hc. revert Hnd Hin Hin'. generalize (links c). intros ls.
      induction ls as [| x ls IH]; cbn; [intros _ [] |].
      intros Hnd. apply List.NoDup_cons_iff in Hnd as [Hnotin Hnd].
      intros [-> | Hin] [E | Hin']; try congruence.
      - exfalso. apply Hnotin. apply in_map_iff. exists l'. split; congruence.
      - exfalso. apply Hnotin. apply in_map_iff. exists l. split; congruence.
      - now apply IH. }
    apply Z.ltb_ge in Hc. exact Hc.
  - exfalso. exact (find_link_None _ _ _ Hf Hin Hk).
Qed.

Lemma uncached_contains time c key :
  uncached time c key → TTL.contains time c key = false.
Proof.
  unfold uncached, TTL.contains. intros Hu.
  destruct (TTL.find_link (links c) key) as [l |] eqn:Hf; [| reflexivity].
  apply find_link_Some in Hf as [Hin Hk]. apply Z.ltb_ge. now apply Hu.
Qed.

(** A lookup that misses leaves the cache as it is. *)
Lemma get_miss time c key :
  TTL.contains time c key = false → TTL.get time c key = (None, c).
Proof. unfold TTL.get. now intros ->. Qed.

(** A lookup that hits returns the stored value and only reorders. *)
Lemma get_hit time c key :
  TTL.contains time c key = true →
  ∃ l, TTL.find_link (links c) key = Some l ∧ time < l_expires l
       ∧ TTL.get time c key
         = (Some (l_value l),
            TTL.with_links c (TTL.remove_key (links c) key ++ [l])).
Proof.
  unfold TTL.get, TTL.contains, TTL.getitem. intros Hc. rewrite Hc.
  destruct (TTL.find_link (links c) key) as [l |]; [| discriminate].
  exists l. rewrite Hc. apply Z.ltb_lt in Hc. auto.
Qed.

Lemma get_cases time c key :
  (TTL.contains time c key = false ∧ TTL.get time c key = (None, c))
  ∨ (∃ l, TTL.find_link (links c) key = Some l ∧ time < l_expires l
          ∧ TTL.get time c key
            = (Some (l_value l),
               TTL.with_links c (TTL.remove_key (links c) key ++ [l]))).
Proof.
  destruct (TTL.contains time c key) eqn:Hc.
  - right. now apply get_hit.
  - left. split; [reflexivity | now apply get_miss].
Qed.

Lemma get_distinct time c key :
  distinct_keys c → distinct_keys (TTL.get time c key).2.
Proof.
  intros Hnd. destruct (get_cases time c key) as [[_ ->] | (l & Hf & _ & ->)];
    [exact Hnd |].
  apply find_link_Some in Hf as [_ Hk]. cbn.
  now apply NoDup_keys_move_to_end.
Qed.

Lemma get_uncached time c key key' :
  uncached time c key' → uncached time (TTL.get time c key).2 key'.
Proof.
  intros Hu. destruct (get_cases time c key) as [[_ ->] | (l & Hf & _ & ->)];
    [exact Hu |].
  apply find_link_Some in Hf as [Hin Hk]. unfold uncached in *. cbn.
  intros l' Hin' Hk'. apply in_app_iff in Hin' as [Hin' | [<- | []]].
  - apply In_remove_key in Hin' as [Hin' _]. now apply Hu.
  - now apply Hu.
Qed.

Lemma setitem_links_In time c key value l :
  In l (links (TTL.setitem time c key value)) →
  (In l (links c) ∧ l_key l ≠ key)
  ∨ l = {| l_key := key; l_value := value; l_expires := time + ttl c |}.
Proof.
  unfold TTL.setitem. cbn. intros Hin.
  apply in_app_iff in Hin as [Hin | [<- | []]]; [left | now right].
  apply In_remove_key in Hin as [Hin Hne]. split; [| exact Hne].
  assert (Hin' : In l (TTL.expire time (links c))).
  { destruct (TTL.find_link (TTL.expire time (links c)) key); [exact Hin |].
    revert Hin. generalize (length (TTL.expire time (links c)) + 1 - maxsize c)%nat.
    intros n Hin.
    rewrite <- (firstn_skipn n (TTL.expire time (links c))).
    apply in_app_iff. now right. }
  now apply In_expire in Hin' as [Hin' _].
Qed.

Lemma setitem_distinct time c key value :
  distinct_keys c → distinct_keys (TTL.setitem time c key value).
Proof.
  unfold distinct_keys, TTL.setitem. cbn. intros Hnd.
  apply NoDup_keys_move_to_end; [| reflexivity].
  destruct (TTL.find_link (TTL.expire time (links c)) key).
  - now apply NoDup_keys_filter.
  - apply NoDup_keys_skipn. now apply NoDup_keys_filter.
Qed.

Lemma setitem_uncached time c key value key' :
  key' ≠ key → uncached time c key' →
  uncached time (TTL.setitem time c key value) key'.
Proof.
  unfold uncached. intros Hne Hu l Hin Hk.
  apply setitem_links_In in Hin as [[Hin _] | ->]; [now apply Hu |].
  cbn in Hk. congruence.
Qed.

Lemma uncached_later time dt c key :
  0 <= dt → uncached time c key → uncached (time + dt) c key.
Proof. unfold uncached. intros Hdt Hu l Hin Hk. specialize (Hu l Hin Hk). lia. Qed.

Lemma find_link_move_to_end ls key l :
  l_key l = key → TTL.find_link (TTL.remove_key ls key ++ [l]) key = Some l.
Proof.
  intros Hk. unfold TTL.find_link, TTL.remove_key.
  induction ls as [| x ls IH]; cbn.
  - apply String.eqb_eq in Hk. now rewrite Hk.
  - destruct (String.eqb (l_key x) key) eqn:E; cbn; [exact IH |].
    rewrite E. exact IH.
Qed.

(** What was stored is found again until its time to live has passed. *)
Lemma get_after_setitem time time' c key value :
  time' < time + ttl c →
  (TTL.get time' (TTL.setitem time c key value) key).1 = Some value.
Proof.
  intros Ht.
  set (c' := TTL.setitem time c key value).
  assert (Hf : TTL.find_link (links c') key
               = Some {| l_key := key; l_value := value;
                         l_expires := time + ttl c |}).
  { unfold c', TTL.setitem. cbv zeta. cbn [links TTL.with_links].
    now apply find_link_move_to_end. }
  assert (Hlt : (time' <? time + ttl c) = true) by now apply Z.ltb_lt.
  unfold TTL.get, TTL.contains, TTL.getitem. rewrite Hf.
  cbn [l_expires l_value]. rewrite Hlt. reflexivity.
Qed.
End CacheLemmas.

(* ===================================================================== *)
(** * The registry of requests in flight *)
(* ===================================================================== *)

Lemma remove_in_flight_delete (m : gmap string task_id) (key : string) :
  CacheManager.remove_in_flight m key = delete key m.
Proof.
  unfold CacheManager.remove_in_flight. case_bool_decide as Hs; [reflexivity |].
  symmetry. apply delete_id. destruct (m !! key) eqn:E; [| reflexivity].
  exfalso. apply Hs. eauto.
Qed.

Lemma is_in_flight_true (m : gmap string task_id) (key : string) :
  CacheManager.is_in_flight m key = true ↔ ∃ t, m !! key = Some t.
Proof. unfold CacheManager.is_in_flight. rewrite bool_decide_eq_true. reflexivity. Qed.

Lemma is_in_flight_false (m : gmap string task_id) (key : string) :
  CacheManager.is_in_flight m key = false ↔ m !! key = None.
Proof.
  unfold CacheManager.is_in_flight. rewrite bool_decide_eq_false.
  rewrite <- eq_None_not_Some. reflexivity.
Qed.

Lemma await_in_flight_not_owner t st key t' :
  await_in_flight t st ≠ AwaitOwn key t'.
Proof. destruct st; discriminate. Qed.

Section Steps.
Context {F : Type} `{PyFloat F}.
Implicit Types (w : world F) (e : event F).

(** The three ways into [analyze_country]. *)
Lemma analyze_country_enter_cases c a w w' :
  analyze_country_enter c a w = Some w' →
  (∃ l cache,
      TTL.get (now w) (country_cache w) (cache_key a) = (Some l, cache)
      ∧ w' = {| now := now w; country_cache := cache;
                in_flight_requests := in_flight_requests w;
                tasks := tasks w; heap := heap w;
                callers := <[c := Returned (RDict l) true []]> (callers w) |})
  ∨ (∃ t tk,
        TTL.contains (now w) (country_cache w) (cache_key a) = false
        ∧ in_flight_requests w !! cache_key a = Some t
        ∧ tasks w !! t = Some tk
        ∧ w' = {| now := now w; country_cache := country_cache w;
                  in_flight_requests := in_flight_requests w;
                  tasks := tasks w; heap := heap w;
                  callers :=
                    <[c := await_in_flight t (t_state tk)]> (callers w) |})
  ∨ (TTL.contains (now w) (country_cache w) (cache_key a) = false
     ∧ in_flight_requests w !! cache_key a = None
     ∧ w' = {| now := now w; country_cache := country_cache w;
               in_flight_requests :=
                 <[cache_key a := length (tasks w)]> (in_flight_requests w);
               tasks := tasks w ++ [{| t_args := a; t_state := Pending |}];
               heap := heap w;
               callers :=
                 <[c := AwaitOwn (cache_key a) (length (tasks w))]>
                   (callers w) |}).
Proof.
  unfold analyze_country_enter, CacheManager.get_cached.
  destruct (get_cases (now w) (country_cache w) (cache_key a))
    as [[Hc ->] | (l & Hf & Hlt & ->)].
  - destruct (CacheManager.is_in_flight (in_flight_requests w) (cache_key a))
      eqn:Hfl.
    + apply is_in_flight_true in Hfl as [t Ht].
      unfold CacheManager.get_in_flight. rewrite Ht. cbn.
      destruct (tasks w !! t) as [tk |] eqn:Htk; cbn; [| discriminate].
      intros [= <-]. right. left. exists t, tk. rewrite <- Ht. auto.
    + apply is_in_flight_false in Hfl. intros [= <-]. right. right. auto.
  - intros [= <-]. left. eexists (l_value l), _. cbn. auto.
Qed.

Lemma settle_Some t st hp w w' :
  settle t st hp w = Some w' →
  ∃ tk, tasks w !! t = Some tk ∧ t_state tk = Pending
        ∧ w' = {| now := now w; country_cache := country_cache w;
                  in_flight_requests := in_flight_requests w;
                  tasks := <[t := {| t_args := t_args tk; t_state := st |}]>
                             (tasks w);
                  heap := hp; callers := callers w |}.
Proof.
  unfold settle. destruct (tasks w !! t) as [tk |] eqn:Htk; cbn; [| discriminate].
  destruct (t_state tk) eqn:Hst; [| discriminate | discriminate].
  intros [= <-]. exists tk. auto.
Qed.

(** A task ends in a state other than [Pending]. *)
Lemma task_end t e w w' :
  (∃ r, e = Finish t r) ∨ (∃ x, e = Crash t x) →
  step e w = Some w' →
  ∃ tk st hp, tasks w !! t = Some tk ∧ t_state tk = Pending ∧ st ≠ Pending
    ∧ w' = {| now := now w; country_cache := country_cache w;
              in_flight_requests := in_flight_requests w;
              tasks := <[t := {| t_args := t_args tk; t_state := st |}]>
                         (tasks w);
              heap := hp; callers := callers w |}.
Proof.
  intros [[r ->] | [x ->]]; cbn.
  - unfold run_task. destruct (tasks w !! t) as [tk0 |] eqn:Htk0; cbn;
      [| discriminate]. rewrite <- Htk0.
    destruct (_fetch_and_build _ _ _ _ r) as [[[d hit] missing] | x];
      intros Hs; apply settle_Some in Hs as (tk & Htk & Hst & ->);
      eexists tk, _, _;
      refine (conj Htk (conj Hst (conj _ eq_refl))); discriminate.
  - intros Hs. apply settle_Some in Hs as (tk & Htk & Hst & ->).
    eexists tk, _, _.
    refine (conj Htk (conj Hst (conj _ eq_refl))); discriminate.
Qed.

Lemma consistent_init : consistent (F:=F) init_world.
Proof.
  unfold init_world, CacheManager.in_flight_requests_init,
    CacheManager.country_cache_init.
  split; cbn.
  - intros t tk Ht. now rewrite lookup_nil in Ht.
  - intros key t Hk. now rewrite lookup_empty in Hk.
  - intros c key t Hc. now rewrite lookup_empty in Hc.
  - intros c c' key t t' Hc. now rewrite lookup_empty in Hc.
  - intros c key t Hc. now rewrite lookup_empty in Hc.
  - apply List.NoDup_nil.
Qed.
End Steps.

Section Invariant.
Context {F : Type} `{PyFloat F}.
Implicit Types (w : world F) (e : event F).

(** The ways out of an [await]. *)
Lemma analyze_country_resume_cases c w w' :
  analyze_country_resume c w = Some w' →
  (∃ key t tk b,
      callers w !! c = Some (AwaitOwn key t)
      ∧ tasks w !! t = Some tk ∧ t_state tk = Done b
      ∧ w' = {| now := now w;
                country_cache :=
                  TTL.setitem (now w) (country_cache w) key (b_result b);
                in_flight_requests := delete key (in_flight_requests w);
                tasks := tasks w; heap := heap w;
                callers :=
                  <[c := Returned (RDict (b_result b)) (b_is_cache_hit b)
                           (b_missing_metrics b)]> (callers w) |})
  ∨ (∃ key t tk x,
        callers w !! c = Some (AwaitOwn key t)
        ∧ tasks w !! t = Some tk ∧ t_state tk = Failed x
        ∧ w' = {| now := now w; country_cache := country_cache w;
                  in_flight_requests := delete key (in_flight_requests w);
                  tasks := tasks w; heap := heap w;
                  callers := <[c := Raised x]> (callers w) |})
  ∨ (∃ t tk,
        callers w !! c = Some (AwaitShared t)
        ∧ tasks w !! t = Some tk ∧ t_state tk ≠ Pending
        ∧ w' = {| now := now w; country_cache := country_cache w;
                  in_flight_requests := in_flight_requests w;
                  tasks := tasks w; heap := heap w;
                  callers :=
                    <[c := await_in_flight t (t_state tk)]> (callers w) |}).
Proof.
  unfold analyze_country_resume.
  destruct (callers w !! c) as [[key t | t | r hit m | x] |]; cbn;
    [| | discriminate | discriminate | discriminate].
  - destruct (tasks w !! t) as [tk |] eqn:Htk; cbn; [| discriminate].
    destruct (t_state tk) as [| b | x] eqn:Hst; [discriminate | |];
      rewrite remove_in_flight_delete; intros [= <-].
    + left. exists key, t, tk, b. auto.
    + right. left. exists key, t, tk, x. auto.
  - destruct (tasks w !! t) as [tk |] eqn:Htk; cbn; [| discriminate].
    destruct (t_state tk) as [| b | x] eqn:Hst; [discriminate | |];
      intros [= <-]; right; right; exists t, tk; rewrite Hst;
      (split; [reflexivity | split; [assumption | split; [discriminate | reflexivity]]]).
Qed.

(** Every step keeps the registry, the cache and the suspended calls
    consistent. *)
Lemma step_consistent e w w' :
  consistent w → step e w = Some w' → consistent w'.
Proof.
  intros [Hpr Hrt Hor Hou Huc Hcd] Hstep.
  destruct e as [dt | c a | t r | t x | c | l d].
  - (* the clock advances *)
    cbn in Hstep. destruct (0 <=? dt) eqn:Hdt; [| discriminate].
    apply Z.leb_le in Hdt. injection Hstep as <-.
    split; cbn; eauto using uncached_later.
  - (* a call begins *)
    cbn in Hstep. destruct (callers w !! c) eqn:Hc; [discriminate |].
    apply analyze_country_enter_cases in Hstep
      as [(l & cache & Hget & ->) | [(t & tk & Hmiss & Hfl & Htk & ->)
                                    | (Hmiss & Hfl & ->)]].
    + assert (Hcache : cache
                       = (TTL.get (now w) (country_cache w) (cache_key a)).2)
        by now rewrite Hget.
      split; cbn; eauto.
      * intros c0 key t. rewrite lookup_insert_Some.
        intros [[_ [=]] | [_ Hc0]]. eauto.
      * intros c0 c1 key t t'. rewrite !lookup_insert_Some.
        intros [[_ [=]] | [_ Hc0]] [[_ [=]] | [_ Hc1]]. eauto.
      * intros c0 key t. rewrite lookup_insert_Some.
        intros [[_ [=]] | [_ Hc0]]. rewrite Hcache. eauto using get_uncached.
      * rewrite Hcache. now apply get_distinct.
    + split; cbn; eauto.
      * intros c0 key t0. rewrite lookup_insert_Some.
        intros [[_ E] | [_ Hc0]]; [| eauto].
        now apply await_in_flight_not_owner in E.
      * intros c0 c1 key t0 t1. rewrite !lookup_insert_Some.
        intros [[_ E] | [_ Hc0]];
          [now apply await_in_flight_not_owner in E |].
        intros [[_ E] | [_ Hc1]];
          [now apply await_in_flight_not_owner in E |]. eauto.
      * intros c0 key t0. rewrite lookup_insert_Some.
        intros [[_ E] | [_ Hc0]]; [| eauto].
        now apply await_in_flight_not_owner in E.
    + split; cbn.
      * intros t tk. rewrite lookup_snoc_Some.
        intros [[_ Ht] | [-> <-]] Hst; cbn.
        -- specialize (Hpr _ _ Ht Hst).
           rewrite lookup_insert_ne; [exact Hpr |].
           congruence.
        -- apply lookup_insert_eq.
      * intros key t. rewrite lookup_insert_Some.
        intros [[<- <-] | [Hne Hk]].
        -- eexists. split; [apply lookup_snoc_Some; right; eauto | reflexivity].
        -- destruct (Hrt _ _ Hk) as (tk & Htk & Hkey).
           exists tk. split; [now apply lookup_app_l_Some | exact Hkey].
      * intros c0 key t. rewrite !lookup_insert_Some.
        intros [[_ [= <- <-]] | [_ Hc0]]; [left; auto |].
        right. split; [| eauto]. intros <-.
        specialize (Hor _ _ _ Hc0). congruence.
      * intros c0 c1 key t t'. rewrite !lookup_insert_Some.
        intros [[<- [= <- <-]] | [Hn0 Hc0]] [[<- E1] | [Hn1 Hc1]];
          try reflexivity.
        -- specialize (Hor _ _ _ Hc1). congruence.
        -- injection E1 as <- <-. specialize (Hor _ _ _ Hc0). congruence.
        -- eauto.
      * intros c0 key t. rewrite lookup_insert_Some.
        intros [[_ [= <- <-]] | [_ Hc0]]; [| eauto].
        now apply contains_false_uncached.
      * exact Hcd.
  - (* a task runs to its end *)
    apply (task_end t) in Hstep as (tk & st & hp & Htk & Hst & Hne & ->);
      [| left; eauto].
    split; cbn; eauto.
    + intros t0 tk0. rewrite list_lookup_insert_Some.
      intros [(-> & <- & _) | [_ Ht0]]; cbn; [contradiction | eauto].
    + intros key t0 Hk. destruct (Hrt _ _ Hk) as (tk0 & Htk0 & Hkey).
      destruct (decide (t = t0)) as [-> | Hn].
      * eexists. split.
        -- apply list_lookup_insert_eq. now apply lookup_lt_Some in Htk0.
        -- cbn. congruence.
      * exists tk0. split; [| exact Hkey]. now rewrite list_lookup_insert_ne.
  - (* a task crashes *)
    apply (task_end t) in Hstep as (tk & st & hp & Htk & Hst & Hne & ->);
      [| right; eauto].
    split; cbn; eauto.
    + intros t0 tk0. rewrite list_lookup_insert_Some.
      intros [(-> & <- & _) | [_ Ht0]]; cbn; [contradiction | eauto].
    + intros key t0 Hk. destruct (Hrt _ _ Hk) as (tk0 & Htk0 & Hkey).
      destruct (decide (t = t0)) as [-> | Hn].
      * eexists. split.
        -- apply list_lookup_insert_eq. now apply lookup_lt_Some in Htk0.
        -- cbn. congruence.
      * exists tk0. split; [| exact Hkey]. now rewrite list_lookup_insert_ne.
  - (* a call continues *)
    cbn in Hstep. apply analyze_country_resume_cases in Hstep
      as [(key & t & tk & b & Hc & Htk & Hst & ->)
         | [(key & t & tk & x & Hc & Htk & Hst & ->)
           | (t & tk & Hc & Htk & Hst & ->)]].
    + pose proof (Hor _ _ _ Hc) as Hreg.
      split; cbn.
      * intros t0 tk0 Ht0 Hst0. specialize (Hpr _ _ Ht0 Hst0).
        rewrite lookup_delete_ne; [exact Hpr |].
        intros E. assert (t0 = t) as -> by congruence.
        rewrite Htk in Ht0. injection Ht0 as <-. congruence.
      * intros key0 t0. rewrite lookup_delete_Some. intros [_ Hk]. eauto.
      * intros c0 key0 t0. rewrite lookup_insert_Some.
        intros [[_ [=]] | [Hn Hc0]].
        rewrite lookup_delete_ne; [eauto |].
        intros <-. apply Hn. eauto.
      * intros c0 c1 key0 t0 t1. rewrite !lookup_insert_Some.
        intros [[_ [=]] | [_ Hc0]] [[_ [=]] | [_ Hc1]]. eauto.
      * intros c0 key0 t0. rewrite lookup_insert_Some.
        intros [[_ [=]] | [Hn Hc0]].
        apply setitem_uncached; [| eauto].
        intros ->. apply Hn. eauto.
      * now apply setitem_distinct.
    + pose proof (Hor _ _ _ Hc) as Hreg.
      split; cbn.
      * intros t0 tk0 Ht0 Hst0. specialize (Hpr _ _ Ht0 Hst0).
        rewrite lookup_delete_ne; [exact Hpr |].
        intros E. assert (t0 = t) as -> by congruence.
        rewrite Htk in Ht0. injection Ht0 as <-. congruence.
      * intros key0 t0. rewrite lookup_delete_Some. intros [_ Hk]. eauto.
      * intros c0 key0 t0. rewrite lookup_insert_Some.
        intros [[_ [=]] | [Hn Hc0]].
        rewrite lookup_delete_ne; [eauto |].
        intros <-. apply Hn. eauto.
      * intros c0 c1 key0 t0 t1. rewrite !lookup_insert_Some.
        intros [[_ [=]] | [_ Hc0]] [[_ [=]] | [_ Hc1]]. eauto.
      * intros c0 key0 t0. rewrite lookup_insert_Some.
        intros [[_ [=]] | [Hn Hc0]]. eauto.
      * exact Hcd.
    + split; cbn; eauto.
      * intros c0 key t0. rewrite lookup_insert_Some.
        intros [[_ E] | [_ Hc0]]; [| eauto].
        now apply await_in_flight_not_owner in E.
      * intros c0 c1 key t0 t1. rewrite !lookup_insert_Some.
        intros [[_ E] | [_ Hc0]];
          [now apply await_in_flight_not_owner in E |].
        intros [[_ E] | [_ Hc1]];
          [now apply await_in_flight_not_owner in E |]. eauto.
      * intros c0 key t0. rewrite lookup_insert_Some.
        intros [[_ E] | [_ Hc0]]; [| eauto].
        now apply await_in_flight_not_owner in E.
  - (* a dictionary is updated in place *)
    cbn in Hstep. case_bool_decide; [| discriminate]. injection Hstep as <-.
    split; cbn; eauto.
Qed.

Lemma reachable_consistent w : reachable w → consistent w.
Proof.
  induction 1 as [| e w w' _ IH Hstep]; [apply consistent_init |].
  exact (step_consistent e w w' IH Hstep).
Qed.
End Invariant.

(* ===================================================================== *)
(** * Deduplication of requests in flight *)
(* ===================================================================== *)

Section Deduplication.
Context {F : Type} `{PyFloat F}.
Implicit Types (w : world F) (e : event F) (es : list (event F)).

Lemma filter_insert_length (p : task → bool) (l : list task) t tk tk' :
  l !! t = Some tk → p tk' = p tk →
  length (List.filter p (<[t := tk']> l)) = length (List.filter p l).
Proof.
  revert t. induction l as [| x l IH]; intros [| t] Ht Hp; try discriminate.
  - injection Ht as ->.
    change (<[0%nat := tk']> (tk :: l)) with (tk' :: l).
    cbn [List.filter]. rewrite Hp. now destruct (p tk).
  - change (<[S t := tk']> (x :: l)) with (x :: <[t := tk']> l).
    change ((x :: l) !! S t) with (l !! t) in Ht.
    cbn [List.filter]. specialize (IH t Ht Hp).
    destruct (p x); cbn [length]; rewrite IH; reflexivity.
Qed.

(** Only a call that finds its key neither cached nor in flight starts an
    execution of the pipeline. *)
Lemma step_pipelines e w w' key :
  step e w = Some w' →
  pipelines_started key w' = pipelines_started key w
  ∨ (pipelines_started key w' = S (pipelines_started key w)
     ∧ in_flight_requests w !! key = None).
Proof.
  unfold pipelines_started, pipelines. intros Hstep.
  destruct e as [dt | c a | t r | t x | c | l d].
  - cbn in Hstep. destruct (0 <=? dt); [| discriminate].
    injection Hstep as <-. now left.
  - cbn in Hstep. destruct (callers w !! c); [discriminate |].
    apply analyze_country_enter_cases in Hstep
      as [(l & cache & _ & ->) | [(t & tk & _ & _ & _ & ->) | (_ & Hfl & ->)]];
      cbn; [now left | now left |].
    rewrite List.filter_app, length_app. cbn.
    destruct (String.eqb (cache_key a) key) eqn:E; cbn.
    + right. apply String.eqb_eq in E as <-. split; [lia | exact Hfl].
    + left. lia.
  - apply (task_end t) in Hstep as (tk & st & hp & Htk & _ & _ & ->);
      [| left; eauto].
    left. cbn. now apply filter_insert_length with tk.
  - apply (task_end t) in Hstep as (tk & st & hp & Htk & _ & _ & ->);
      [| right; eauto].
    left. cbn. now apply filter_insert_length with tk.
  - cbn in Hstep. apply analyze_country_resume_cases in Hstep
      as [(key0 & t & tk & b & _ & _ & _ & ->)
         | [(key0 & t & tk & x & _ & _ & _ & ->) | (t & tk & _ & _ & _ & ->)]];
      now left.
  - cbn in Hstep. case_bool_decide; [| discriminate].
    injection Hstep as <-. now left.
Qed.

(** A call changes state only when it is resumed, and then it ends. *)
Lemma step_caller e w w' c st :
  step e w = Some w' → callers w !! c = Some st →
  callers w' !! c = Some st
  ∨ (finished st = false
     ∧ ∃ st', callers w' !! c = Some st' ∧ finished st' = true).
Proof.
  intros Hstep Hc.
  destruct e as [dt | c0 a | t r | t x | c0 | l d].
  - cbn in Hstep. destruct (0 <=? dt); [| discriminate].
    injection Hstep as <-. now left.
  - cbn in Hstep. destruct (callers w !! c0) eqn:Hc0; [discriminate |].
    assert (c0 ≠ c) by congruence.
    apply analyze_country_enter_cases in Hstep
      as [(l & cache & _ & ->) | [(t & tk & _ & _ & _ & ->) | (_ & _ & ->)]];
      cbn; left; now rewrite lookup_insert_ne.
  - apply (task_end t) in Hstep as (tk & st0 & hp & _ & _ & _ & ->);
      [| left; eauto]. now left.
  - apply (task_end t) in Hstep as (tk & st0 & hp & _ & _ & _ & ->);
      [| right; eauto]. now left.
  - cbn in Hstep. apply analyze_country_resume_cases in Hstep
      as [(key0 & t & tk & b & Hc0 & _ & _ & ->)
         | [(key0 & t & tk & x & Hc0 & _ & _ & ->)
           | (t & tk & Hc0 & _ & Hst & ->)]];
      cbn; (destruct (decide (c0 = c)) as [-> | Hne];
            [right | left; now rewrite lookup_insert_ne]);
      rewrite Hc in Hc0; injection Hc0 as ->;
      (split; [reflexivity |]); rewrite lookup_insert_eq;
      eexists; (split; [reflexivity |]).
    + reflexivity.
    + reflexivity.
    + destruct (t_state tk); [contradiction | reflexivity | reflexivity].
  - cbn in Hstep. case_bool_decide; [| discriminate].
    injection Hstep as <-. now left.
Qed.

Lemma run_finished es w w' c st :
  run es w = Some w' → callers w !! c = Some st → finished st = true →
  callers w' !! c = Some st.
Proof.
  revert w. induction es as [| e es IH]; intros w; cbn.
  - now intros [= <-].
  - destruct (step e w) as [w1 |] eqn:Hstep; cbn; [| discriminate].
    intros Hrun Hc Hfin.
    destruct (step_caller _ _ _ _ _ Hstep Hc) as [Hc1 | [Hnf _]];
      [eauto | congruence].
Qed.

Lemma run_consistent es w w' : consistent w → run es w = Some w' → consistent w'.
Proof.
  revert w. induction es as [| e es IH]; intros w Hw; cbn.
  - now intros [= <-].
  - destruct (step e w) as [w1 |] eqn:Hstep; cbn; [| discriminate].
    eauto using step_consistent.
Qed.

(** While the call that created a task waits for it, no further
    execution of the pipeline is started for its key. *)
Lemma run_owner_pipelines es w w' c key t :
  consistent w → run es w = Some w' →
  callers w !! c = Some (AwaitOwn key t) →
  callers w' !! c = Some (AwaitOwn key t) →
  pipelines_started key w' = pipelines_started key w.
Proof.
  revert w. induction es as [| e es IH]; intros w Hw; cbn.
  - now intros [= <-].
  - destruct (step e w) as [w1 |] eqn:Hstep; cbn; [| discriminate].
    intros Hrun Hc Hc'.
    assert (Hc1 : callers w1 !! c = Some (AwaitOwn key t)).
    { destruct (step_caller _ _ _ _ _ Hstep Hc)
        as [Hc1 | (_ & st' & Hc1 & Hfin)]; [exact Hc1 |].
      rewrite (run_finished _ _ _ _ _ Hrun Hc1 Hfin) in Hc'.
      injection Hc' as ->. discriminate. }
    rewrite (IH w1 (step_consistent _ _ _ Hw Hstep) Hrun Hc1 Hc').
    destruct (step_pipelines _ _ _ key Hstep) as [E | [_ Hfl]]; [exact E |].
    rewrite (owner_registered _ Hw _ _ _ Hc) in Hfl. discriminate.
Qed.

(** At most one execution of the pipeline is running per key. *)
Lemma running_unique w key t t' :
  consistent w → running w t key → running w t' key → t = t'.
Proof.
  intros Hw (tk & Htk & Hst & Hk) (tk' & Htk' & Hst' & Hk').
  pose proof (pending_registered _ Hw _ _ Htk Hst) as E.
  pose proof (pending_registered _ Hw _ _ Htk' Hst') as E'.
  congruence.
Qed.

(** A call for a key whose pipeline is owned by a suspended call joins
    that pipeline. *)
Lemma call_joins w c1 c2 a key t :
  consistent w →
  callers w !! c1 = Some (AwaitOwn key t) →
  callers w !! c2 = None →
  cache_key a = key →
  ∃ w', step (Call c2 a) w = Some w'
        ∧ tasks w' = tasks w
        ∧ in_flight_requests w' = in_flight_requests w
        ∧ country_cache w' = country_cache w
        ∧ shares w' c2 t.
Proof.
  intros Hw Hc1 Hc2 <-.
  pose proof (owner_registered _ Hw _ _ _ Hc1) as Hfl.
  pose proof (uncached_contains _ _ _ (owner_uncached _ Hw _ _ _ Hc1)) as Hmiss.
  destruct (registered_task _ Hw _ _ Hfl) as (tk & Htk & _).
  cbn. rewrite Hc2.
  unfold analyze_country_enter, CacheManager.get_cached.
  rewrite (get_miss _ _ _ Hmiss).
  assert (Hin : CacheManager.is_in_flight (in_flight_requests w) (cache_key a)
                = true) by (apply is_in_flight_true; eauto).
  rewrite Hin. unfold CacheManager.get_in_flight. rewrite Hfl. cbn.
  rewrite Htk. cbn. eexists. split; [reflexivity |]. cbn.
  repeat split. unfold shares. cbn. rewrite lookup_insert_eq.
  destruct (t_state tk) as [| b | x] eqn:Hst; cbn.
  - now left.
  - right. left. exists tk, b. auto.
  - right. right. exists tk, x. auto.
Qed.
End Deduplication.

(** C1.  Let a first call of [analyze] start the fetch pipeline for its
    key (it finds the key neither cached nor in flight), and let a second
    call with the same (countryCode, riskTolerance, duration) be issued at
    any later point at which the first has not completed.  Then the second
    call starts no pipeline: exactly one execution has been triggered for
    the key since before the first call, the registry still holds the
    first call's handle, and the second call shares that computation.  In
    every state of the process at most one execution of the pipeline is
    running per key. *)
Theorem C1_in_flight_deduplication {F : Type} `{PyFloat F}
    (w0 w1 w2 : world F) (c1 c2 : caller_id) (a1 a2 : call_args)
    (t : task_id) (es : list (event F)) :
  reachable w0 →
  step (Call c1 a1) w0 = Some w1 →
  callers w1 !! c1 = Some (AwaitOwn (cache_key a1) t) →
  run es w1 = Some w2 →
  callers w2 !! c1 = Some (AwaitOwn (cache_key a1) t) →
  callers w2 !! c2 = None →
  country_code a2 = country_code a1 →
  risk_tolerance a2 = risk_tolerance a1 →
  duration a2 = duration a1 →
  (∃ w3,
      step (Call c2 a2) w2 = Some w3
      ∧ pipelines_started (cache_key a1) w3
        = S (pipelines_started (cache_key a1) w0)
      ∧ in_flight_requests w3 !! cache_key a1 = Some t
      ∧ shares w3 c2 t)
  ∧ (∀ w, reachable w →
          ∀ key t1 t2, running w t1 key → running w t2 key → t1 = t2).
Proof.
  intros Hr0 Hstep1 Hc1 Hrun Hc1' Hc2 Ecc Ert Edu.
  split; [| intros w Hw key t1 t2; apply running_unique;
            now apply reachable_consistent].
  assert (Hkey : cache_key a2 = cache_key a1)
    by (unfold cache_key; now rewrite Ecc, Ert, Edu).
  pose proof (reachable_consistent _ Hr0) as Hw0.
  pose proof (step_consistent _ _ _ Hw0 Hstep1) as Hw1.
  pose proof (run_consistent _ _ _ Hw1 Hrun) as Hw2.
  destruct (call_joins w2 c1 c2 a2 _ t Hw2 Hc1' Hc2 Hkey)
    as (w3 & Hstep3 & Htasks & Hfl & _ & Hsh).
  exists w3. split; [exact Hstep3 |].
  repeat split; [| | exact Hsh].
  - (* one execution, started by the first call *)
    assert (E3 : pipelines_started (cache_key a1) w3
                 = pipelines_started (cache_key a1) w2)
      by (unfold pipelines_started, pipelines; now rewrite Htasks).
    rewrite E3, (run_owner_pipelines _ _ _ _ _ _ Hw1 Hrun Hc1 Hc1').
    cbn in Hstep1. destruct (callers w0 !! c1) eqn:Hc0; [discriminate |].
    apply analyze_country_enter_cases in Hstep1
      as [(l & cache & _ & ->) | [(t0 & tk & _ & _ & _ & ->) | (_ & _ & ->)]];
      cbn [callers] in Hc1; rewrite lookup_insert_eq in Hc1.
    + discriminate.
    + injection Hc1 as E. now apply await_in_flight_not_owner in E.
    + unfold pipelines_started, pipelines. cbn.
      rewrite List.filter_app, length_app. cbn.
      rewrite String.eqb_refl. cbn. lia.
  - rewrite Hfl. exact (owner_registered _ Hw2 _ _ _ Hc1').
Qed.

(** C1 at a concrete run: two calls for France from the initial state,
    a second of clock time between them. *)
Lemma C1_in_flight_deduplication_witness :
  ∃ w1 w2 w3 : world float,
    step (Call 0%nat {| country_code := "FRA"; risk_tolerance := "low";
                        duration := "short-term"; debug_mode := false |})
      init_world = Some w1
    ∧ run [Tick 1] w1 = Some w2
    ∧ step (Call 1%nat {| country_code := "FRA"; risk_tolerance := "low";
                          duration := "short-term"; debug_mode := true |})
        w2 = Some w3
    ∧ pipelines_started "FRA_low_short-term" w3 = 1%nat
    ∧ in_flight_requests w3 !! "FRA_low_short-term"%string = Some 0%nat
    ∧ shares w3 1%nat 0%nat.
Proof.
  pose (a1 := {| country_code := "FRA"; risk_tolerance := "low";
                 duration := "short-term"; debug_mode := false |}).
  pose (a2 := {| country_code := "FRA"; risk_tolerance := "low";
                 duration := "short-term"; debug_mode := true |}).
  destruct (step (F:=float) (Call 0%nat a1) init_world) as [w1 |] eqn:E1;
    [| vm_compute in E1; discriminate].
  destruct (run [Tick 1] w1) as [w2 |] eqn:E2;
    [| vm_compute in E1; injection E1 as <-; vm_compute in E2; discriminate].
  assert (Hc1 : callers w1 !! 0%nat = Some (AwaitOwn (cache_key a1) 0%nat)).
  { vm_compute in E1. injection E1 as <-. reflexivity. }
  assert (Hc1' : callers w2 !! 0%nat = Some (AwaitOwn (cache_key a1) 0%nat)).
  { vm_compute in E1. injection E1 as <-. vm_compute in E2.
    injection E2 as <-. reflexivity. }
  assert (Hc2 : callers w2 !! 1%nat = None).
  { vm_compute in E1. injection E1 as <-. vm_compute in E2.
    injection E2 as <-. reflexivity. }
  destruct (C1_in_flight_deduplication init_world w1 w2 0%nat 1%nat a1 a2
              0%nat [Tick 1] reachable_init E1 Hc1 E2 Hc1' Hc2
              eq_refl eq_refl eq_refl)
    as [(w3 & E3 & Hn & Hfl & Hsh) _].
  exists w1, w2, w3. repeat split; assumption.
Defined.

(* ===================================================================== *)
(** * The fetch task *)
(* ===================================================================== *)

Section FetchTask.
Context {F : Type} `{PyFloat F}.
Implicit Types (w : world F) (e : event F) (es : list (event F)).

(** On answers whose values are numbers or absent, [_fetch_and_build]
    returns its tuple, with a cache-hit flag of [False]. *)
Lemma fetch_and_build_returns (country_code risk_tolerance duration : string)
    (debug_mode : bool) (r : responses F) :
  ∃ d m,
    _fetch_and_build country_code risk_tolerance duration debug_mode r
    = Ok (d, false, m).
Proof.
  unfold _fetch_and_build.
  destruct (r_country_profile r) as [p |]; [| eauto].
  destruct (falsy (iso2 p)); [eauto |].
  destruct (pipeline_returns risk_tolerance duration p r) as [l ->].
  cbn. eauto.
Qed.

End FetchTask.

(* ===================================================================== *)
(** * Identity failures and the cache *)
(* ===================================================================== *)

(** C3, evaluated on the code.  When the profile is unavailable,
    [analyze] returns an empty dictionary and the marker "iso2_code"; a
    [set_cache] of [None] is a no-op.  But the empty dictionary is not
    [None]: the continuation of the call stores it, the cache then holds
    an entry for the key, and the next call is served the empty
    dictionary as a cache hit, without any marker. *)
Theorem C3_identity_failure_is_cached :
  (∀ time cache key, CacheManager.set_cache time cache key None = cache)
  ∧ (∀ country_code risk_tolerance duration debug_mode (r : responses float),
       r_country_profile r = None →
       _fetch_and_build country_code risk_tolerance duration debug_mode r
       = Ok ([], false, ["country_profile"%string]))
  ∧ ∃ w : world float,
      run [ Call 0%nat analyze_fra; Finish 0%nat profile_unavailable;
            Resume 0%nat; Call 1%nat analyze_fra ] init_world = Some w
      ∧ callers w !! 0%nat
        = Some (Returned (RDict 0%nat) false ["iso2_code"%string])
      ∧ heap w !! 0%nat = Some []
      ∧ TTL.contains (now w) (country_cache w) (cache_key analyze_fra) = true
      ∧ TTL.find_link (links (country_cache w)) (cache_key analyze_fra)
        = Some {| l_key := "FRA_low_short-term"; l_value := 0%nat;
                  l_expires := 3600 |}
      ∧ callers w !! 1%nat = Some (Returned (RDict 0%nat) true []).
Proof.
  split; [reflexivity |].
  split.
  - intros country_code risk_tolerance duration debug_mode r Hr.
    unfold _fetch_and_build. now rewrite Hr.
  - eexists. split; [vm_compute; reflexivity |].
    repeat apply conj; vm_compute; reflexivity.
Qed.

(* ===================================================================== *)
(** * What a call that finds its key in flight returns *)
(* ===================================================================== *)

(** C5, evaluated on the code.  A second call made while the first is in
    flight waits for the first call's task and starts no pipeline, and
    reports a cache miss; but what it returns in the result position is
    the task's whole tuple (result, is_cache_hit, missing_metrics), not
    the result dictionary the owning call returns, and its own list of
    missing metrics is empty.  No call that waited for a task in flight
    ever returns a dictionary. *)
Theorem C5_waiter_returns_the_task_tuple :
  (∃ w : world float,
      run [ Call 0%nat analyze_fra; Call 1%nat analyze_fra;
            Finish 0%nat (all_four_fail france);
            Resume 0%nat; Resume 1%nat ] init_world = Some w
      ∧ length (tasks w) = 1%nat
      ∧ callers w !! 0%nat
        = Some (Returned (RDict 0%nat) false provider_metrics)
      ∧ callers w !! 1%nat
        = Some (Returned
                  (RTuple {| b_result := 0%nat; b_is_cache_hit := false;
                             b_missing_metrics := provider_metrics |})
                  false []))
  ∧ (∀ (w w' : world float) (c : caller_id) (t : task_id),
       callers w !! c = Some (AwaitShared t) →
       step (Resume c) w = Some w' →
       ∀ l hit missing,
         callers w' !! c ≠ Some (Returned (RDict l) hit missing)).
Proof.
  split.
  - eexists. split; [vm_compute; reflexivity |].
    repeat apply conj; vm_compute; reflexivity.
  - intros w w' c t Hc Hstep l hit missing Hret.
    cbn in Hstep. apply analyze_country_resume_cases in Hstep
      as [(key & t0 & tk & b & Hc0 & _)
         | [(key & t0 & tk & x & Hc0 & _) | (t0 & tk & _ & _ & _ & ->)]];
      [congruence | congruence |].
    cbn in Hret. rewrite lookup_insert_eq in Hret.
    destruct (t_state tk); discriminate.
Qed.

(* ===================================================================== *)
(** * Further properties: the scoring engine *)
(* ===================================================================== *)

(** The score of an empty metric mapping is 0.0, whatever the weights. *)
Theorem score_of_no_metrics (weights : pydict float) :
  ScoringEngine.score_country [] weights = 0%float.
Proof. vm_compute. reflexivity. Qed.

(* ===================================================================== *)
(** * Further properties: the weights *)
(* ===================================================================== *)

(** [get_weights] on any two strings, valid request parameters or not:
    the weights are those of the seven weighted metrics, none is negative,
    and they sum to 1 within 1e-9 (Python's [sum] and the exact sum of the
    seven floats).  A risk tolerance other than low and high gets the
    moderate table.  A duration other than short-term and long-term gets
    no adjustment: the weights are those of the risk tolerance, each
    divided by their total. *)
Theorem get_weights_any_strings (risk_tolerance duration : string) :
  let ws := WeightingEngine.get_weights (F:=float) risk_tolerance duration in
  dict_keys ws
  = [ "life_expectancy"; "gdp_per_capita"; "population"; "pm25";
      "travel_advisory_score"; "temperature"; "humidity" ]%string
  ∧ forallb (fun x => PrimFloat.leb 0 x) (dict_values ws) = true
  ∧ within 1e-9 1 (exact (pysum (dict_values ws))) = true
  ∧ within 1e-9 1 (exact_sum (dict_values ws)) = true
  ∧ ws = WeightingEngine.get_weights
           (if String.eqb risk_tolerance "low" then "low"
            else if String.eqb risk_tolerance "high" then "high"
            else "moderate")
           (if String.eqb duration "short-term" then "short-term"
            else if String.eqb duration "long-term" then "long-term"
            else "")
  ∧ (duration ≠ "short-term"%string → duration ≠ "long-term"%string →
     ws = renormalized (risk_weights risk_tolerance)).
Proof.
  cbv zeta.
  assert (Hplain : duration ≠ "short-term"%string →
                   duration ≠ "long-term"%string →
                   WeightingEngine.get_weights (F:=float) risk_tolerance duration
                   = renormalized (risk_weights risk_tolerance)).
  { intros Hshort Hlong. apply String.eqb_neq in Hshort, Hlong.
    unfold WeightingEngine.get_weights, WeightingEngine.get_weights_with,
      renormalized, risk_weights.
    rewrite Hshort, Hlong.
    destruct (String.eqb risk_tolerance "low");
      [| destruct (String.eqb risk_tolerance "high")];
      vm_compute; reflexivity. }
  revert Hplain. generalize (renormalized (F:=float) (risk_weights risk_tolerance)).
  intros plain Hplain.
  unfold WeightingEngine.get_weights, WeightingEngine.get_weights_with in *.
  destruct (String.eqb risk_tolerance "low");
    [| destruct (String.eqb risk_tolerance "high")];
    (destruct (String.eqb duration "short-term");
     [| destruct (String.eqb duration "long-term")]);
    (repeat (split; [vm_compute; reflexivity |])); exact Hplain.
Qed.

(** The weights of a risk tolerance and a duration the request validator
    would not admit: the moderate weights, each divided by their total of
    1.1. *)
Lemma get_weights_any_strings_witness :
  WeightingEngine.get_weights (F:=float) "reckless" "weekend"
  = renormalized (risk_weights "reckless")
  ∧ dict_get (WeightingEngine.get_weights (F:=float) "reckless" "weekend")
      "travel_advisory_score"
    = Some (0.25 / 1.1)%float.
Proof.
  destruct (get_weights_any_strings "reckless" "weekend")
    as (_ & _ & _ & _ & _ & Hplain).
  split; [apply Hplain; discriminate |].
  rewrite Hplain by discriminate. vm_compute. reflexivity.
Defined.

(** The copies aggregator.py keeps of the two scoring functions:
    [_score_country] computes what [score_country] computes, but
    [_get_weights] returns the weights of [get_weights] only for the risk
    tolerance "high"; for every other one the travel advisory weight of
    its table differs (0.15 and 0.25 against 0.25 and 0.35). *)
Theorem local_weights_differ :
  (∀ (F : Type) (HF : PyFloat F) (metrics weights : pydict F),
     AggregatorLocal._score_country metrics weights
     = ScoringEngine.score_country metrics weights)
  ∧ (∀ risk_tolerance duration : string,
       AggregatorLocal._get_weights (F:=float) risk_tolerance duration
       = WeightingEngine.get_weights risk_tolerance duration
       ↔ risk_tolerance = "high"%string).
Proof.
  split; [reflexivity |].
  intros risk_tolerance duration.
  unfold AggregatorLocal._get_weights, WeightingEngine.get_weights,
    WeightingEngine.get_weights_with.
  destruct (String.eqb_spec risk_tolerance "low") as [-> | Hlow].
  - split; [| discriminate].
    intros E.
    apply (f_equal (fun ws =>
             option_map Prim2SF (dict_get ws "travel_advisory_score"))) in E.
    revert E.
    destruct (String.eqb duration "short-term");
      [| destruct (String.eqb duration "long-term")];
      vm_compute; discriminate.
  - destruct (String.eqb_spec risk_tolerance "high") as [-> | Hhigh].
    + split; [reflexivity |]. intros _.
      destruct (String.eqb duration "short-term");
        [| destruct (String.eqb duration "long-term")];
        vm_compute; reflexivity.
    + split; [| intros ->; contradiction].
      intros E. exfalso.
      apply (f_equal (fun ws =>
               option_map Prim2SF (dict_get ws "travel_advisory_score"))) in E.
      revert E.
      destruct (String.eqb duration "short-term");
        [| destruct (String.eqb duration "long-term")];
        vm_compute; discriminate.
Qed.

(* ===================================================================== *)
(** * Further properties: normalization *)
(* ===================================================================== *)

Section MonotoneOverQ.
Local Open Scope Q_scope.

Lemma spec_temperature_rising (v v' : Q) :
  v <= v' → v' <= 28 → spec_temperature v <= spec_temperature v'.
Proof.
  intros Hv H28. unfold spec_temperature.
  destruct (Qle_bool 15 v) eqn:E1; destruct (Qle_bool v 28) eqn:E2;
    destruct (Qle_bool 15 v') eqn:E3; destruct (Qle_bool v' 28) eqn:E4;
    cbn [andb];
    try apply Qle_bool_iff in E1; try apply Qle_bool_false in E1;
    try apply Qle_bool_iff in E2; try apply Qle_bool_false in E2;
    try apply Qle_bool_iff in E3; try apply Qle_bool_false in E3;
    try apply Qle_bool_iff in E4; try apply Qle_bool_false in E4;
    try lra; q_minmax.
Qed.

Lemma spec_temperature_falling (v v' : Q) :
  v <= v' → 15 <= v → spec_temperature v' <= spec_temperature v.
Proof.
  intros Hv H15. unfold spec_temperature.
  destruct (Qle_bool 15 v) eqn:E1; destruct (Qle_bool v 28) eqn:E2;
    destruct (Qle_bool 15 v') eqn:E3; destruct (Qle_bool v' 28) eqn:E4;
    cbn [andb];
    try apply Qle_bool_iff in E1; try apply Qle_bool_false in E1;
    try apply Qle_bool_iff in E2; try apply Qle_bool_false in E2;
    try apply Qle_bool_iff in E3; try apply Qle_bool_false in E3;
    try apply Qle_bool_iff in E4; try apply Qle_bool_false in E4;
    try lra; q_minmax.
Qed.
End MonotoneOverQ.

(** The direction of every normalizer, in exact arithmetic: a higher life
    expectancy or GDP per capita never lowers the normalized value; a
    higher population, PM2.5, PM10 or advisory score never raises it; the
    temperature score rises up to the comfort band (15 to 28 degrees) and
    falls above it; the humidity score does not depend on the value. *)
Theorem normalizers_monotone (v v' : Q) :
  (v <= v')%Q →
  (_normalize_life_expectancy (Some v) <= _normalize_life_expectancy (Some v')
   ∧ _normalize_gdp_per_capita (Some v) <= _normalize_gdp_per_capita (Some v')
   ∧ _normalize_population (Some v') <= _normalize_population (Some v)
   ∧ _normalize_pm25 (Some v') <= _normalize_pm25 (Some v)
   ∧ _normalize_pm10 (Some v') <= _normalize_pm10 (Some v)
   ∧ _normalize_travel_advisory_score (Some v')
     <= _normalize_travel_advisory_score (Some v)
   ∧ (v' <= 28 → _normalize_temperature (Some v) <= _normalize_temperature (Some v'))
   ∧ (15 <= v → _normalize_temperature (Some v') <= _normalize_temperature (Some v))
   ∧ _normalize_humidity (Some v) == _normalize_humidity (Some v'))%Q.
Proof.
  intros Hv.
  rewrite !life_expectancy_table, !gdp_per_capita_table, !population_table,
    !pm25_table, ?pm10_table, !travel_advisory_score_table, !temperature_table.
  unfold spec_life_expectancy, spec_clamp, spec_gdp_per_capita,
    spec_population, spec_pm, spec_travel_advisory_score.
  repeat apply conj.
  - q_minmax.
  - q_minmax.
  - q_minmax.
  - q_minmax.
  - q_minmax.
  - unfold Qdiv; cbn [Qinv Qnum Qden]; lra.
  - intros H28. apply spec_temperature_rising; assumption.
  - intros H15. apply spec_temperature_falling; assumption.
  - reflexivity.
Qed.

(** The direction of the normalizers between 10 and 20. *)
Lemma normalizers_monotone_witness :
  (_normalize_life_expectancy (Some 10) <= _normalize_life_expectancy (Some 20)
   ∧ _normalize_gdp_per_capita (Some 10) <= _normalize_gdp_per_capita (Some 20)
   ∧ _normalize_population (Some 20) <= _normalize_population (Some 10)
   ∧ _normalize_pm25 (Some 20) <= _normalize_pm25 (Some 10)
   ∧ _normalize_pm10 (Some 20) <= _normalize_pm10 (Some 10)
   ∧ _normalize_travel_advisory_score (Some 20)
     <= _normalize_travel_advisory_score (Some 10)
   ∧ (20 <= 28 → _normalize_temperature (Some 10) <= _normalize_temperature (Some 20))
   ∧ (15 <= 10 → _normalize_temperature (Some 20) <= _normalize_temperature (Some 10))
   ∧ _normalize_humidity (Some 10) == _normalize_humidity (Some 20))%Q.
Proof. apply (normalizers_monotone 10 20). discriminate. Defined.

(** The advisory score [fetch_travel_advisory] computes from a threat
    level, followed by the normalizer: levels 1 to 4 give the scores 25,
    50, 75 and 100 and the normalized values 0.75, 0.5, 0.25 and 0.0, so
    the safest level never reaches 1.0, and the fallback for a missing
    advisory, 0.2, ranks below level 3.  In exact arithmetic the
    normalized value of level n is 1 - n/4, within [0,1] exactly for the
    levels 0 to 4. *)
Theorem advisory_levels_normalized :
  (map ExternalClients.advisory_score [1; 2; 3; 4]
   = [25; 50; 75; 100]%float
   ∧ map (fun level =>
            _normalize_travel_advisory_score
              (Some (ExternalClients.advisory_score level))) [1; 2; 3; 4]
     = [0.75; 0.5; 0.25; 0]%float
   ∧ _normalize_travel_advisory_score (F:=float) None = 0.2%float
   ∧ PrimFloat.ltb 0.2 0.25 = true)
  ∧ (∀ level : Z,
       (_normalize_travel_advisory_score
          (Some (ExternalClients.advisory_score level))
        == 1 - inject_Z level / 4)%Q
       ∧ (in_unit_interval
            (_normalize_travel_advisory_score (F:=Q)
               (Some (ExternalClients.advisory_score level))) = true
          ↔ 0 <= level <= 4)).
Proof.
  split; [repeat apply conj; vm_compute; reflexivity |].
  intros level.
  assert (E : (_normalize_travel_advisory_score
                 (Some (ExternalClients.advisory_score level))
               == 1 - inject_Z level / 4)%Q).
  { rewrite travel_advisory_score_table.
    unfold spec_travel_advisory_score, ExternalClients.advisory_score.
    cbn [lit Q_PyFloat fmul fdiv]. field. }
  split; [exact E |].
  unfold in_unit_interval. cbn [exact Q_PyFloat].
  rewrite andb_true_iff, !Qle_bool_iff, E.
  unfold Qdiv; cbn [Qinv Qnum Qden].
  split.
  - intros [H0 H1].
    assert (Hl : (inject_Z 0 <= inject_Z level)%Q)
      by (change (inject_Z 0) with 0%Q; lra).
    assert (Hu : (inject_Z level <= inject_Z 4)%Q)
      by (change (inject_Z 4) with 4%Q; lra).
    rewrite <- Zle_Qle in Hl, Hu. lia.
  - intros [H0 H4].
    rewrite Zle_Qle in H0, H4.
    change (inject_Z 0) with 0%Q in H0. change (inject_Z 4) with 4%Q in H4.
    split; lra.
Qed.

(* ===================================================================== *)
(** * Further properties: the fetch pipeline *)
(* ===================================================================== *)

Section Missing.
Context {F : Type} `{PyFloat F}.

Lemma filter_None_keys {V} (raw : pydict (option V)) (k : string) :
  NoDup (dict_keys raw) →
  k ∈ dict_keys (filter (fun kv => kv.2 = None) raw)
  ↔ k ∈ dict_keys raw ∧ get_optional raw k = None.
Proof.
  unfold dict_keys, get_optional, pydict in *.
  induction raw as [| [k0 v] raw IH]; intros Hnd.
  - cbn. split; [intros Hin | intros [Hin _]]; inversion Hin.
  - cbn [map fst] in Hnd. apply NoDup_cons in Hnd as [Hk0 Hnd].
    specialize (IH Hnd).
    rewrite filter_cons. cbn [snd dict_get map fst].
    destruct (String.eqb_spec k0 k) as [-> | Hne].
    + destruct (decide (v = None)) as [-> | Hv].
      * cbn [map fst]. split; [intros _ | intros _; left].
        split; [left | reflexivity].
      * split.
        -- intros Hin. apply IH in Hin as [Hin _]. contradiction.
        -- intros [_ Hv']. contradiction.
    + destruct (decide (v = None)) as [-> | Hv]; cbn [map fst];
        rewrite ?elem_of_cons, IH; intuition congruence.
Qed.

Lemma metric_names_NoDup : NoDup metric_names.
Proof. apply (bool_decide_unpack _). vm_compute. reflexivity. Qed.
End Missing.

Section PipelineLocals.
Context {F : Type} `{PyFloat F}.
Local Open Scope py_scope.

(** The locals of [_fetch_and_build] in terms of the raw metrics. *)
Lemma score_raw_metrics_locals (risk_tolerance duration : string)
    (raw : pydict (option F)) :
  score_raw_metrics risk_tolerance duration raw
  = Ok {| raw_metrics := raw;
          missing_metrics := dict_keys (filter (fun kv => kv.2 = None) raw);
          normalized_scores := _normalize_metrics raw;
          travel_risk_sub_score :=
            (lit 1 - _normalize_travel_advisory_score
                       (get_optional raw "travel_advisory_score")) * lit 100;
          health_infra_score :=
            (_normalize_life_expectancy (get_optional raw "life_expectancy")
             + _normalize_gdp_per_capita (get_optional raw "gdp_per_capita"))
            / lit 2 * lit 100;
          env_stability_score :=
            (_normalize_pm25 (get_optional raw "pm25")
             + _normalize_pm10 (get_optional raw "pm10")
             + _normalize_temperature (get_optional raw "temperature"))
            / lit 3 * lit 100;
          weights := WeightingEngine.get_weights risk_tolerance duration;
          overall_score :=
            pyround
              (ScoringEngine.score_country
                 [ ("life_expectancy",
                     _normalize_life_expectancy (get_optional raw "life_expectancy"));
                   ("gdp_per_capita",
                     _normalize_gdp_per_capita (get_optional raw "gdp_per_capita"));
                   ("population",
                     _normalize_population (get_optional raw "population"));
                   ("pm25", _normalize_pm25 (get_optional raw "pm25"));
                   ("pm10", _normalize_pm10 (get_optional raw "pm10"));
                   ("travel_advisory_score",
                     _normalize_travel_advisory_score
                       (get_optional raw "travel_advisory_score"));
                   ("temperature",
                     _normalize_temperature (get_optional raw "temperature"));
                   ("humidity", _normalize_humidity (get_optional raw "humidity")) ]%string
                 (WeightingEngine.get_weights risk_tolerance duration)) 1 |}.
Proof. reflexivity. Qed.

(** What [_fetch_and_build] returns for an identified country. *)
Lemma fetch_and_build_identified (country_code risk_tolerance duration : string)
    (debug_mode : bool) (r : responses F) :
  identified r = true →
  ∃ p l,
    r_country_profile r = Some p
    ∧ pipeline risk_tolerance duration p r = Ok l
    ∧ missing_metrics l
      = dict_keys (filter (fun kv => kv.2 = None)
                     (assemble_raw_metrics (population p) r))
    ∧ _fetch_and_build country_code risk_tolerance duration debug_mode r
      = Ok (build_result country_code risk_tolerance duration debug_mode p l,
            false, missing_metrics l).
Proof.
  unfold identified, _fetch_and_build.
  destruct (r_country_profile r) as [p |]; [| discriminate].
  destruct (falsy (iso2 p)); [discriminate |]. intros _.
  unfold pipeline. rewrite score_raw_metrics_locals.
  eexists _, _. repeat apply conj; reflexivity.
Qed.

(** Without debug mode a result has no entry debug_analysis. *)
Lemma fetch_and_build_no_debug (country_code risk_tolerance duration : string)
    (r : responses F) d hit m :
  _fetch_and_build country_code risk_tolerance duration false r = Ok (d, hit, m) →
  dict_get d "debug_analysis" = None.
Proof.
  unfold _fetch_and_build.
  destruct (r_country_profile r) as [p |]; [| now intros [= <- _ _]].
  destruct (falsy (iso2 p)); [now intros [= <- _ _] |].
  unfold pipeline. rewrite score_raw_metrics_locals.
  now intros [= <- _ _].
Qed.

(** Humidity is never among the raw metrics that have a value. *)
Lemma humidity_is_missing (population : option F) (r : responses F) :
  "humidity"%string
  ∈ dict_keys (filter (fun kv => kv.2 = None)
                 (assemble_raw_metrics population r)).
Proof.
  apply filter_None_keys.
  - apply metric_names_NoDup.
  - split; [| reflexivity].
    apply (bool_decide_unpack _). vm_compute. reflexivity.
Qed.
End PipelineLocals.

Section BoundsOverQ.
Local Open Scope Q_scope.

Lemma in_unit_interval_Q_inv (q : Q) :
  in_unit_interval (F:=Q) q = true → 0 <= q ∧ q <= 1.
Proof.
  unfold in_unit_interval. cbn [exact Q_PyFloat].
  rewrite andb_true_iff, !Qle_bool_iff. tauto.
Qed.

Lemma round_half_even_between (q : Q) (a b : Z) :
  inject_Z a <= q → q <= inject_Z b →
  (a <= round_half_even q <= b)%Z.
Proof.
  intros Ha Hb. unfold round_half_even.
  pose proof (Qfloor_le q) as Hlo.
  assert (Hfa : (a <= Qfloor q)%Z).
  { rewrite <- (Qfloor_Z a). apply Qfloor_resp_le. exact Ha. }
  assert (Hfb : (Qfloor q <= b)%Z).
  { rewrite <- (Qfloor_Z b). apply Qfloor_resp_le. exact Hb. }
  assert (Hstrict : 1 # 2 <= q - inject_Z (Qfloor q) → (Qfloor q + 1 <= b)%Z).
  { intros Hhalf.
    assert (Hlt : inject_Z (Qfloor q) < inject_Z b) by lra.
    rewrite <- Zlt_Qlt in Hlt. lia. }
  destruct (q - inject_Z (Qfloor q) ?= 1 # 2) eqn:E.
  - apply Qeq_alt in E.
    destruct (Z.even (Qfloor q)); [lia |].
    split; [lia | apply Hstrict; lra].
  - lia.
  - apply Qgt_alt in E. split; [lia | apply Hstrict; lra].
Qed.

Lemma pyround_Q_between (x : Q) (ndigits : nat) (a b : Z) :
  inject_Z a <= x → x <= inject_Z b →
  inject_Z a <= pyround (F:=Q) x ndigits ∧ pyround (F:=Q) x ndigits <= inject_Z b.
Proof.
  intros Ha Hb. unfold pyround. cbn [exact lit Q_PyFloat].
  set (p := pow10 ndigits).
  assert (Hp : 0 <= inject_Z (Z.pos p)) by (rewrite <- (Zle_Qle 0); lia).
  destruct (round_half_even_between (x * inject_Z (Z.pos p))
              (a * Z.pos p) (b * Z.pos p)) as [Hlo Hhi].
  { rewrite inject_Z_mult. apply Qmult_le_compat_r; assumption. }
  { rewrite inject_Z_mult. apply Qmult_le_compat_r; assumption. }
  set (z := round_half_even (x * inject_Z (Z.pos p))) in *.
  unfold Qle, inject_Z. cbn [Qnum Qden]. split; lia.
Qed.

Lemma Qmult_unit_bounds (n w : Q) :
  0 <= n → n <= 1 → 0 <= w → 0 <= n * w ∧ n * w <= w.
Proof.
  intros H0 H1 Hw. split.
  - apply Qmult_le_0_compat; assumption.
  - apply Qle_trans with (1 * w).
    + apply Qmult_le_compat_r; assumption.
    + rewrite Qmult_1_l. apply Qle_refl.
Qed.

(** A weighted score of eight values between 0 and 1 lies between 0 and
    100. *)
Lemma score_country_between (w : pydict Q) (n1 n2 n3 n4 n5 n6 n7 n8 : Q) :
  weights_admissible w = true →
  Forall (fun n => 0 <= n ∧ n <= 1) [n1; n2; n3; n4; n5; n6; n7; n8] →
  let s :=
    ScoringEngine.score_country
      [ ("life_expectancy", n1); ("gdp_per_capita", n2); ("population", n3);
        ("pm25", n4); ("pm10", n5); ("travel_advisory_score", n6);
        ("temperature", n7); ("humidity", n8) ]%string w in
  0 <= s ∧ s <= 100.
Proof.
  intros Hw Hn s. subst s.
  unfold weights_admissible, metric_names in Hw.
  cbn [forallb map foldr] in Hw.
  rewrite !andb_true_iff, !Qle_bool_iff in Hw.
  destruct Hw as [(Hw1 & Hw2 & Hw3 & Hw4 & Hw5 & Hw6 & Hw7 & Hw8 & _) Hsum].
  repeat match goal with
         | Hn : Forall _ (_ :: _) |- _ =>
             apply Forall_cons in Hn; destruct Hn as [[? ?] Hn]
         end.
  unfold ScoringEngine.score_country.
  cbn [fold_left fst snd].
  cbn [fadd fmul Q_PyFloat].
  pose proof (Qmult_unit_bounds n1 _ ltac:(assumption) ltac:(assumption) Hw1).
  pose proof (Qmult_unit_bounds n2 _ ltac:(assumption) ltac:(assumption) Hw2).
  pose proof (Qmult_unit_bounds n3 _ ltac:(assumption) ltac:(assumption) Hw3).
  pose proof (Qmult_unit_bounds n4 _ ltac:(assumption) ltac:(assumption) Hw4).
  pose proof (Qmult_unit_bounds n5 _ ltac:(assumption) ltac:(assumption) Hw5).
  pose proof (Qmult_unit_bounds n6 _ ltac:(assumption) ltac:(assumption) Hw6).
  pose proof (Qmult_unit_bounds n7 _ ltac:(assumption) ltac:(assumption) Hw7).
  pose proof (Qmult_unit_bounds n8 _ ltac:(assumption) ltac:(assumption) Hw8).
  apply (pyround_Q_between _ 2 0 100).
  - change (inject_Z 0) with 0.
    repeat match goal with
           | |- context [?n * get_default w ?k ?z] =>
               generalize dependent (n * get_default w k z); intros
           end.
    cbn [lit Q_PyFloat]. lra.
  - change (inject_Z 100) with 100.
    repeat match goal with
           | |- context [?n * get_default w ?k ?z] =>
               generalize dependent (n * get_default w k z); intros
           end.
    cbn [lit Q_PyFloat]. lra.
Qed.

Lemma get_weights_admissible (risk_tolerance duration : string) :
  weights_admissible (WeightingEngine.get_weights risk_tolerance duration) = true.
Proof.
  unfold WeightingEngine.get_weights, WeightingEngine.get_weights_with.
  destruct (String.eqb risk_tolerance "low");
    [| destruct (String.eqb risk_tolerance "high")];
    (destruct (String.eqb duration "short-term");
     [| destruct (String.eqb duration "long-term")]);
    vm_compute; reflexivity.
Qed.
End BoundsOverQ.

(** For provider answers within their ranges, in exact arithmetic and
    for any risk tolerance and duration: the overall score and the three
    sub-scores, unrounded and as rounded into the result, lie between 0
    and 100. *)
Theorem scores_between_0_and_100 (risk_tolerance duration : string)
    (p : country_profile Q) (r : responses Q) :
  provider_ranges (assemble_raw_metrics (population p) r) = true →
  ∃ l,
    pipeline risk_tolerance duration p r = Ok l
    ∧ (0 <= overall_score l ∧ overall_score l <= 100
       ∧ 0 <= travel_risk_sub_score l ∧ travel_risk_sub_score l <= 100
       ∧ 0 <= health_infra_score l ∧ health_infra_score l <= 100
       ∧ 0 <= env_stability_score l ∧ env_stability_score l <= 100
       ∧ 0 <= pyround (travel_risk_sub_score l) 0
       ∧ pyround (travel_risk_sub_score l) 0 <= 100
       ∧ 0 <= pyround (health_infra_score l) 0
       ∧ pyround (health_infra_score l) 0 <= 100
       ∧ 0 <= pyround (env_stability_score l) 0
       ∧ pyround (env_stability_score l) 0 <= 100)%Q.
Proof.
  intros Hr.
  unfold pipeline. rewrite score_raw_metrics_locals.
  set (raw := assemble_raw_metrics (population p) r) in *.
  eexists. split; [reflexivity |].
  cbn [overall_score travel_risk_sub_score health_infra_score
         env_stability_score].
  unfold provider_ranges in Hr.
  apply andb_prop in Hr as [Hr Htas].
  apply andb_prop in Hr as [Hr Hpm10].
  apply andb_prop in Hr as [Hr Hpm25].
  apply andb_prop in Hr as [Hgdp Hpop].
  pose proof (in_unit_interval_Q_inv _
    (unit_life_expectancy (get_optional raw "life_expectancy"))) as Hle.
  pose proof (in_unit_interval_Q_inv _ (unit_gdp_per_capita _ Hgdp)) as Hg.
  pose proof (in_unit_interval_Q_inv _ (unit_population _ Hpop)) as Hpo.
  pose proof (in_unit_interval_Q_inv _ (unit_pm25 _ Hpm25)) as H25.
  pose proof (in_unit_interval_Q_inv _ (unit_pm10 _ Hpm10)) as H10.
  pose proof (in_unit_interval_Q_inv _
    (unit_temperature (get_optional raw "temperature"))) as Htemp.
  pose proof (in_unit_interval_Q_inv _
    (unit_humidity (get_optional raw "humidity"))) as Hhum.
  assert (Hta : (0 <= _normalize_travel_advisory_score
                        (get_optional raw "travel_advisory_score")
                 ∧ _normalize_travel_advisory_score
                     (get_optional raw "travel_advisory_score") <= 1)%Q).
  { destruct (get_optional raw "travel_advisory_score") as [q |].
    - apply andb_prop in Htas as [H0 H100].
      apply Qle_bool_iff in H0, H100.
      apply in_unit_interval_Q_inv, unit_travel_advisory_score; assumption.
    - split; discriminate. }
  revert Hle Hg Hpo H25 H10 Htemp Hhum Hta.
  generalize (_normalize_life_expectancy (get_optional raw "life_expectancy")).
  generalize (_normalize_gdp_per_capita (get_optional raw "gdp_per_capita")).
  generalize (_normalize_population (get_optional raw "population")).
  generalize (_normalize_pm25 (get_optional raw "pm25")).
  generalize (_normalize_pm10 (get_optional raw "pm10")).
  generalize (_normalize_temperature (get_optional raw "temperature")).
  generalize (_normalize_humidity (get_optional raw "humidity")).
  generalize (_normalize_travel_advisory_score
                (get_optional raw "travel_advisory_score")).
  intros nta nhum ntemp n10 n25 npop ngdp nle Hle Hg Hpo H25 H10 Htemp Hhum Hta.
  destruct (score_country_between
              (WeightingEngine.get_weights risk_tolerance duration)
              nle ngdp npop n25 n10 nta ntemp nhum
              (get_weights_admissible _ _)) as [Hs0 Hs100].
  { repeat constructor; tauto. }
  cbv zeta in Hs0, Hs100.
  destruct (pyround_Q_between _ 1 0 100 Hs0 Hs100) as [Ho0 Ho100].
  change (inject_Z 0) with 0%Q in Ho0. change (inject_Z 100) with 100%Q in Ho100.
  change (lit 1) with 1%Q. change (lit 2) with 2%Q. change (lit 3) with 3%Q.
  change (lit 100) with 100%Q.
  cbn [fadd fsub fmul fdiv Q_PyFloat].
  assert (Ht : (0 <= (1 - nta) * 100 ∧ (1 - nta) * 100 <= 100)%Q)
    by (split; lra).
  assert (Hh : (0 <= (nle + ngdp) / 2 * 100 ∧ (nle + ngdp) / 2 * 100 <= 100)%Q)
    by (unfold Qdiv; cbn [Qinv Qnum Qden]; split; lra).
  assert (He : (0 <= (n25 + n10 + ntemp) / 3 * 100
                ∧ (n25 + n10 + ntemp) / 3 * 100 <= 100)%Q)
    by (unfold Qdiv; cbn [Qinv Qnum Qden]; split; lra).
  destruct Ht as [Ht0 Ht1], Hh as [Hh0 Hh1], He as [He0 He1].
  pose proof (pyround_Q_between _ 0 0 100 Ht0 Ht1) as [? ?].
  pose proof (pyround_Q_between _ 0 0 100 Hh0 Hh1) as [? ?].
  pose proof (pyround_Q_between _ 0 0 100 He0 He1) as [? ?].
  repeat apply conj; assumption.
Qed.

(** The range of the scores at France with a life expectancy of 82.5
    years, an advisory score of 25 and 3.5 degrees. *)
Lemma scores_between_0_and_100_witness :
  ∃ l,
    pipeline (F:=Q) "low" "short-term"
      {| country_name := Some "France"%string; iso2 := Some "FR"%string;
         lat := Some 46%Q; lon := Some 2%Q; population := Some 67391582%Q |}
      {| r_country_profile := None;
         r_worldbank_health :=
           Value [ ("life_expectancy", Some 82.5%Q);
                   ("gdp_per_capita", Some 44000%Q) ]%string;
         r_travel_advisory := Value [("advisory_score"%string, Some 25%Q)];
         r_weather := Value [("temperature"%string, Some 3.5%Q)];
         r_aqi := Exception_ |} = Ok l
    ∧ (0 <= overall_score l ∧ overall_score l <= 100)%Q.
Proof.
  destruct (scores_between_0_and_100 "low" "short-term"
              {| country_name := Some "France"%string; iso2 := Some "FR"%string;
                 lat := Some 46%Q; lon := Some 2%Q;
                 population := Some 67391582%Q |}
              {| r_country_profile := None;
                 r_worldbank_health :=
                   Value [ ("life_expectancy", Some 82.5%Q);
                           ("gdp_per_capita", Some 44000%Q) ]%string;
                 r_travel_advisory :=
                   Value [("advisory_score"%string, Some 25%Q)];
                 r_weather := Value [("temperature"%string, Some 3.5%Q)];
                 r_aqi := Exception_ |} eq_refl)
    as (l & Hl & H0 & H100 & _).
  exists l. repeat apply conj; assumption.
Defined.


(** The list of missing metrics [_fetch_and_build] returns for an
    identified country holds exactly the raw metrics whose value is
    [None], each once and in the order of the raw metrics; humidity is
    always among them, and pm25 is if and only if pm10 is. *)
Theorem missing_metrics_are_the_absent_ones (F : Type) (HF : PyFloat F)
    (country_code risk_tolerance duration : string) (debug_mode : bool)
    (r : responses F) (p : country_profile F) :
  r_country_profile r = Some p →
  falsy (iso2 p) = false →
  ∃ d m,
    _fetch_and_build country_code risk_tolerance duration debug_mode r
    = Ok (d, false, m)
    ∧ (∀ k, k ∈ m
            ↔ k ∈ metric_names
              ∧ get_optional (assemble_raw_metrics (population p) r) k = None)
    ∧ "humidity"%string ∈ m
    ∧ ("pm25"%string ∈ m ↔ "pm10"%string ∈ m)
    ∧ NoDup m
    ∧ m `sublist_of` metric_names.
Proof.
  intros Hp Hiso.
  unfold _fetch_and_build. rewrite Hp, Hiso.
  unfold pipeline. rewrite score_raw_metrics_locals.
  eexists _, _. split; [reflexivity |].
  cbn [missing_metrics].
  set (raw := assemble_raw_metrics (population p) r).
  assert (Hkeys : dict_keys raw = metric_names) by reflexivity.
  assert (Hall : ∀ k, k ∈ dict_keys (filter (fun kv => kv.2 = None) raw)
                      ↔ k ∈ metric_names ∧ get_optional raw k = None).
  { intros k. rewrite <- Hkeys. apply filter_None_keys.
    rewrite Hkeys. apply metric_names_NoDup. }
  assert (Hsub : dict_keys (filter (fun kv => kv.2 = None) raw)
                 `sublist_of` metric_names).
  { rewrite <- Hkeys. unfold dict_keys. apply fmap_sublist, sublist_filter. }
  split; [exact Hall |].
  split.
  { apply Hall. split; [| reflexivity].
    apply (bool_decide_unpack _). vm_compute. reflexivity. }
  split.
  { split; intros Hin; apply Hall in Hin as [_ E]; apply Hall;
      (split; [apply (bool_decide_unpack _); vm_compute; reflexivity | exact E]). }
  split; [| exact Hsub].
  eapply sublist_NoDup; [apply metric_names_NoDup | exact Hsub].
Qed.

(** The missing metrics at France with the four
    providers failing. *)
Lemma missing_metrics_are_the_absent_ones_witness :
  ∃ d m,
    _fetch_and_build "FRA" "low" "short-term" false (all_four_fail france)
    = Ok (d, false, m)
    ∧ "humidity"%string ∈ m
    ∧ NoDup m.
Proof.
  destruct (missing_metrics_are_the_absent_ones float _
              "FRA" "low" "short-term" false (all_four_fail france) france
              eq_refl eq_refl) as (d & m & E & _ & Hh & _ & Hnd & _).
  exists d, m. repeat apply conj; assumption.
Defined.

(** The shape of what [_fetch_and_build] returns.  The result is the
    empty dictionary exactly when the country is not identified (no
    profile, or a profile without ISO2 code), with a one-element marker
    list; otherwise it holds the five fields of a result, the country code
    it was asked for and a numeric overall score.  Debug mode changes
    nothing but the entry debug_analysis it appends: removing that entry
    gives the result computed without debug mode, and the missing metrics
    are the same. *)
Theorem fetch_and_build_result_shape (F : Type) (HF : PyFloat F)
    (country_code risk_tolerance duration : string) (r : responses F) :
  ∃ d d' m,
    _fetch_and_build country_code risk_tolerance duration false r
    = Ok (d, false, m)
    ∧ _fetch_and_build country_code risk_tolerance duration true r
      = Ok (d', false, m)
    ∧ dict_pop d' "debug_analysis" = d
    ∧ dict_get d "debug_analysis" = None
    ∧ overall_score_of d' = overall_score_of d
    ∧ if identified r then
        dict_keys d
        = [ "country_code"; "country_name"; "overall_score"; "sub_scores";
            "explanation" ]%string
        ∧ dict_keys d'
          = [ "country_code"; "country_name"; "overall_score"; "sub_scores";
              "explanation"; "debug_analysis" ]%string
        ∧ dict_get d "country_code" = Some (PStr country_code)
        ∧ is_Some (overall_score_of d)
      else
        d = [] ∧ d' = []
        ∧ (m = ["country_profile"%string] ∨ m = ["iso2_code"%string]).
Proof.
  unfold _fetch_and_build, identified.
  destruct (r_country_profile r) as [p |].
  - destruct (falsy (iso2 p)).
    + eexists _, _, _. repeat apply conj; try reflexivity. right. reflexivity.
    + unfold pipeline. rewrite score_raw_metrics_locals.
      eexists _, _, _. repeat apply conj; try reflexivity.
      eexists. reflexivity.
  - eexists _, _, _. repeat apply conj; try reflexivity. left. reflexivity.
Qed.

(* ===================================================================== *)
(** * Further properties: the registry, the cache and the calls *)
(* ===================================================================== *)

Section CacheBound.
Context {V : Type}.
Implicit Types (c : TTLCache V) (ls : list (link V)).

Lemma remove_key_length ls key : (length (TTL.remove_key ls key) <= length ls)%nat.
Proof. unfold TTL.remove_key. apply List.filter_length_le. Qed.

Lemma remove_key_length_found ls key l :
  TTL.find_link ls key = Some l →
  (S (length (TTL.remove_key ls key)) <= length ls)%nat.
Proof.
  unfold TTL.find_link, TTL.remove_key.
  induction ls as [| x ls IH]; cbn [List.find List.filter]; [discriminate |].
  destruct (String.eqb (l_key x) key); cbn [negb length].
  - intros _. pose proof (List.filter_length_le
                            (fun l0 => negb (String.eqb (l_key l0) key)) ls).
    lia.
  - intros Hf. specialize (IH Hf). lia.
Qed.

Lemma get_bounded time c key :
  cache_bounded c → cache_bounded (TTL.get time c key).2.
Proof.
  intros (Hm & Ht & Hl).
  destruct (get_cases time c key) as [[_ ->] | (l & Hf & _ & ->)];
    [repeat split; assumption |].
  repeat split; cbn; try assumption.
  rewrite length_app. cbn [length].
  pose proof (remove_key_length_found _ _ _ Hf). lia.
Qed.

Lemma setitem_bounded time c key value :
  cache_bounded c → cache_bounded (TTL.setitem time c key value).
Proof.
  intros (Hm & Ht & Hl). unfold TTL.setitem.
  repeat split; cbn [maxsize ttl links TTL.with_links]; try assumption.
  rewrite length_app. cbn [length].
  destruct (TTL.find_link (TTL.expire time (links c)) key) as [l |] eqn:Hf.
  - pose proof (remove_key_length_found _ _ _ Hf).
    pose proof (List.filter_length_le (fun l0 => time <? l_expires l0) (links c)).
    unfold TTL.expire in *. lia.
  - pose proof (remove_key_length
                  (drop (length (TTL.expire time (links c)) + 1 - maxsize c)
                     (TTL.expire time (links c))) key) as Hr.
    rewrite length_drop in Hr. lia.
Qed.
End CacheBound.

Section Process.
Context {F : Type} `{PyFloat F}.
Implicit Types (w : world F) (e : event F) (es : list (event F)).

Lemma run_app es1 es2 w : run (es1 ++ es2) w = run es1 w ≫= run es2.
Proof.
  revert w. induction es1 as [| e es1 IH]; intros w; [reflexivity |].
  cbn [app run]. destruct (step e w) as [w1 |]; [apply IH | reflexivity].
Qed.

Lemma run_reachable es w w' : reachable w → run es w = Some w' → reachable w'.
Proof.
  revert w. induction es as [| e es IH]; intros w Hw; cbn.
  - now intros [= <-].
  - destruct (step e w) as [w1 |] eqn:Hstep; cbn; [| discriminate].
    apply IH. eapply reachable_step; eassumption.
Qed.

Lemma await_in_flight_shared t st t' :
  await_in_flight t st = AwaitShared t' → t' = t.
Proof. destruct st; [now intros [= ->] | discriminate | discriminate]. Qed.

(** Every step keeps the registry owned, the awaited tasks in existence
    and the cache within its bound. *)
Lemma step_settled e w w' :
  registry_owned w ∧ waits_on_task w ∧ cache_bounded (country_cache w) →
  step e w = Some w' →
  registry_owned w' ∧ waits_on_task w' ∧ cache_bounded (country_cache w').
Proof.
  unfold registry_owned, waits_on_task.
  intros (Hro & Hwt & Hcb) Hstep.
  destruct e as [dt | c a | t r | t x | c | l d].
  - cbn in Hstep. destruct (0 <=? dt); [| discriminate].
    injection Hstep as <-. auto.
  - cbn in Hstep. destruct (callers w !! c) eqn:Hc; [discriminate |].
    apply analyze_country_enter_cases in Hstep
      as [(l & cache & Hget & ->) | [(t & tk & Hmiss & Hfl & Htk & ->)
                                    | (Hmiss & Hfl & ->)]]; cbn.
    + split; [| split].
      * intros key t Hk. destruct (Hro _ _ Hk) as [c0 Hc0].
        exists c0. rewrite lookup_insert_ne; [exact Hc0 | congruence].
      * intros c0 t. rewrite lookup_insert_Some.
        intros [[_ [=]] | [_ Hc0]]. eauto.
      * replace cache with (TTL.get (now w) (country_cache w) (cache_key a)).2
          by now rewrite Hget.
        now apply get_bounded.
    + split; [| split; [| exact Hcb]].
      * intros key t0 Hk. destruct (Hro _ _ Hk) as [c0 Hc0].
        exists c0. rewrite lookup_insert_ne; [exact Hc0 | congruence].
      * intros c0 t0. rewrite lookup_insert_Some.
        intros [[_ E] | [_ Hc0]]; [| eauto].
        apply await_in_flight_shared in E as ->. eauto.
    + split; [| split; [| exact Hcb]].
      * intros key t0. rewrite lookup_insert_Some.
        intros [[<- <-] | [Hne Hk]].
        -- exists c. apply lookup_insert_eq.
        -- destruct (Hro _ _ Hk) as [c0 Hc0].
           exists c0. rewrite lookup_insert_ne; [exact Hc0 | congruence].
      * intros c0 t0. rewrite lookup_insert_Some.
        intros [[_ [=]] | [_ Hc0]].
        destruct (Hwt _ _ Hc0) as [tk Htk].
        exists tk. now apply lookup_app_l_Some.
  - apply (task_end t) in Hstep as (tk & st & hp & Htk & Hst & Hne & ->);
      [| left; eauto].
    cbn. split; [exact Hro | split; [| exact Hcb]].
    intros c0 t0 Hc0. apply lookup_lt_is_Some. rewrite length_insert.
    apply lookup_lt_is_Some. eauto.
  - apply (task_end t) in Hstep as (tk & st & hp & Htk & Hst & Hne & ->);
      [| right; eauto].
    cbn. split; [exact Hro | split; [| exact Hcb]].
    intros c0 t0 Hc0. apply lookup_lt_is_Some. rewrite length_insert.
    apply lookup_lt_is_Some. eauto.
  - cbn in Hstep. apply analyze_country_resume_cases in Hstep
      as [(key & t & tk & b & Hc & Htk & Hst & ->)
         | [(key & t & tk & x & Hc & Htk & Hst & ->)
           | (t & tk & Hc & Htk & Hst & ->)]]; cbn.
    + split; [| split].
      * intros key0 t0. rewrite lookup_delete_Some. intros [Hne Hk].
        destruct (Hro _ _ Hk) as [c0 Hc0].
        exists c0. rewrite lookup_insert_ne; [exact Hc0 | congruence].
      * intros c0 t0. rewrite lookup_insert_Some.
        intros [[_ [=]] | [_ Hc0]]. eauto.
      * now apply setitem_bounded.
    + split; [| split; [| exact Hcb]].
      * intros key0 t0. rewrite lookup_delete_Some. intros [Hne Hk].
        destruct (Hro _ _ Hk) as [c0 Hc0].
        exists c0. rewrite lookup_insert_ne; [exact Hc0 | congruence].
      * intros c0 t0. rewrite lookup_insert_Some.
        intros [[_ [=]] | [_ Hc0]]. eauto.
    + split; [| split; [| exact Hcb]].
      * intros key0 t0 Hk. destruct (Hro _ _ Hk) as [c0 Hc0].
        exists c0. rewrite lookup_insert_ne; [exact Hc0 | congruence].
      * intros c0 t0. rewrite lookup_insert_Some.
        intros [[_ E] | [_ Hc0]]; [| eauto].
        apply await_in_flight_shared in E as ->. eauto.
  - cbn in Hstep. case_bool_decide; [| discriminate]. injection Hstep as <-.
    auto.
Qed.

Lemma reachable_settled w :
  reachable w →
  registry_owned w ∧ waits_on_task w ∧ cache_bounded (country_cache w).
Proof.
  induction 1 as [| e w w' _ IH Hstep].
  - repeat apply conj.
    + intros key t Hk.
      change (in_flight_requests init_world) with (∅ : gmap string nat) in Hk.
      now rewrite lookup_empty in Hk.
    + intros c t Hc.
      change (callers init_world) with (∅ : gmap nat caller_state) in Hc.
      now rewrite lookup_empty in Hc.
    + reflexivity.
    + reflexivity.
    + cbn. lia.
  - exact (step_settled e w w' IH Hstep).
Qed.

(** A pending task can run to its end. *)
Lemma finish_pending w t tk (r : responses F) :
  tasks w !! t = Some tk → t_state tk = Pending →
  ∃ w1 st1,
    step (Finish t r) w = Some w1
    ∧ callers w1 = callers w
    ∧ tasks w1 !! t = Some {| t_args := t_args tk; t_state := st1 |}
    ∧ st1 ≠ Pending.
Proof.
  intros Htk Hst. cbn [step]. unfold run_task. rewrite Htk. cbn [mbind option_bind].
  destruct (fetch_and_build_returns (country_code (t_args tk))
              (risk_tolerance (t_args tk)) (duration (t_args tk))
              (debug_mode (t_args tk)) r) as (d & m & ->).
  unfold settle. rewrite Htk. cbn [mbind option_bind]. rewrite Hst.
  eexists _, _. split; [reflexivity |]. cbn [callers tasks].
  split; [reflexivity |]. split.
  { apply list_lookup_insert_eq. now apply lookup_lt_Some in Htk. }
  discriminate.
Qed.

(** A call suspended on a task that has ended can continue, and then it
    has finished. *)
Lemma resume_settled w c st t tk :
  callers w !! c = Some st →
  (∃ key, st = AwaitOwn key t) ∨ st = AwaitShared t →
  tasks w !! t = Some tk → t_state tk ≠ Pending →
  ∃ w' st',
    step (Resume c) w = Some w'
    ∧ callers w' !! c = Some st' ∧ finished st' = true.
Proof.
  intros Hc Hst Htk Hne. cbn [step]. unfold analyze_country_resume.
  rewrite Hc. cbn [mbind option_bind].
  destruct Hst as [[key ->] | ->]; rewrite Htk; cbn [mbind option_bind];
    destruct (t_state tk) as [| b | x]; try contradiction;
    eexists _, _; (split; [reflexivity |]); cbn [callers];
    rewrite lookup_insert_eq; (split; [reflexivity |]); reflexivity.
Qed.
End Process.

(** No key is left in the registry of requests in flight: in every state
    of the process each registered key has its call still suspended on
    the task, and once every call made so far has returned or raised, the
    registry is empty. *)
Theorem registry_never_leaks {F : Type} `{PyFloat F} (w : world F) :
  reachable w →
  registry_owned w
  ∧ ((∀ c st, callers w !! c = Some st → finished st = true) →
     in_flight_requests w = ∅).
Proof.
  intros Hw. destruct (reachable_settled w Hw) as (Hro & _ & _).
  split; [exact Hro |].
  intros Hfin. apply map_empty. intros key.
  destruct (in_flight_requests w !! key) as [t |] eqn:Hk; [| reflexivity].
  destruct (Hro _ _ Hk) as [c Hc].
  specialize (Hfin _ _ Hc). discriminate.
Qed.

(** The registry after two calls for France, the second made
    while the first was in flight, have both returned. *)
Lemma registry_never_leaks_witness :
  ∃ w : world float,
    run [ Call 0%nat analyze_fra; Call 1%nat analyze_fra;
          Finish 0%nat (all_four_fail france);
          Resume 0%nat; Resume 1%nat ] init_world = Some w
    ∧ registry_owned w.
Proof.
  destruct (run (F:=float)
              [ Call 0%nat analyze_fra; Call 1%nat analyze_fra;
                Finish 0%nat (all_four_fail france);
                Resume 0%nat; Resume 1%nat ] init_world) as [w |] eqn:E;
    [| vm_compute in E; discriminate].
  exists w. split; [reflexivity |].
  apply (registry_never_leaks w).
  exact (run_reachable _ _ _ reachable_init E).
Defined.

(** Every suspended call can finish: from any state of the process, a
    call that waits for a task (its own or one it found in flight) returns
    or raises after at most two further steps, the task running to its end
    if it has not yet, and the call continuing. *)
Theorem suspended_call_can_finish {F : Type} `{PyFloat F}
    (w : world F) (c : caller_id) (st : caller_state) :
  reachable w →
  callers w !! c = Some st →
  finished st = false →
  ∃ es w' st',
    (length es <= 2)%nat
    ∧ run es w = Some w'
    ∧ callers w' !! c = Some st'
    ∧ finished st' = true.
Proof.
  intros Hw Hc Hfin.
  pose proof (reachable_consistent w Hw) as Hcons.
  destruct (reachable_settled w Hw) as (_ & Hwt & _).
  assert (Ht : ∃ t tk, ((∃ key, st = AwaitOwn key t) ∨ st = AwaitShared t)
                       ∧ tasks w !! t = Some tk).
  { destruct st as [key t | t | |]; try discriminate.
    - pose proof (owner_registered w Hcons _ _ _ Hc) as Hk.
      destruct (registered_task w Hcons _ _ Hk) as (tk & Htk & _).
      exists t, tk. split; [left; eauto | exact Htk].
    - destruct (Hwt _ _ Hc) as [tk Htk].
      exists t, tk. split; [now right | exact Htk]. }
  destruct Ht as (t & tk & Hst & Htk).
  assert (Hdec : t_state tk = Pending ∨ t_state tk ≠ Pending)
    by (destruct (t_state tk); [now left | now right | now right]).
  destruct Hdec as [Hp | Hp].
  - destruct (finish_pending w t tk unreachable_providers Htk Hp)
      as (w1 & st1 & Hstep & Hcs & Htk1 & Hne).
    destruct (resume_settled w1 c st t _ ltac:(now rewrite Hcs) Hst Htk1 Hne)
      as (w' & st' & Hres & Hc' & Hf').
    exists [Finish t unreachable_providers; Resume c], w', st'.
    split; [cbn; lia |]. split; [| auto].
    cbn [run]. rewrite Hstep. cbn [mbind option_bind].
    cbn [step] in Hres. cbn [step]. rewrite Hres. reflexivity.
  - destruct (resume_settled w c st t tk Hc Hst Htk Hp)
      as (w' & st' & Hres & Hc' & Hf').
    exists [Resume c], w', st'.
    split; [cbn; lia |]. split; [| auto].
    cbn [run]. rewrite Hres. reflexivity.
Qed.

(** The way to its end for a call for France that has started
    its task. *)
Lemma suspended_call_can_finish_witness :
  ∃ (w : world float) es w' st',
    step (Call 0%nat analyze_fra) init_world = Some w
    ∧ (length es <= 2)%nat
    ∧ run es w = Some w'
    ∧ callers w' !! 0%nat = Some st'
    ∧ finished st' = true.
Proof.
  destruct (step (F:=float) (Call 0%nat analyze_fra) init_world)
    as [w |] eqn:E; [| vm_compute in E; discriminate].
  assert (Hc : callers w !! 0%nat
               = Some (AwaitOwn (cache_key analyze_fra) 0%nat)).
  { vm_compute in E. injection E as <-. reflexivity. }
  destruct (suspended_call_can_finish w 0%nat _
              (reachable_step _ _ _ reachable_init E) Hc eq_refl)
    as (es & w' & st' & Hlen & Hrun & Hc' & Hfin).
  exists w, es, w', st'. repeat apply conj; auto.
Defined.

Section Failure.
Context {F : Type} `{PyFloat F}.
Implicit Types (w : world F) (e : event F) (es : list (event F)).

(** A call that finds its key neither cached nor in flight starts the
    pipeline. *)
Lemma call_starts_pipeline w (c : caller_id) (a : call_args) :
  callers w !! c = None →
  TTL.contains (now w) (country_cache w) (cache_key a) = false →
  in_flight_requests w !! cache_key a = None →
  step (Call c a) w
  = Some {| now := now w; country_cache := country_cache w;
            in_flight_requests :=
              <[cache_key a := length (tasks w)]> (in_flight_requests w);
            tasks := tasks w ++ [{| t_args := a; t_state := Pending |}];
            heap := heap w;
            callers :=
              <[c := AwaitOwn (cache_key a) (length (tasks w))]> (callers w) |}.
Proof.
  intros Hc Hmiss Hfl.
  assert (Hnf : CacheManager.is_in_flight (in_flight_requests w) (cache_key a)
                = false) by now apply is_in_flight_false.
  cbn [step]. rewrite Hc.
  unfold analyze_country_enter, CacheManager.get_cached.
  rewrite (get_miss _ _ _ Hmiss), Hnf. reflexivity.
Qed.

Lemma pipelines_started_snoc w (a : call_args) cache fl
    (hp : list (pydict (pyvalue F))) cs :
  pipelines_started (cache_key a)
    {| now := now w; country_cache := cache; in_flight_requests := fl;
       tasks := tasks w ++ [{| t_args := a; t_state := Pending |}];
       heap := hp; callers := cs |}
  = S (pipelines_started (cache_key a) w).
Proof.
  unfold pipelines_started, pipelines. cbn [tasks].
  rewrite List.filter_app, length_app. cbn [List.filter t_args].
  rewrite String.eqb_refl. cbn [length]. lia.
Qed.
Lemma crash_pending w t tk (x : exn) :
  tasks w !! t = Some tk → t_state tk = Pending →
  step (Crash t x) w
  = Some {| now := now w; country_cache := country_cache w;
            in_flight_requests := in_flight_requests w;
            tasks := <[t := {| t_args := t_args tk; t_state := Failed x |}]>
                       (tasks w);
            heap := heap w; callers := callers w |}.
Proof.
  intros Htk Hst. cbn [step]. unfold settle. rewrite Htk.
  cbn [mbind option_bind]. now rewrite Hst.
Qed.

Lemma resume_owner_failed w c key t tk (x : exn) :
  callers w !! c = Some (AwaitOwn key t) →
  tasks w !! t = Some tk → t_state tk = Failed x →
  step (Resume c) w
  = Some {| now := now w; country_cache := country_cache w;
            in_flight_requests := delete key (in_flight_requests w);
            tasks := tasks w; heap := heap w;
            callers := <[c := Raised x]> (callers w) |}.
Proof.
  intros Hc Htk Hst. cbn [step]. unfold analyze_country_resume.
  rewrite Hc. cbn [mbind option_bind]. rewrite Htk. cbn [mbind option_bind].
  rewrite Hst, remove_in_flight_delete. reflexivity.
Qed.

Lemma resume_waiter w c t tk :
  callers w !! c = Some (AwaitShared t) →
  tasks w !! t = Some tk → t_state tk ≠ Pending →
  step (Resume c) w
  = Some {| now := now w; country_cache := country_cache w;
            in_flight_requests := in_flight_requests w;
            tasks := tasks w; heap := heap w;
            callers := <[c := await_in_flight t (t_state tk)]> (callers w) |}.
Proof.
  intros Hc Htk Hst. cbn [step]. unfold analyze_country_resume.
  rewrite Hc. cbn [mbind option_bind]. rewrite Htk. cbn [mbind option_bind].
  destruct (t_state tk); [contradiction | reflexivity | reflexivity].
Qed.
End Failure.

(** An exception that ends the task reaches the call that created it and
    a call that waited for it alike; the [finally] clause removes the key
    from the registry, nothing is stored in the cache, and the next call
    for the key starts the pipeline again. *)
Theorem task_failure_is_not_cached {F : Type} `{PyFloat F}
    (w : world F) (c c' : caller_id) (key : string) (t : task_id)
    (tk : task) (x : exn) :
  reachable w →
  callers w !! c = Some (AwaitOwn key t) →
  callers w !! c' = Some (AwaitShared t) →
  tasks w !! t = Some tk →
  t_state tk = Pending →
  ∃ w',
    run [Crash t x; Resume c; Resume c'] w = Some w'
    ∧ callers w' !! c = Some (Raised x)
    ∧ callers w' !! c' = Some (Raised x)
    ∧ country_cache w' = country_cache w
    ∧ heap w' = heap w
    ∧ in_flight_requests w' !! key = None
    ∧ ∀ (c2 : caller_id) (a : call_args),
        callers w' !! c2 = None → cache_key a = key →
        ∃ w2,
          step (Call c2 a) w' = Some w2
          ∧ callers w2 !! c2 = Some (AwaitOwn key (length (tasks w')))
          ∧ pipelines_started key w2 = S (pipelines_started key w').
Proof.
  intros Hw Hc Hc' Htk Hst.
  pose proof (reachable_consistent w Hw) as Hcons.
  assert (Hne : c' ≠ c) by congruence.
  assert (Hlt : (t < length (tasks w))%nat) by now apply lookup_lt_Some in Htk.
  eexists. split.
  { cbn [run]. rewrite (crash_pending w t tk x Htk Hst).
    cbn [mbind option_bind].
    erewrite (resume_owner_failed _ c key t _ x);
      [| exact Hc | cbn [tasks]; apply list_lookup_insert_eq; exact Hlt
       | reflexivity].
    cbn [mbind option_bind now country_cache in_flight_requests tasks heap
           callers].
    erewrite (resume_waiter _ c' t);
      [| cbn [callers]; rewrite lookup_insert_ne by congruence; exact Hc'
       | cbn [tasks]; apply list_lookup_insert_eq; exact Hlt
       | discriminate].
    cbn [mbind option_bind now country_cache in_flight_requests tasks heap
           callers t_state await_in_flight].
    reflexivity. }
  cbn [callers country_cache heap in_flight_requests tasks now].
  split; [rewrite lookup_insert_ne by congruence; apply lookup_insert_eq |].
  split; [apply lookup_insert_eq |].
  split; [reflexivity |]. split; [reflexivity |].
  split; [apply lookup_delete_eq |].
  intros c2 a Hc2 <-.
  pose proof (owner_uncached w Hcons _ _ _ Hc) as Hunc.
  apply uncached_contains in Hunc.
  set (w' := {| now := now w; country_cache := country_cache w;
                in_flight_requests := delete (cache_key a) (in_flight_requests w);
                tasks := <[t := {| t_args := t_args tk; t_state := Failed x |}]>
                           (tasks w);
                heap := heap w;
                callers := <[c' := Raised x]> (<[c := Raised x]> (callers w)) |})
    in *.
  eexists. split.
  { apply (call_starts_pipeline w' c2 a Hc2 Hunc). apply lookup_delete_eq. }
  cbn [callers]. split; [apply lookup_insert_eq |].
  apply (pipelines_started_snoc w').
Qed.

(** A failing task for two calls for France, the second
    made while the first was in flight. *)
Lemma task_failure_is_not_cached_witness :
  ∃ w w' : world float,
    run [Call 0%nat analyze_fra; Call 1%nat analyze_fra] init_world = Some w
    ∧ run [Crash 0%nat TypeError; Resume 0%nat; Resume 1%nat] w = Some w'
    ∧ callers w' !! 0%nat = Some (Raised TypeError)
    ∧ callers w' !! 1%nat = Some (Raised TypeError)
    ∧ country_cache w' = country_cache w.
Proof.
  destruct (run (F:=float) [Call 0%nat analyze_fra; Call 1%nat analyze_fra]
              init_world) as [w |] eqn:E; [| vm_compute in E; discriminate].
  assert (Hc : callers w !! 0%nat
               = Some (AwaitOwn (cache_key analyze_fra) 0%nat)).
  { vm_compute in E. injection E as <-. reflexivity. }
  assert (Hc' : callers w !! 1%nat = Some (AwaitShared 0%nat)).
  { vm_compute in E. injection E as <-. reflexivity. }
  assert (Htk : tasks w !! 0%nat
                = Some {| t_args := analyze_fra; t_state := Pending |}).
  { vm_compute in E. injection E as <-. reflexivity. }
  destruct (task_failure_is_not_cached w 0%nat 1%nat _ 0%nat _ TypeError
              (run_reachable _ _ _ reachable_init E) Hc Hc' Htk eq_refl)
    as (w' & Hrun & H0 & H1 & Hcache & _).
  exists w, w'. repeat apply conj; auto.
Defined.

(* ===================================================================== *)
(** * The cache between two calls *)
(* ===================================================================== *)

Section Residence.
Context {V : Type}.
Implicit Types (ls : list (link V)) (c : TTLCache V) (lk l : link V)
  (key : string).

Lemma behind_lt ls key lk :
  TTL.find_link ls key = Some lk → (behind key ls < length ls)%nat.
Proof.
  unfold TTL.find_link.
  induction ls as [| x ls IH]; cbn [List.find behind length]; [discriminate |].
  destruct (String.eqb (l_key x) key); [lia |].
  intros Hf. specialize (IH Hf). lia.
Qed.

(** Filtering keeps the entry a lookup finds, if it keeps it at all, and
    puts no entry behind it. *)
Lemma find_link_filter (p : link V → bool) ls key lk :
  TTL.find_link ls key = Some lk → p lk = true →
  TTL.find_link (List.filter p ls) key = Some lk
  ∧ (behind key (List.filter p ls) <= behind key ls)%nat.
Proof.
  unfold TTL.find_link.
  induction ls as [| x ls IH]; cbn [List.find List.filter behind];
    [discriminate |].
  destruct (String.eqb (l_key x) key) eqn:E.
  - intros [= ->] Hp. rewrite Hp. cbn [List.find behind]. rewrite E.
    split; [reflexivity | apply List.filter_length_le].
  - intros Hf Hp. destruct (IH Hf Hp) as [IH1 IH2].
    destruct (p x); cbn [List.find behind]; rewrite ?E; auto.
Qed.

(** Dropping least recently used entries keeps an entry that enough
    entries precede. *)
Lemma find_link_drop n ls key lk :
  TTL.find_link ls key = Some lk → (n + behind key ls < length ls)%nat →
  TTL.find_link (drop n ls) key = Some lk
  ∧ behind key (drop n ls) = behind key ls.
Proof.
  unfold TTL.find_link. revert n.
  induction ls as [| x ls IH]; intros n; cbn [List.find behind length];
    [discriminate |].
  destruct n as [| n]; [auto |]. cbn [drop].
  destruct (String.eqb (l_key x) key) eqn:E.
  - intros _ Hlt. lia.
  - intros Hf Hlt. apply IH; [exact Hf | lia].
Qed.

Lemma find_link_snoc ls key lk l :
  TTL.find_link ls key = Some lk →
  TTL.find_link (ls ++ [l]) key = Some lk
  ∧ behind key (ls ++ [l]) = S (behind key ls).
Proof.
  unfold TTL.find_link.
  induction ls as [| x ls IH]; cbn [List.find behind app]; [discriminate |].
  destruct (String.eqb (l_key x) key) eqn:E.
  - intros [= ->]. split; [reflexivity |]. rewrite length_app. cbn. lia.
  - exact IH.
Qed.

Lemma behind_move_to_end ls key lk :
  l_key lk = key → behind key (TTL.remove_key ls key ++ [lk]) = 0%nat.
Proof.
  intros Hk. unfold TTL.remove_key.
  induction ls as [| x ls IH]; cbn [List.filter app behind].
  - apply String.eqb_eq in Hk. now rewrite Hk.
  - destruct (String.eqb (l_key x) key) eqn:E; cbn [negb]; [exact IH |].
    cbn [app behind]. now rewrite E.
Qed.

(** Using an entry of another key puts at most that entry behind. *)
Lemma touch_other ls key k' lk l :
  k' ≠ key → TTL.find_link ls key = Some lk →
  TTL.find_link (TTL.remove_key ls k' ++ [l]) key = Some lk
  ∧ (behind key (TTL.remove_key ls k' ++ [l]) <= S (behind key ls))%nat.
Proof.
  intros Hne Hf. pose proof (find_link_Some _ _ _ Hf) as [_ Hk].
  destruct (find_link_filter (fun l0 => negb (String.eqb (l_key l0) k'))
              ls key lk Hf) as [Hf' Hb].
  { rewrite Hk. apply negb_true_iff, String.eqb_neq. congruence. }
  destruct (find_link_snoc _ key lk l Hf') as [Hf'' Hb'].
  unfold TTL.remove_key. split; [exact Hf'' | lia].
Qed.

(** A lookup of a valid entry returns its value and makes it the most
    recently used one. *)
Lemma get_resident time c key lk :
  TTL.find_link (links c) key = Some lk → time < l_expires lk →
  ∃ c',
    TTL.get time c key = (Some (l_value lk), c')
    ∧ TTL.find_link (links c') key = Some lk
    ∧ behind key (links c') = 0%nat
    ∧ maxsize c' = maxsize c.
Proof.
  intros Hf Hlt. pose proof (find_link_Some _ _ _ Hf) as [_ Hk].
  apply Z.ltb_lt in Hlt.
  unfold TTL.get, TTL.contains, TTL.getitem. rewrite Hf, Hlt.
  eexists. split; [reflexivity |]. cbn [links maxsize TTL.with_links].
  split; [now apply find_link_move_to_end |].
  split; [now apply behind_move_to_end | reflexivity].
Qed.

Lemma get_other time c key k' lk :
  k' ≠ key → TTL.find_link (links c) key = Some lk →
  TTL.find_link (links (TTL.get time c k').2) key = Some lk
  ∧ (behind key (links (TTL.get time c k').2) <= S (behind key (links c)))%nat
  ∧ maxsize (TTL.get time c k').2 = maxsize c.
Proof.
  intros Hne Hf.
  destruct (get_cases time c k') as [[_ ->] | (l & Hl & _ & ->)];
    cbn [snd links maxsize TTL.with_links].
  - auto.
  - destruct (touch_other (links c) key k' lk l Hne Hf). auto.
Qed.

(** Storing under another key keeps a valid entry that fewer than
    [maxsize - 1] entries were used after. *)
Lemma setitem_other time c key k' (v : V) lk :
  k' ≠ key → TTL.find_link (links c) key = Some lk → time < l_expires lk →
  (behind key (links c) + 2 <= maxsize c)%nat →
  TTL.find_link (links (TTL.setitem time c k' v)) key = Some lk
  ∧ (behind key (links (TTL.setitem time c k' v)) <= S (behind key (links c)))%nat
  ∧ maxsize (TTL.setitem time c k' v) = maxsize c.
Proof.
  intros Hne Hf Hlt Hroom. unfold TTL.setitem.
  cbn [links maxsize TTL.with_links].
  destruct (find_link_filter (fun l => time <? l_expires l) (links c) key lk Hf)
    as [Hf1 Hb1]; [now apply Z.ltb_lt |].
  fold (TTL.expire time (links c)) in *.
  set (ls1 := TTL.expire time (links c)) in *.
  assert (Hls2 : ∃ ls2,
             match TTL.find_link ls1 k' with
             | Some _ => ls1
             | None => drop (length ls1 + 1 - maxsize c) ls1
             end = ls2
             ∧ TTL.find_link ls2 key = Some lk
             ∧ (behind key ls2 <= behind key (links c))%nat).
  { destruct (TTL.find_link ls1 k'); [eauto |].
    destruct (find_link_drop (length ls1 + 1 - maxsize c) ls1 key lk Hf1)
      as [A B].
    { pose proof (behind_lt _ _ _ Hf1). lia. }
    eexists. split; [reflexivity |]. split; [exact A | lia]. }
  destruct Hls2 as (ls2 & -> & Hf2 & Hb2).
  destruct (touch_other ls2 key k' lk
              {| l_key := k'; l_value := v; l_expires := time + ttl c |}
              Hne Hf2) as [Hf3 Hb3].
  split; [exact Hf3 |]. split; [lia | reflexivity].
Qed.

(** The entries of a key expire no later after a lookup or after storing
    under another key. *)
Lemma get_uncached_at time time' c key key' :
  uncached time' c key' → uncached time' (TTL.get time c key).2 key'.
Proof.
  intros Hu. destruct (get_cases time c key) as [[_ ->] | (l & Hf & _ & ->)];
    [exact Hu |].
  apply find_link_Some in Hf as [Hin Hk]. unfold uncached in *. cbn.
  intros l' Hin' Hk'. apply in_app_iff in Hin' as [Hin' | [<- | []]].
  - apply In_remove_key in Hin' as [Hin' _]. now apply Hu.
  - now apply Hu.
Qed.

Lemma setitem_uncached_at time time' c key (value : V) key' :
  key' ≠ key → uncached time' c key' →
  uncached time' (TTL.setitem time c key value) key'.
Proof.
  unfold uncached. intros Hne Hu l Hin Hk.
  apply setitem_links_In in Hin as [[Hin _] | ->]; [now apply Hu |].
  cbn in Hk. congruence.
Qed.

(** What was stored is the only entry of its key. *)
Lemma setitem_stored time c key (value : V) :
  TTL.find_link (links (TTL.setitem time c key value)) key
  = Some {| l_key := key; l_value := value; l_expires := time + ttl c |}
  ∧ behind key (links (TTL.setitem time c key value)) = 0%nat
  ∧ uncached (time + ttl c) (TTL.setitem time c key value) key
  ∧ maxsize (TTL.setitem time c key value) = maxsize c
  ∧ ttl (TTL.setitem time c key value) = ttl c.
Proof.
  split; [| split; [| split; [| split; reflexivity]]].
  - unfold TTL.setitem. cbn [links TTL.with_links].
    now apply find_link_move_to_end.
  - unfold TTL.setitem. cbn [links TTL.with_links].
    now apply behind_move_to_end.
  - intros l Hin Hk.
    apply setitem_links_In in Hin as [[_ Hne] | ->]; [contradiction |].
    cbn. lia.
Qed.
End Residence.

Section Between.
Context {F : Type} `{PyFloat F}.
Implicit Types (w : world F) (e : event F) (es : list (event F))
  (lk : link loc).

Lemma run_singleton e w : run [e] w = step e w.
Proof. cbn [run]. now destruct (step e w). Qed.

Lemma other_calls_cons key e es :
  other_calls key (e :: es) = (other_calls key [e] + other_calls key es)%nat.
Proof. destruct e; cbn; lia. Qed.

Lemma elapsed_cons e es : elapsed (e :: es) = elapsed [e] + elapsed es.
Proof. destruct e; cbn; lia. Qed.

Lemma untouched_cons (l : loc) e es :
  untouched l (e :: es) = untouched l [e] && untouched l es.
Proof. destruct e; cbn; rewrite ?andb_true_r; reflexivity. Qed.

Lemma untouched_app (l : loc) es1 es2 :
  untouched l (es1 ++ es2) = untouched l es1 && untouched l es2.
Proof.
  induction es1 as [| e es1 IH]; [reflexivity |].
  cbn [app]. rewrite (untouched_cons l e (es1 ++ es2)), (untouched_cons l e es1), IH.
  now rewrite andb_assoc.
Qed.

(** Only the clock moves the time, and only forward. *)
Lemma step_now e w w' :
  step e w = Some w' → now w' = now w + elapsed [e] ∧ 0 <= elapsed [e].
Proof.
  intros Hstep. destruct e as [dt | c a | t r | t x | c | l d].
  - cbn in Hstep. destruct (0 <=? dt) eqn:Hdt; [| discriminate].
    apply Z.leb_le in Hdt. injection Hstep as <-. cbn. lia.
  - cbn in Hstep. destruct (callers w !! c); [discriminate |].
    apply analyze_country_enter_cases in Hstep
      as [(l & cache & _ & ->) | [(t & tk & _ & _ & _ & ->) | (_ & _ & ->)]];
      cbn; lia.
  - apply (task_end t) in Hstep as (tk & st & hp & _ & _ & _ & ->);
      [| left; eauto]. cbn. lia.
  - apply (task_end t) in Hstep as (tk & st & hp & _ & _ & _ & ->);
      [| right; eauto]. cbn. lia.
  - cbn in Hstep. apply analyze_country_resume_cases in Hstep
      as [(key0 & t & tk & b & _ & _ & _ & ->)
         | [(key0 & t & tk & x & _ & _ & _ & ->) | (t & tk & _ & _ & _ & ->)]];
      cbn; lia.
  - cbn in Hstep. case_bool_decide; [| discriminate].
    injection Hstep as <-. cbn. lia.
Qed.

Lemma run_now es w w' :
  run es w = Some w' → now w' = now w + elapsed es ∧ 0 <= elapsed es.
Proof.
  revert w. induction es as [| e es IH]; intros w; cbn [run].
  - intros [= <-]. cbn. lia.
  - destruct (step e w) as [w1 |] eqn:Hstep; cbn [mbind option_bind]; [| discriminate].
    intros Hrun. rewrite elapsed_cons.
    destruct (step_now _ _ _ Hstep). destruct (IH _ Hrun). lia.
Qed.

(** A task that has ended stays as it is. *)
Lemma step_task_ended e w w' t tk :
  step e w = Some w' → tasks w !! t = Some tk → t_state tk ≠ Pending →
  tasks w' !! t = Some tk.
Proof.
  intros Hstep Htk Hne. destruct e as [dt | c a | t0 r | t0 x | c | l d].
  - cbn in Hstep. destruct (0 <=? dt); [| discriminate].
    now injection Hstep as <-.
  - cbn in Hstep. destruct (callers w !! c); [discriminate |].
    apply analyze_country_enter_cases in Hstep
      as [(l & cache & _ & ->) | [(t1 & tk1 & _ & _ & _ & ->) | (_ & _ & ->)]];
      cbn; [assumption | assumption |].
    now apply lookup_app_l_Some.
  - apply (task_end t0) in Hstep as (tk0 & st & hp & Htk0 & Hst0 & _ & ->);
      [| left; eauto]. cbn.
    rewrite list_lookup_insert_ne; [exact Htk | congruence].
  - apply (task_end t0) in Hstep as (tk0 & st & hp & Htk0 & Hst0 & _ & ->);
      [| right; eauto]. cbn.
    rewrite list_lookup_insert_ne; [exact Htk | congruence].
  - cbn in Hstep. apply analyze_country_resume_cases in Hstep
      as [(key0 & t1 & tk1 & b & _ & _ & _ & ->)
         | [(key0 & t1 & tk1 & x & _ & _ & _ & ->)
           | (t1 & tk1 & _ & _ & _ & ->)]]; assumption.
  - cbn in Hstep. case_bool_decide; [| discriminate].
    now injection Hstep as <-.
Qed.

Lemma run_task_ended es w w' t tk :
  run es w = Some w' → tasks w !! t = Some tk → t_state tk ≠ Pending →
  tasks w' !! t = Some tk.
Proof.
  revert w. induction es as [| e es IH]; intros w; cbn [run].
  - now intros [= <-].
  - destruct (step e w) as [w1 |] eqn:Hstep; cbn [mbind option_bind]; [| discriminate].
    eauto using step_task_ended.
Qed.

(** A dictionary stays as it is unless it is updated in place. *)
Lemma step_heap_untouched e w w' (l : loc) d :
  step e w = Some w' → heap w !! l = Some d → untouched l [e] = true →
  heap w' !! l = Some d.
Proof.
  intros Hstep Hd Hun. destruct e as [dt | c a | t0 r | t0 x | c | l0 d0].
  - cbn in Hstep. destruct (0 <=? dt); [| discriminate].
    now injection Hstep as <-.
  - cbn in Hstep. destruct (callers w !! c); [discriminate |].
    apply analyze_country_enter_cases in Hstep
      as [(l1 & cache & _ & ->) | [(t1 & tk1 & _ & _ & _ & ->) | (_ & _ & ->)]];
      assumption.
  - cbn [step] in Hstep. unfold run_task in Hstep.
    destruct (tasks w !! t0) as [tk0 |]; cbn [mbind option_bind] in Hstep;
      [| discriminate].
    destruct (_fetch_and_build _ _ _ _ r) as [[[d1 hit] m] | x];
      apply settle_Some in Hstep as (tk & _ & _ & ->); cbn [heap];
      [now apply lookup_app_l_Some | assumption].
  - cbn [step] in Hstep.
    apply settle_Some in Hstep as (tk & _ & _ & ->). assumption.
  - cbn in Hstep. apply analyze_country_resume_cases in Hstep
      as [(key0 & t1 & tk1 & b & _ & _ & _ & ->)
         | [(key0 & t1 & tk1 & x & _ & _ & _ & ->)
           | (t1 & tk1 & _ & _ & _ & ->)]]; assumption.
  - cbn in Hstep. case_bool_decide; [| discriminate].
    injection Hstep as <-. cbn [heap].
    cbn in Hun. rewrite andb_true_r in Hun.
    apply negb_true_iff, Nat.eqb_neq in Hun.
    now rewrite list_lookup_insert_ne.
Qed.

Lemma run_heap_untouched es w w' (l : loc) d :
  run es w = Some w' → heap w !! l = Some d → untouched l es = true →
  heap w' !! l = Some d.
Proof.
  revert w. induction es as [| e es IH]; intros w; cbn [run].
  - now intros [= <-].
  - destruct (step e w) as [w1 |] eqn:Hstep; cbn [mbind option_bind]; [| discriminate].
    intros Hrun Hd. rewrite untouched_cons. intros Hun.
    apply andb_prop in Hun as [Hun1 Hun2].
    eauto using step_heap_untouched.
Qed.

(** No step lowers the number of pipelines started for a key. *)
Lemma run_pipelines_le es w w' key :
  run es w = Some w' →
  (pipelines_started key w <= pipelines_started key w')%nat.
Proof.
  revert w. induction es as [| e es IH]; intros w; cbn [run].
  - intros [= <-]. lia.
  - destruct (step e w) as [w1 |] eqn:Hstep; cbn [mbind option_bind]; [| discriminate].
    intros Hrun. specialize (IH _ Hrun).
    destruct (step_pipelines _ _ _ key Hstep) as [E | [E _]]; lia.
Qed.

(** One step with the entry [lk] resident and valid: the entry stays
    resident, a call for another key using up one unit of the room, and
    no pipeline is started for its key. *)
Lemma step_resident e w w' lk n :
  consistent w → step e w = Some w' → now w' < l_expires lk →
  resident lk (other_calls (l_key lk) [e] + n) w →
  resident lk n w'
  ∧ pipelines_started (l_key lk) w' = pipelines_started (l_key lk) w.
Proof.
  intros Hw Hstep Hlt (Hf & Hfl & Hroom).
  unfold resident, pipelines_started, pipelines.
  destruct e as [dt | c a | t r | t x | c | l d].
  - cbn in Hstep. destruct (0 <=? dt); [| discriminate].
    injection Hstep as <-. cbn in *. repeat split; auto; lia.
  - cbn [step] in Hstep. destruct (callers w !! c) eqn:Hc; [discriminate |].
    cbn [other_calls] in Hroom.
    apply analyze_country_enter_cases in Hstep
      as [(l & cache & Hget & ->) | [(t & tk & Hmiss & Hreg & Htk & ->)
                                    | (Hmiss & Hreg & ->)]];
      cbn [now country_cache in_flight_requests tasks] in *.
    + destruct (String.eqb_spec (cache_key a) (l_key lk)) as [E | E].
      * destruct (get_resident (now w) (country_cache w) (l_key lk) lk Hf Hlt)
          as (c' & Hget' & Hf' & Hb' & Hm').
        rewrite E, Hget' in Hget. injection Hget as _ <-.
        rewrite Hf', Hb', Hm'. repeat split; auto; lia.
      * destruct (get_other (now w) (country_cache w) (l_key lk) (cache_key a)
                    lk E Hf) as (Hf' & Hb' & Hm').
        rewrite Hget in Hf', Hb', Hm'. cbn [snd] in Hf', Hb', Hm'.
        rewrite Hm'. repeat split; auto; lia.
    + repeat split; auto; lia.
    + destruct (String.eqb_spec (cache_key a) (l_key lk)) as [E | E].
      * exfalso. rewrite E in Hmiss. unfold TTL.contains in Hmiss.
        rewrite Hf in Hmiss. apply Z.ltb_ge in Hmiss. lia.
      * rewrite lookup_insert_ne by exact E.
        rewrite map_size_insert_None by exact Hreg.
        split; [repeat split; auto; lia |].
        rewrite List.filter_app, length_app. cbn [List.filter t_args].
        apply String.eqb_neq in E. rewrite E. cbn. lia.
  - apply (task_end t) in Hstep as (tk & st & hp & Htk & _ & _ & ->);
      [| left; eauto].
    cbn in *. split; [repeat split; auto; lia |].
    now apply filter_insert_length with tk.
  - apply (task_end t) in Hstep as (tk & st & hp & Htk & _ & _ & ->);
      [| right; eauto].
    cbn in *. split; [repeat split; auto; lia |].
    now apply filter_insert_length with tk.
  - cbn [step] in Hstep. cbn [other_calls] in Hroom.
    apply analyze_country_resume_cases in Hstep
      as [(key0 & t & tk & b & Hc & Htk & Hst & ->)
         | [(key0 & t & tk & x & Hc & Htk & Hst & ->)
           | (t & tk & Hc & Htk & Hst & ->)]];
      cbn [now country_cache in_flight_requests tasks] in *.
    + pose proof (owner_registered _ Hw _ _ _ Hc) as Hreg.
      assert (Hne : key0 ≠ l_key lk) by congruence.
      assert (Hsize : size (in_flight_requests w) ≠ 0%nat)
        by (apply (map_size_ne_0_lookup_2 _ key0); eauto).
      destruct (setitem_other (now w) (country_cache w) (l_key lk) key0
                  (b_result b) lk Hne Hf Hlt ltac:(lia)) as (Hf' & Hb' & Hm').
      rewrite lookup_delete_ne by exact Hne.
      rewrite map_size_delete_Some by eauto.
      rewrite Hm'. repeat split; auto; lia.
    + pose proof (owner_registered _ Hw _ _ _ Hc) as Hreg.
      assert (Hne : key0 ≠ l_key lk) by congruence.
      rewrite lookup_delete_ne by exact Hne.
      rewrite map_size_delete_Some by eauto.
      repeat split; auto; lia.
    + repeat split; auto; lia.
  - cbn in Hstep. case_bool_decide; [| discriminate].
    injection Hstep as <-. cbn in *. repeat split; auto; lia.
Qed.

Lemma run_resident es w w' lk n :
  consistent w → run es w = Some w' →
  now w + elapsed es < l_expires lk →
  resident lk (other_calls (l_key lk) es + n) w →
  resident lk n w'
  ∧ pipelines_started (l_key lk) w' = pipelines_started (l_key lk) w.
Proof.
  revert w. induction es as [| e es IH]; intros w Hw; cbn [run].
  - intros [= <-] _ Hres. split; [exact Hres | reflexivity].
  - destruct (step e w) as [w1 |] eqn:Hstep; cbn [mbind option_bind]; [| discriminate].
    intros Hrun. rewrite elapsed_cons, other_calls_cons. intros Hlt Hres.
    destruct (step_now _ _ _ Hstep) as [Hnow1 Hpos1].
    destruct (run_now _ _ _ Hrun) as [_ Hpos].
    destruct (step_resident e w w1 lk (other_calls (l_key lk) es + n) Hw Hstep)
      as [Hres1 Hp1]; [lia | |].
    { destruct Hres as (? & ? & ?). repeat split; auto; lia. }
    destruct (IH w1 (step_consistent _ _ _ Hw Hstep) Hrun ltac:(lia) Hres1)
      as [Hres' Hp'].
    split; [exact Hres' | congruence].
Qed.

(** A call for the key of a resident, valid entry is served from the
    cache. *)
Lemma call_resident w lk n (c : caller_id) (a : call_args) :
  resident lk n w → now w < l_expires lk →
  callers w !! c = None → cache_key a = l_key lk →
  ∃ w',
    step (Call c a) w = Some w'
    ∧ callers w' = <[c := Returned (RDict (l_value lk)) true []]> (callers w)
    ∧ tasks w' = tasks w ∧ heap w' = heap w
    ∧ in_flight_requests w' = in_flight_requests w
    ∧ now w' = now w.
Proof.
  intros (Hf & _ & _) Hlt Hc Hkey.
  destruct (get_resident (now w) (country_cache w) (l_key lk) lk Hf Hlt)
    as (c' & Hget & _).
  cbn [step]. rewrite Hc.
  unfold analyze_country_enter, CacheManager.get_cached.
  rewrite Hkey, Hget. eexists. split; [reflexivity |].
  cbn. auto.
Qed.

(** The call that created a task takes the result and stores it. *)
Lemma resume_stores w w' (c : caller_id) key t (l : loc) hit m :
  callers w !! c = Some (AwaitOwn key t) →
  step (Resume c) w = Some w' →
  callers w' !! c = Some (Returned (RDict l) hit m) →
  (∃ tk, tasks w !! t = Some tk
         ∧ t_state tk = Done {| b_result := l; b_is_cache_hit := hit;
                                b_missing_metrics := m |})
  ∧ country_cache w' = TTL.setitem (now w) (country_cache w) key l
  ∧ in_flight_requests w' = delete key (in_flight_requests w)
  ∧ now w' = now w ∧ tasks w' = tasks w ∧ heap w' = heap w
  ∧ callers w' = <[c := Returned (RDict l) hit m]> (callers w).
Proof.
  intros Hc Hstep Hc'. cbn [step] in Hstep.
  apply analyze_country_resume_cases in Hstep
    as [(key0 & t0 & tk & b & Hc0 & Htk & Hst & ->)
       | [(key0 & t0 & tk & x & Hc0 & Htk & Hst & ->)
         | (t0 & tk & Hc0 & Htk & Hst & ->)]];
    rewrite Hc in Hc0; try discriminate; injection Hc0 as <- <-;
    cbn [callers] in Hc'; rewrite lookup_insert_eq in Hc'; [| discriminate].
  injection Hc' as <- <- <-. cbn.
  split; [| auto 10]. exists tk. split; [exact Htk |].
  rewrite Hst. now destruct b.
Qed.

(** While no pipeline is started for a key that is not in flight, no
    entry is stored under it: its entries expire when they did. *)
Lemma step_stale e w w' key (expiry : Z) :
  consistent w → step e w = Some w' →
  pipelines_started key w' = pipelines_started key w →
  in_flight_requests w !! key = None →
  uncached expiry (country_cache w) key →
  in_flight_requests w' !! key = None
  ∧ uncached expiry (country_cache w') key.
Proof.
  intros Hw Hstep Hp Hfl Hu.
  destruct e as [dt | c a | t r | t x | c | l d].
  - cbn in Hstep. destruct (0 <=? dt); [| discriminate].
    injection Hstep as <-. auto.
  - cbn [step] in Hstep. destruct (callers w !! c) eqn:Hc; [discriminate |].
    apply analyze_country_enter_cases in Hstep
      as [(l & cache & Hget & ->) | [(t & tk & Hmiss & Hreg & Htk & ->)
                                    | (Hmiss & Hreg & ->)]];
      cbn [country_cache in_flight_requests] in *.
    + split; [exact Hfl |].
      replace cache with (TTL.get (now w) (country_cache w) (cache_key a)).2
        by now rewrite Hget.
      now apply get_uncached_at.
    + auto.
    + destruct (String.eqb_spec (cache_key a) key) as [E | E].
      * exfalso. subst key. rewrite (pipelines_started_snoc w a) in Hp. lia.
      * rewrite lookup_insert_ne by exact E. auto.
  - apply (task_end t) in Hstep as (tk & st & hp & Htk & _ & _ & ->);
      [| left; eauto]. auto.
  - apply (task_end t) in Hstep as (tk & st & hp & Htk & _ & _ & ->);
      [| right; eauto]. auto.
  - cbn [step] in Hstep.
    apply analyze_country_resume_cases in Hstep
      as [(key0 & t & tk & b & Hc & Htk & Hst & ->)
         | [(key0 & t & tk & x & Hc & Htk & Hst & ->)
           | (t & tk & Hc & Htk & Hst & ->)]];
      cbn [country_cache in_flight_requests] in *.
    + pose proof (owner_registered _ Hw _ _ _ Hc) as Hreg.
      assert (Hne : key ≠ key0) by congruence.
      rewrite lookup_delete_ne by congruence.
      split; [exact Hfl |]. now apply setitem_uncached_at.
    + split; [| exact Hu].
      destruct (decide (key0 = key)) as [-> | Hne];
        [apply lookup_delete_eq | now rewrite lookup_delete_ne].
    + auto.
  - cbn in Hstep. case_bool_decide; [| discriminate].
    injection Hstep as <-. auto.
Qed.

Lemma run_stale es w w' key (expiry : Z) :
  consistent w → run es w = Some w' →
  pipelines_started key w' = pipelines_started key w →
  in_flight_requests w !! key = None →
  uncached expiry (country_cache w) key →
  in_flight_requests w' !! key = None
  ∧ uncached expiry (country_cache w') key.
Proof.
  revert w. induction es as [| e es IH]; intros w Hw; cbn [run].
  - intros [= <-]. auto.
  - destruct (step e w) as [w1 |] eqn:Hstep; cbn [mbind option_bind]; [| discriminate].
    intros Hrun Hp Hfl Hu.
    pose proof (run_pipelines_le _ _ _ key Hrun) as Hle.
    assert (Hp1 : pipelines_started key w1 = pipelines_started key w).
    { destruct (step_pipelines _ _ _ key Hstep) as [E | [E _]]; [exact E | lia]. }
    destruct (step_stale e w w1 key expiry Hw Hstep Hp1 Hfl Hu) as [Hfl1 Hu1].
    apply (IH w1 (step_consistent _ _ _ Hw Hstep) Hrun); [congruence | auto | auto].
Qed.
End Between.

Section Stored.
Context {F : Type} `{PyFloat F}.
Implicit Types (w : world F) (e : event F) (es : list (event F)).

(** A task that has returned holds a cache-hit flag of [False]. *)
Lemma reachable_done_miss w t tk b :
  reachable w → tasks w !! t = Some tk → t_state tk = Done b →
  b_is_cache_hit b = false.
Proof.
  intros Hw. revert t tk b.
  induction Hw as [| e w w' _ IH Hstep]; intros t tk b.
  - intros Ht. change (tasks init_world) with (@nil task) in Ht.
    now rewrite lookup_nil in Ht.
  - destruct e as [dt | c a | t0 r | t0 x | c | l d].
    + cbn in Hstep. destruct (0 <=? dt); [| discriminate].
      injection Hstep as <-. apply IH.
    + cbn in Hstep. destruct (callers w !! c); [discriminate |].
      apply analyze_country_enter_cases in Hstep
        as [(l & cache & _ & ->) | [(t1 & tk1 & _ & _ & _ & ->) | (_ & _ & ->)]];
        cbn [tasks]; try apply IH.
      rewrite lookup_snoc_Some. intros [[_ Ht] | [_ <-]]; [exact (IH _ _ _ Ht) |].
      discriminate.
    + cbn [step] in Hstep. unfold run_task in Hstep.
      destruct (tasks w !! t0) as [tk0 |]; cbn [mbind option_bind] in Hstep;
        [| discriminate].
      destruct (fetch_and_build_returns (country_code (t_args tk0))
                  (risk_tolerance (t_args tk0)) (duration (t_args tk0))
                  (debug_mode (t_args tk0)) r) as (d & m & E).
      rewrite E in Hstep.
      apply settle_Some in Hstep as (tk1 & _ & _ & ->). cbn [tasks].
      rewrite list_lookup_insert_Some.
      intros [(_ & <- & _) | [_ Ht]]; [| exact (IH _ _ _ Ht)].
      cbn. now intros [= <-].
    + cbn [step] in Hstep.
      apply settle_Some in Hstep as (tk1 & _ & _ & ->). cbn [tasks].
      rewrite list_lookup_insert_Some.
      intros [(_ & <- & _) | [_ Ht]]; [discriminate | exact (IH _ _ _ Ht)].
    + cbn in Hstep. apply analyze_country_resume_cases in Hstep
        as [(key0 & t1 & tk1 & b1 & _ & _ & _ & ->)
           | [(key0 & t1 & tk1 & x & _ & _ & _ & ->)
             | (t1 & tk1 & _ & _ & _ & ->)]]; apply IH.
    + cbn in Hstep. case_bool_decide; [| discriminate].
      injection Hstep as <-. apply IH.
Qed.

(** Once the call that created a task has stored its result, the entry is
    resident as long as the cache has room: for the keys in flight then,
    and for [n] more. *)
Lemma stored_resident w0 w1 (c : caller_id) key t (l : loc) hit m (n : nat) :
  reachable w0 →
  callers w0 !! c = Some (AwaitOwn key t) →
  step (Resume c) w0 = Some w1 →
  callers w1 !! c = Some (Returned (RDict l) hit m) →
  ((size (in_flight_requests w1) + n < 100)%nat →
   resident {| l_key := key; l_value := l; l_expires := now w0 + 3600 |} n w1)
  ∧ uncached (now w0 + 3600) (country_cache w1) key
  ∧ in_flight_requests w1 !! key = None
  ∧ now w1 = now w0 ∧ tasks w1 = tasks w0 ∧ heap w1 = heap w0
  ∧ hit = false.
Proof.
  intros Hr0 Hc Hres Hc'.
  destruct (reachable_settled w0 Hr0) as (_ & _ & (Hmax & Httl & _)).
  destruct (resume_stores w0 w1 c key t l hit m Hc Hres Hc')
    as ((tk & Htk & Hst) & Hcache & Hfl & Hnow & Htasks & Hheap & _).
  destruct (setitem_stored (now w0) (country_cache w0) key l)
    as (Hf & Hb & Hu & Hm & _).
  rewrite Httl in Hf, Hu. rewrite <- Hcache in Hf, Hb, Hu, Hm.
  assert (Hnone : in_flight_requests w1 !! key = None)
    by (rewrite Hfl; apply lookup_delete_eq).
  split; [| split; [exact Hu | split; [exact Hnone |]]].
  - intros Hroom. unfold resident. cbn [l_key]. rewrite Hf, Hb, Hm, Hmax.
    split; [reflexivity |]. split; [exact Hnone | lia].
  - repeat split; auto.
    exact (reachable_done_miss w0 t tk _ Hr0 Htk Hst).
Qed.
End Stored.

(** C6.  Let a first call of [analyze] have run the fetch pipeline for
    its key and return its result, storing it.  Then a call with the same
    (countryCode, riskTolerance, duration), whatever its debug flag, made
    less than 3600 seconds later returns wasCacheHit = True and the very
    dictionary the first call returned, whatever else the process did in
    between (other calls beginning, waiting and returning, tasks running
    and failing, results being updated in place), as long as the cache
    had room: the keys in flight when the first call returned and the
    calls for other keys made since are fewer than 100 together.  The
    second call creates no task and allocates nothing, and no pipeline has
    been started for the key since the first call's: nothing is
    recomputed. *)
Theorem C6_second_call_is_cache_hit {F : Type} `{PyFloat F}
    (w0 w1 w2 : world F) (c1 c2 : caller_id) (a1 a2 : call_args)
    (t : task_id) (l : loc) (hit : bool) (m : list string)
    (es : list (event F)) :
  reachable w0 →
  callers w0 !! c1 = Some (AwaitOwn (cache_key a1) t) →
  step (Resume c1) w0 = Some w1 →
  callers w1 !! c1 = Some (Returned (RDict l) hit m) →
  run es w1 = Some w2 →
  elapsed es < 3600 →
  (size (in_flight_requests w1) + other_calls (cache_key a1) es < 100)%nat →
  callers w2 !! c2 = None →
  country_code a2 = country_code a1 →
  risk_tolerance a2 = risk_tolerance a1 →
  duration a2 = duration a1 →
  ∃ w3,
    step (Call c2 a2) w2 = Some w3
    ∧ callers w3 !! c2 = Some (Returned (RDict l) true [])
    ∧ callers w3 !! c1 = Some (Returned (RDict l) false m)
    ∧ hit = false
    ∧ tasks w3 = tasks w2
    ∧ heap w3 = heap w2
    ∧ in_flight_requests w3 = in_flight_requests w2
    ∧ pipelines_started (cache_key a1) w3
      = pipelines_started (cache_key a1) w0.
Proof.
  intros Hr0 Hc1 Hres Hc1' Hrun Hel Hroom Hc2 Ecc Ert Edu.
  assert (Hkey : cache_key a2 = cache_key a1)
    by (unfold cache_key; now rewrite Ecc, Ert, Edu).
  pose proof (reachable_consistent _ Hr0) as Hw0.
  pose proof (step_consistent _ _ _ Hw0 Hres) as Hw1.
  set (lk := {| l_key := cache_key a1; l_value := l;
                l_expires := now w0 + 3600 |}).
  destruct (stored_resident w0 w1 c1 (cache_key a1) t l hit m
              (other_calls (cache_key a1) es + 0) Hr0 Hc1 Hres Hc1')
    as (Hres1 & _ & _ & Hnow1 & Htasks1 & _ & ->).
  specialize (Hres1 ltac:(lia)). fold lk in Hres1.
  destruct (run_now _ _ _ Hrun) as [Hnow2 _].
  destruct (run_resident es w1 w2 lk 0 Hw1 Hrun) as [Hres2 Hp2];
    [cbn [l_expires lk]; lia | exact Hres1 |].
  destruct (call_resident w2 lk 0 c2 a2 Hres2) as
    (w3 & Hstep & Hcallers & Htasks & Hheap & Hfl & _);
    [cbn [l_expires lk]; lia | exact Hc2 | exact Hkey |].
  exists w3. split; [exact Hstep |].
  pose proof (run_finished _ _ _ _ _ Hrun Hc1' eq_refl) as Hc1''.
  rewrite Hcallers.
  split; [apply lookup_insert_eq |].
  split; [rewrite lookup_insert_ne by congruence; exact Hc1'' |].
  split; [reflexivity |].
  split; [exact Htasks |]. split; [exact Hheap |]. split; [exact Hfl |].
  cbn [l_key lk] in Hp2.
  unfold pipelines_started, pipelines in *. now rewrite Htasks, Hp2, Htasks1.
Qed.

(** C6 at a concrete run: a request for France, Germany and Japan whose
    three calls are gathered; France's call returns first, Germany's and
    Japan's after it; 3599 seconds later, France's result having been
    updated in place, a second call for France is served from the
    cache. *)
Lemma C6_second_call_is_cache_hit_witness :
  ∃ (w0 w3 : world float) m,
    run [ Call 0%nat analyze_fra;
          Call 1%nat {| country_code := "DEU"; risk_tolerance := "low";
                        duration := "short-term"; debug_mode := false |};
          Call 2%nat {| country_code := "JPN"; risk_tolerance := "low";
                        duration := "short-term"; debug_mode := false |};
          Finish 0%nat france_failing; Finish 1%nat germany_cool;
          Finish 2%nat japan_cold ] init_world = Some w0
    ∧ run [ Resume 0%nat; Resume 1%nat; Resume 2%nat; Tick 3599;
            Mutate 0%nat [("rank"%string, PNum 1%float)];
            Call 3%nat analyze_fra ] w0 = Some w3
    ∧ callers w3 !! 0%nat = Some (Returned (RDict 0%nat) false m)
    ∧ callers w3 !! 3%nat = Some (Returned (RDict 0%nat) true [])
    ∧ pipelines_started (cache_key analyze_fra) w3 = 1%nat.
Proof.
  pose (deu := {| country_code := "DEU"; risk_tolerance := "low";
                  duration := "short-term"; debug_mode := false |}).
  pose (jpn := {| country_code := "JPN"; risk_tolerance := "low";
                  duration := "short-term"; debug_mode := false |}).
  pose (es := [ Resume 1%nat; Resume 2%nat; Tick 3599;
                Mutate (F:=float) 0%nat [("rank"%string, PNum 1%float)] ]).
  destruct (run (F:=float)
              [ Call 0%nat analyze_fra; Call 1%nat deu; Call 2%nat jpn;
                Finish 0%nat france_failing; Finish 1%nat germany_cool;
                Finish 2%nat japan_cold ] init_world) as [w0 |] eqn:E0;
    [| vm_compute in E0; discriminate].
  pose proof (run_reachable _ _ _ reachable_init E0) as Hr0.
  destruct (step (Resume 0%nat) w0) as [w1 |] eqn:E1;
    [| vm_compute in E0; injection E0 as <-; vm_compute in E1; discriminate].
  destruct (run es w1) as [w2 |] eqn:E2;
    [| vm_compute in E0; injection E0 as <-; vm_compute in E1;
       injection E1 as <-; vm_compute in E2; discriminate].
  assert (Hfacts :
    callers w0 !! 0%nat = Some (AwaitOwn (cache_key analyze_fra) 0%nat)
    ∧ callers w1 !! 0%nat
      = Some (Returned (RDict 0%nat) false provider_metrics)
    ∧ (size (in_flight_requests w1)
       + other_calls (cache_key analyze_fra) es <? 100)%nat = true
    ∧ callers w2 !! 3%nat = None
    ∧ pipelines_started (cache_key analyze_fra) w0 = 1%nat).
  { vm_compute in E0. injection E0 as <-. vm_compute in E1. injection E1 as <-.
    vm_compute in E2. injection E2 as <-.
    repeat apply conj; vm_compute; reflexivity. }
  destruct Hfacts as (Hc0 & Hc1 & Hroom & Hc3 & Hp0).
  apply Nat.ltb_lt in Hroom.
  destruct (C6_second_call_is_cache_hit w0 w1 w2 0%nat 3%nat analyze_fra
              analyze_fra 0%nat 0%nat false provider_metrics es
              Hr0 Hc0 E1 Hc1 E2 ltac:(vm_compute; reflexivity) Hroom Hc3
              eq_refl eq_refl eq_refl)
    as (w3 & E3 & Hc3' & Hc0' & _ & _ & _ & _ & Hp).
  exists w0, w3, provider_metrics.
  split; [exact E0 |]. split.
  { change [Resume 0%nat; Resume 1%nat; Resume 2%nat; Tick 3599;
            Mutate 0%nat [("rank"%string, PNum 1%float)];
            Call 3%nat analyze_fra]
      with (Resume (F:=float) 0%nat :: es ++ [Call 3%nat analyze_fra]).
    cbn [run]. rewrite E1. cbn [mbind option_bind].
    rewrite run_app, E2. cbn [mbind option_bind run]. now rewrite E3. }
  split; [exact Hc0' |]. split; [exact Hc3' |]. now rewrite Hp.
Defined.

(** C6, counterexample to the statement without the cache's capacity:
    after the first call for France has returned its result, a hundred
    other countries are analysed, one after the other, and no time
    passes; the call for France that follows finds the key neither cached
    nor in flight and starts the pipeline a second time. *)
Lemma C6_evicted_within_ttl :
  ∃ (w w' : world float) m,
    run ([ Call 0%nat analyze_fra; Finish 0%nat (all_four_fail france);
           Resume 0%nat ] ++ numbered_analyses 100) init_world = Some w
    ∧ callers w !! 0%nat = Some (Returned (RDict 0%nat) false m)
    ∧ now w = 0
    ∧ step (Call 101%nat analyze_fra) w = Some w'
    ∧ callers w' !! 101%nat = Some (AwaitOwn (cache_key analyze_fra) 101%nat)
    ∧ pipelines_started (cache_key analyze_fra) w' = 2%nat.
Proof.
  eexists _, _, _.
  split; [vm_compute; reflexivity |].
  split; [vm_compute; reflexivity |].
  split; [reflexivity |].
  split; [vm_compute; reflexivity |].
  split; vm_compute; reflexivity.
Qed.

(** The cache key leaves out the debug flag, and a cache hit reports no
    missing metrics.  Let a task created without debug mode compute the
    result of an identified country, and let the call that created it
    store the result.  Then a call with the same country, risk tolerance
    and duration, whatever its debug flag, made less than 3600 seconds
    after that while the cache had room (the keys then in flight and the
    calls for other keys made since being fewer than 100) is served that
    very dictionary: the list of missing metrics is empty although the
    computing call reported humidity (at least) as missing, and unless a
    holder has updated the dictionary in place it has no entry
    debug_analysis. *)
Theorem cache_hit_ignores_debug_flag {F : Type} `{PyFloat F}
    (w wf w0 w1 w2 : world F) (c1 c2 : caller_id) (t : task_id) (tk : task)
    (a2 : call_args) (r : responses F) (es0 es : list (event F)) :
  reachable w →
  tasks w !! t = Some tk →
  t_state tk = Pending →
  debug_mode (t_args tk) = false →
  identified r = true →
  step (Finish t r) w = Some wf →
  run es0 wf = Some w0 →
  callers w0 !! c1 = Some (AwaitOwn (cache_key (t_args tk)) t) →
  step (Resume c1) w0 = Some w1 →
  run es w1 = Some w2 →
  elapsed es < 3600 →
  (size (in_flight_requests w1) + other_calls (cache_key (t_args tk)) es
   < 100)%nat →
  callers w2 !! c2 = None →
  country_code a2 = country_code (t_args tk) →
  risk_tolerance a2 = risk_tolerance (t_args tk) →
  duration a2 = duration (t_args tk) →
  ∃ w3 m,
    step (Call c2 a2) w2 = Some w3
    ∧ callers w3 !! c1 = Some (Returned (RDict (length (heap w))) false m)
    ∧ "humidity"%string ∈ m
    ∧ callers w3 !! c2 = Some (Returned (RDict (length (heap w))) true [])
    ∧ (untouched (length (heap w)) (es0 ++ es) = true →
       ∃ d, heap w3 !! length (heap w) = Some d
            ∧ d ≠ []
            ∧ dict_get d "debug_analysis" = None).
Proof.
  intros Hr Htk Hst Hdbg Hid Hfin Hrun0 Hc1 Hres Hrun Hel Hroom Hc2
    Ecc Ert Edu.
  assert (Hkey : cache_key a2 = cache_key (t_args tk))
    by (unfold cache_key; now rewrite Ecc, Ert, Edu).
  (* the task runs to its end *)
  destruct (fetch_and_build_identified (country_code (t_args tk))
              (risk_tolerance (t_args tk)) (duration (t_args tk))
              (debug_mode (t_args tk)) r Hid) as (p & pl & _ & _ & Hm & Hfb).
  assert (Hwf : tasks wf !! t
                = Some {| t_args := t_args tk;
                          t_state :=
                            Done {| b_result := length (heap w);
                                    b_is_cache_hit := false;
                                    b_missing_metrics := missing_metrics pl |} |}
                ∧ heap wf !! length (heap w)
                  = Some (build_result (country_code (t_args tk))
                            (risk_tolerance (t_args tk)) (duration (t_args tk))
                            (debug_mode (t_args tk)) p pl)).
  { cbn [step] in Hfin. unfold run_task in Hfin. rewrite Htk in Hfin.
    cbn [mbind option_bind] in Hfin. rewrite Hfb in Hfin.
    apply settle_Some in Hfin as (tk' & Htk' & _ & ->).
    rewrite Htk in Htk'. injection Htk' as <-. cbn [tasks heap]. split.
    - apply list_lookup_insert_eq. now apply lookup_lt_Some in Htk.
    - now apply list_lookup_middle. }
  destruct Hwf as [Htkf Hdf].
  (* nothing changes the task or the dictionary until the call resumes *)
  pose proof (run_task_ended _ _ _ _ _ Hrun0 Htkf ltac:(discriminate)) as Htk0.
  assert (Hr0 : reachable w0).
  { eapply run_reachable; [| exact Hrun0].
    eapply reachable_step; [exact Hr | exact Hfin]. }
  pose proof (reachable_consistent _ Hr0) as Hw0.
  pose proof (step_consistent _ _ _ Hw0 Hres) as Hw1.
  assert (Hc1' : callers w1 !! c1
                 = Some (Returned (RDict (length (heap w))) false
                           (missing_metrics pl))).
  { clear -Hres Hc1 Htk0. cbn [step] in Hres.
    unfold analyze_country_resume in Hres. rewrite Hc1 in Hres.
    cbn [mbind option_bind] in Hres. rewrite Htk0 in Hres.
    cbn [mbind option_bind t_state] in Hres. injection Hres as <-.
    cbn [callers]. apply lookup_insert_eq. }
  set (lk := {| l_key := cache_key (t_args tk); l_value := length (heap w);
                l_expires := now w0 + 3600 |}).
  destruct (stored_resident w0 w1 c1 (cache_key (t_args tk)) t _ _ _
              (other_calls (cache_key (t_args tk)) es + 0) Hr0 Hc1 Hres Hc1')
    as (Hres1 & _ & _ & Hnow1 & _ & Hheap1 & _).
  specialize (Hres1 ltac:(lia)). fold lk in Hres1.
  destruct (run_now _ _ _ Hrun) as [Hnow2 _].
  destruct (run_resident es w1 w2 lk 0 Hw1 Hrun) as [Hres2 _];
    [cbn [l_expires lk]; lia | exact Hres1 |].
  destruct (call_resident w2 lk 0 c2 a2 Hres2) as
    (w3 & Hstep & Hcallers & _ & Hheap & _);
    [cbn [l_expires lk]; lia | exact Hc2 | exact Hkey |].
  exists w3, (missing_metrics pl).
  split; [exact Hstep |].
  pose proof (run_finished _ _ _ _ _ Hrun Hc1' eq_refl) as Hc1''.
  rewrite Hcallers, Hheap.
  split; [rewrite lookup_insert_ne by congruence; exact Hc1'' |].
  split; [rewrite Hm; apply humidity_is_missing |].
  split; [apply lookup_insert_eq |].
  intros Hun. rewrite untouched_app in Hun.
  apply andb_prop in Hun as [Hun0 Hun1].
  pose proof (run_heap_untouched _ _ _ _ _ Hrun0 Hdf Hun0) as Hd0.
  eexists. split.
  { apply (run_heap_untouched _ _ _ _ _ Hrun); [| exact Hun1].
    rewrite Hheap1. exact Hd0. }
  rewrite Hdbg. split; [discriminate | reflexivity].
Qed.

(** The cache hit of a debug call for France, 100 seconds after a
    request for France, Germany and Japan without debug mode was
    answered. *)
Lemma cache_hit_ignores_debug_flag_witness :
  ∃ (w w3 : world float) (m : list string) d,
    run [ Call 0%nat analyze_fra;
          Call 1%nat {| country_code := "DEU"; risk_tolerance := "low";
                        duration := "short-term"; debug_mode := false |};
          Call 2%nat {| country_code := "JPN"; risk_tolerance := "low";
                        duration := "short-term"; debug_mode := false |} ]
      init_world = Some w
    ∧ run [ Finish 0%nat france_failing; Finish 1%nat germany_cool;
            Finish 2%nat japan_cold;
            Resume 0%nat; Resume 1%nat; Resume 2%nat; Tick 100;
            Call 3%nat {| country_code := "FRA"; risk_tolerance := "low";
                          duration := "short-term"; debug_mode := true |} ]
        w = Some w3
    ∧ callers w3 !! 0%nat = Some (Returned (RDict 0%nat) false m)
    ∧ callers w3 !! 3%nat = Some (Returned (RDict 0%nat) true [])
    ∧ "humidity"%string ∈ m
    ∧ heap w3 !! 0%nat = Some d
    ∧ dict_get d "debug_analysis" = None.
Proof.
  pose (deu := {| country_code := "DEU"; risk_tolerance := "low";
                  duration := "short-term"; debug_mode := false |}).
  pose (jpn := {| country_code := "JPN"; risk_tolerance := "low";
                  duration := "short-term"; debug_mode := false |}).
  pose (fra_debug := {| country_code := "FRA"; risk_tolerance := "low";
                        duration := "short-term"; debug_mode := true |}).
  pose (es0 := [ Finish (F:=float) 1%nat germany_cool;
                 Finish 2%nat japan_cold ]).
  pose (es := [ Resume (F:=float) 1%nat; Resume 2%nat; Tick 100 ]).
  destruct (run (F:=float) [Call 0%nat analyze_fra; Call 1%nat deu;
                            Call 2%nat jpn] init_world) as [w |] eqn:E;
    [| vm_compute in E; discriminate].
  pose proof (run_reachable _ _ _ reachable_init E) as Hr.
  destruct (step (Finish 0%nat france_failing) w) as [wf |] eqn:Ef;
    [| vm_compute in E; injection E as <-; vm_compute in Ef; discriminate].
  destruct (run es0 wf) as [w0 |] eqn:E0;
    [| vm_compute in E; injection E as <-; vm_compute in Ef;
       injection Ef as <-; vm_compute in E0; discriminate].
  destruct (step (Resume 0%nat) w0) as [w1 |] eqn:E1;
    [| vm_compute in E; injection E as <-; vm_compute in Ef;
       injection Ef as <-; vm_compute in E0; injection E0 as <-;
       vm_compute in E1; discriminate].
  destruct (run es w1) as [w2 |] eqn:E2;
    [| vm_compute in E; injection E as <-; vm_compute in Ef;
       injection Ef as <-; vm_compute in E0; injection E0 as <-;
       vm_compute in E1; injection E1 as <-; vm_compute in E2; discriminate].
  assert (Hfacts :
    tasks w !! 0%nat = Some {| t_args := analyze_fra; t_state := Pending |}
    ∧ length (heap w) = 0%nat
    ∧ callers w0 !! 0%nat = Some (AwaitOwn (cache_key analyze_fra) 0%nat)
    ∧ (size (in_flight_requests w1)
       + other_calls (cache_key analyze_fra) es <? 100)%nat = true
    ∧ callers w2 !! 3%nat = None).
  { vm_compute in E. injection E as <-. vm_compute in Ef. injection Ef as <-.
    vm_compute in E0. injection E0 as <-. vm_compute in E1. injection E1 as <-.
    vm_compute in E2. injection E2 as <-.
    repeat apply conj; vm_compute; reflexivity. }
  destruct Hfacts as (Htk & Hlen & Hc0 & Hroom & Hc3).
  apply Nat.ltb_lt in Hroom.
  destruct (cache_hit_ignores_debug_flag w wf w0 w1 w2 0%nat 3%nat 0%nat _
              fra_debug france_failing es0 es Hr Htk eq_refl eq_refl eq_refl
              Ef E0 Hc0 E1 E2
              ltac:(vm_compute; reflexivity) Hroom Hc3 eq_refl eq_refl eq_refl)
    as (w3 & m & E3 & H0 & Hm & H3 & Hd).
  destruct (Hd ltac:(rewrite Hlen; reflexivity)) as (d & Hd' & _ & Hnone).
  rewrite Hlen in H0, H3, Hd'.
  exists w, w3, m, d.
  split; [exact E |]. split.
  { assert (Hall : run ([Finish (F:=float) 0%nat france_failing]
                        ++ es0 ++ [Resume 0%nat] ++ es
                        ++ [Call 3%nat fra_debug]) w = Some w3).
    { rewrite run_app, run_singleton, Ef. cbn [mbind option_bind].
      rewrite run_app, E0. cbn [mbind option_bind].
      rewrite run_app, run_singleton, E1. cbn [mbind option_bind].
      rewrite run_app, E2. cbn [mbind option_bind].
      rewrite run_singleton. exact E3. }
    exact Hall. }
  auto.
Defined.

(** Once the time to live has passed, the cached result is not used any
    more.  After the call that computed a result has stored it, a call
    with the same country, risk tolerance and duration made 3600 seconds
    or more later, before any other call has started the pipeline for the
    key again, finds the key neither cached nor in flight and starts the
    pipeline a second time, whatever else the process did in between
    (calls served from the cache, calls for other keys, results updated in
    place). *)
Theorem expired_result_is_recomputed {F : Type} `{PyFloat F}
    (w0 w1 w2 : world F) (c1 c2 : caller_id) (a1 a2 : call_args)
    (t : task_id) (l : loc) (hit : bool) (m : list string)
    (es : list (event F)) :
  reachable w0 →
  callers w0 !! c1 = Some (AwaitOwn (cache_key a1) t) →
  step (Resume c1) w0 = Some w1 →
  callers w1 !! c1 = Some (Returned (RDict l) hit m) →
  run es w1 = Some w2 →
  3600 <= elapsed es →
  pipelines_started (cache_key a1) w2 = pipelines_started (cache_key a1) w1 →
  callers w2 !! c2 = None →
  country_code a2 = country_code a1 →
  risk_tolerance a2 = risk_tolerance a1 →
  duration a2 = duration a1 →
  ∃ w3,
    step (Call c2 a2) w2 = Some w3
    ∧ callers w3 !! c2 = Some (AwaitOwn (cache_key a1) (length (tasks w2)))
    ∧ tasks w3 !! length (tasks w2) = Some {| t_args := a2; t_state := Pending |}
    ∧ pipelines_started (cache_key a1) w3
      = S (pipelines_started (cache_key a1) w0).
Proof.
  intros Hr0 Hc1 Hres Hc1' Hrun Hel Hp Hc2 Ecc Ert Edu.
  assert (Hkey : cache_key a2 = cache_key a1)
    by (unfold cache_key; now rewrite Ecc, Ert, Edu).
  pose proof (reachable_consistent _ Hr0) as Hw0.
  pose proof (step_consistent _ _ _ Hw0 Hres) as Hw1.
  destruct (stored_resident w0 w1 c1 (cache_key a1) t l hit m 0 Hr0 Hc1 Hres Hc1')
    as (_ & Hu1 & Hfl1 & Hnow1 & Htasks1 & _).
  destruct (run_now _ _ _ Hrun) as [Hnow2 _].
  destruct (run_stale es w1 w2 (cache_key a1) (now w0 + 3600) Hw1 Hrun Hp
              Hfl1 Hu1) as [Hfl2 Hu2].
  assert (Hmiss : TTL.contains (now w2) (country_cache w2) (cache_key a2)
                  = false).
  { rewrite Hkey. apply uncached_contains.
    intros l0 Hin Hk. specialize (Hu2 l0 Hin Hk). lia. }
  rewrite <- Hkey in Hfl2.
  rewrite (call_starts_pipeline w2 c2 a2 Hc2 Hmiss Hfl2).
  eexists. split; [reflexivity |].
  split; [cbn [callers]; rewrite Hkey; apply lookup_insert_eq |].
  split; [cbn [tasks]; now apply list_lookup_middle |].
  rewrite <- Hkey, (pipelines_started_snoc w2 a2), Hkey, Hp.
  unfold pipelines_started, pipelines. now rewrite Htasks1.
Qed.

(** The second computation for France: a request for France, Germany
    and Japan is answered, a call for France half an hour later is served
    from the cache, and a call for France another half hour later starts
    the pipeline again. *)
Lemma expired_result_is_recomputed_witness :
  ∃ w0 w2 w3 : world float,
    run [ Call 0%nat analyze_fra;
          Call 1%nat {| country_code := "DEU"; risk_tolerance := "low";
                        duration := "short-term"; debug_mode := false |};
          Call 2%nat {| country_code := "JPN"; risk_tolerance := "low";
                        duration := "short-term"; debug_mode := false |};
          Finish 0%nat france_failing; Finish 1%nat germany_cool;
          Finish 2%nat japan_cold ] init_world = Some w0
    ∧ run [ Resume 0%nat; Resume 1%nat; Resume 2%nat; Tick 1800;
            Call 3%nat analyze_fra; Tick 1800 ] w0 = Some w2
    ∧ callers w2 !! 3%nat = Some (Returned (RDict 0%nat) true [])
    ∧ step (Call 4%nat analyze_fra) w2 = Some w3
    ∧ callers w3 !! 4%nat = Some (AwaitOwn (cache_key analyze_fra) 3%nat)
    ∧ pipelines_started (cache_key analyze_fra) w3 = 2%nat.
Proof.
  pose (deu := {| country_code := "DEU"; risk_tolerance := "low";
                  duration := "short-term"; debug_mode := false |}).
  pose (jpn := {| country_code := "JPN"; risk_tolerance := "low";
                  duration := "short-term"; debug_mode := false |}).
  pose (es := [ Resume (F:=float) 1%nat; Resume 2%nat; Tick 1800;
                Call 3%nat analyze_fra; Tick 1800 ]).
  destruct (run (F:=float)
              [ Call 0%nat analyze_fra; Call 1%nat deu; Call 2%nat jpn;
                Finish 0%nat france_failing; Finish 1%nat germany_cool;
                Finish 2%nat japan_cold ] init_world) as [w0 |] eqn:E0;
    [| vm_compute in E0; discriminate].
  pose proof (run_reachable _ _ _ reachable_init E0) as Hr0.
  destruct (step (Resume 0%nat) w0) as [w1 |] eqn:E1;
    [| vm_compute in E0; injection E0 as <-; vm_compute in E1; discriminate].
  destruct (run es w1) as [w2 |] eqn:E2;
    [| vm_compute in E0; injection E0 as <-; vm_compute in E1;
       injection E1 as <-; vm_compute in E2; discriminate].
  assert (Hfacts :
    callers w0 !! 0%nat = Some (AwaitOwn (cache_key analyze_fra) 0%nat)
    ∧ callers w1 !! 0%nat
      = Some (Returned (RDict 0%nat) false provider_metrics)
    ∧ pipelines_started (cache_key analyze_fra) w2
      = pipelines_started (cache_key analyze_fra) w1
    ∧ callers w2 !! 4%nat = None
    ∧ callers w2 !! 3%nat = Some (Returned (RDict 0%nat) true [])
    ∧ length (tasks w2) = 3%nat
    ∧ pipelines_started (cache_key analyze_fra) w0 = 1%nat).
  { vm_compute in E0. injection E0 as <-. vm_compute in E1. injection E1 as <-.
    vm_compute in E2. injection E2 as <-.
    repeat apply conj; vm_compute; reflexivity. }
  destruct Hfacts as (Hc0 & Hc1 & Hp & Hc4 & Hc3 & Hlen & Hp0).
  destruct (expired_result_is_recomputed w0 w1 w2 0%nat 4%nat analyze_fra
              analyze_fra 0%nat 0%nat false provider_metrics es
              Hr0 Hc0 E1 Hc1 E2 ltac:(vm_compute; discriminate) Hp Hc4
              eq_refl eq_refl eq_refl)
    as (w3 & E3 & Hc4' & _ & Hp3).
  exists w0, w2, w3.
  split; [exact E0 |]. split.
  { assert (Hall : run ([Resume (F:=float) 0%nat] ++ es) w0 = Some w2).
    { rewrite run_app, run_singleton, E1. exact E2. }
    exact Hall. }
  split; [exact Hc3 |]. split; [exact E3 |].
  rewrite Hlen in Hc4'. rewrite Hp0 in Hp3. auto.
Defined.

(* ===================================================================== *)
(** * Further properties: the request handler *)
(* ===================================================================== *)

Section Dictionaries.
Context {V : Type}.
Implicit Types (d : pydict V) (k : string).

Lemma dict_get_set_eq d k v : dict_get (dict_set d k v) k = Some v.
Proof.
  induction d as [| [k' v'] d IH]; cbn [dict_set dict_get].
  - now rewrite String.eqb_refl.
  - destruct (String.eqb k' k) eqn:E; cbn [dict_get]; rewrite E; auto.
Qed.

Lemma dict_get_set_ne d k k' v :
  k ≠ k' → dict_get (dict_set d k v) k' = dict_get d k'.
Proof.
  intros Hne. induction d as [| [k0 v0] d IH]; cbn [dict_set dict_get].
  - destruct (String.eqb_spec k k'); [contradiction | reflexivity].
  - destruct (String.eqb_spec k0 k) as [-> | Hk]; cbn [dict_get].
    + destruct (String.eqb_spec k k'); [contradiction | reflexivity].
    + destruct (String.eqb k0 k'); auto.
Qed.

Lemma dict_get_pop_eq d k : dict_get (dict_pop d k) k = None.
Proof.
  unfold dict_pop.
  induction d as [| [k' v'] d IH]; cbn [List.filter dict_get fst]; [reflexivity |].
  destruct (String.eqb k' k) eqn:E; cbn [negb dict_get]; [exact IH |].
  now rewrite E.
Qed.

Lemma dict_get_pop_ne d k k' :
  k ≠ k' → dict_get (dict_pop d k) k' = dict_get d k'.
Proof.
  intros Hne. unfold dict_pop.
  induction d as [| [k0 v0] d IH]; cbn [List.filter dict_get fst]; [reflexivity |].
  destruct (String.eqb_spec k0 k) as [-> | Hk]; cbn [negb dict_get].
  - destruct (String.eqb_spec k k'); [contradiction | exact IH].
  - destruct (String.eqb k0 k'); auto.
Qed.
End Dictionaries.

Section Handler.
Context {F : Type} `{PyFloat F}.
Implicit Types (hp : list (pydict (pyvalue F))) (acc : Server.collected F).

Lemma collect_one_no_debug (cc : string) (st : caller_state) acc hp :
  gathered_from hp st →
  ∃ acc',
    Server.collect_one false cc st acc hp = Some (Server.Return acc', hp)
    ∧ Server.final_results acc'
      = Server.final_results acc ++ option_list (succeeded hp st).
Proof.
  destruct st as [| | [l | b] hit m | x]; cbn [gathered_from];
    try contradiction.
  - intros [d Hd]. destruct d as [| kv d].
    + eexists. split.
      * cbn [Server.collect_one]. unfold pydict in *. rewrite Hd. reflexivity.
      * cbn [succeeded Server.final_results]. unfold pydict in *. rewrite Hd.
        cbn [option_list]. now rewrite app_nil_r.
    + eexists. split.
      * cbn [Server.collect_one]. unfold pydict in *. rewrite Hd. reflexivity.
      * cbn [succeeded Server.final_results]. unfold pydict in *. rewrite Hd.
        reflexivity.
  - intros _. eexists. split; reflexivity.
  - intros _. eexists. split; [reflexivity |].
    cbn [succeeded Server.final_results option_list]. now rewrite app_nil_r.
Qed.

(** Without debug mode the first loop neither raises nor touches a
    dictionary; it keeps what the calls returned, empty dictionaries
    apart. *)
Lemma collect_no_debug (entries : list (string * caller_state)) acc hp :
  Forall (gathered_from hp) entries.*2 →
  ∃ acc',
    Server.collect false entries acc hp = Some (Server.Return acc', hp)
    ∧ Server.final_results acc'
      = Server.final_results acc ++ omap (succeeded hp) entries.*2.
Proof.
  revert acc. induction entries as [| [cc st] entries IH]; intros acc Hall.
  - eexists. split; [reflexivity |]. cbn. now rewrite app_nil_r.
  - cbn [fmap list_fmap snd] in Hall. apply Forall_cons in Hall as [Hst Hall].
    destruct (collect_one_no_debug cc st acc hp Hst) as (acc1 & E1 & Hfin1).
    destruct (IH acc1 Hall) as (acc' & E & Hfin).
    exists acc'. split.
    + cbn [Server.collect]. rewrite E1. cbn [mbind option_bind]. exact E.
    + rewrite Hfin, Hfin1, <- app_assoc. f_equal.
      cbn [fmap list_fmap snd].
      change (omap (succeeded hp) (st :: entries.*2))
        with (match succeeded hp st with
              | Some r => r :: omap (succeeded hp) entries.*2
              | None => omap (succeeded hp) entries.*2
              end).
      destruct (succeeded hp st); reflexivity.
Qed.

Lemma succeeded_valid hp st r :
  succeeded hp st = Some r →
  match r with RDict l => is_Some (hp !! l) | RTuple _ => True end.
Proof.
  destruct st as [| | [l | b] hit m | x]; cbn; try discriminate.
  - unfold pydict in *.
    destruct (hp !! l) as [[| kv d] |] eqn:E; try discriminate.
    intros [= <-]. rewrite E. eauto.
  - now intros [= <-].
Qed.

(** Computing the sort keys fails on the first tuple. *)
Lemma sort_keys_tuple hp (xs : list returned_result) :
  Forall (fun r => match r with
                   | RDict l => is_Some (hp !! l)
                   | RTuple _ => True
                   end) xs →
  (∃ b, RTuple b ∈ xs) →
  Server.sort_keys hp xs = Some (Server.Raises (Server.AttributeError "get")).
Proof.
  induction xs as [| x xs IH]; intros Hall [b Hin].
  - inversion Hin.
  - apply Forall_cons in Hall as [Hx Hall]. cbn [Server.sort_keys].
    destruct x as [l | b0]; cbn [Server.sort_key]; [| reflexivity].
    destruct Hx as [d Hd]. unfold pydict in *. rewrite Hd.
    cbn [mbind option_bind].
    apply elem_of_cons in Hin as [[=] | Hin].
    rewrite (IH Hall (ex_intro _ b Hin)). reflexivity.
Qed.

(** One round of the first loop always comes to an end.  It leaves the
    dictionaries alone or, in debug mode, takes the debug analysis out of
    one; it raises only in debug mode, on a dictionary whose debug
    analysis is no dictionary or stands beside no overall score. *)
Lemma collect_one_outcome (debug : bool) (cc : string) (st : caller_state)
    acc hp :
  gathered_from hp st →
  ∃ o hp',
    Server.collect_one debug cc st acc hp = Some (o, hp')
    ∧ (hp' = hp
       ∨ (debug = true
          ∧ ∃ l d, hp !! l = Some d
                   ∧ hp' = <[l := dict_pop d "debug_analysis"]> hp))
    ∧ match o with
      | Server.Return acc' =>
          Server.final_results acc'
          = Server.final_results acc ++ option_list (succeeded hp st)
      | Server.Raises _ => debug = true ∧ ¬ Forall debug_entry_sound hp
      end.
Proof.
  destruct st as [| | [l | b] hit m | x]; cbn [gathered_from];
    try contradiction.
  - intros [d Hd]. cbn [Server.collect_one succeeded].
    unfold pydict in *. rewrite Hd. cbn [mbind option_bind].
    destruct d as [| kv d].
    { eexists _, _. split; [reflexivity |]. split; [now left |].
      cbn [Server.final_results option_list]. now rewrite app_nil_r. }
    destruct debug.
    + destruct (dict_get (kv :: d) "debug_analysis") as [da |] eqn:Hda.
      * assert (Hbad : (¬ (∃ entries, da = PDict entries)
                        ∨ dict_get (kv :: d) "overall_score" = None) →
                       ¬ Forall debug_entry_sound hp).
        { intros Hor Hall. rewrite Forall_lookup in Hall.
          specialize (Hall l _ Hd). unfold debug_entry_sound in Hall.
          unfold pydict in *. rewrite Hda in Hall.
          destruct Hall as [Hdict [os Hos]].
          destruct Hor as [Hn | Hn]; [contradiction | congruence]. }
        rewrite (dict_get_pop_ne (kv :: d) "debug_analysis" "overall_score")
          by discriminate.
        destruct (dict_get (kv :: d) "overall_score") as [os |] eqn:Hos.
        -- destruct da as [| s | x | entries];
             try (eexists _, _; split; [reflexivity |];
                  split; [right; split; [reflexivity |]; eauto |];
                  split; [reflexivity |]; apply Hbad; left;
                  intros [? [=]]).
           eexists _, _. split; [reflexivity |].
           split; [right; split; [reflexivity |]; eauto |]. reflexivity.
        -- eexists _, _. split; [reflexivity |].
           split; [right; split; [reflexivity |]; eauto |].
           split; [reflexivity |]. apply Hbad. now right.
      * eexists _, _. split; [reflexivity |]. split; [now left |]. reflexivity.
    + eexists _, _. split; [reflexivity |]. split; [now left |]. reflexivity.
  - intros _. eexists _, _. split; [reflexivity |]. split; [now left |].
    reflexivity.
  - intros _. eexists _, _. split; [reflexivity |]. split; [now left |].
    cbn [succeeded Server.final_results option_list]. now rewrite app_nil_r.
Qed.

Lemma held_pop hp (l : loc) d (r : returned_result) :
  held hp r → held (<[l := dict_pop d "debug_analysis"]> hp) r.
Proof.
  destruct r as [l0 | b]; cbn [held]; [| trivial].
  rewrite !lookup_lt_is_Some, length_insert. trivial.
Qed.

Lemma gathered_from_pop hp (l : loc) d (st : caller_state) :
  gathered_from hp st →
  gathered_from (<[l := dict_pop d "debug_analysis"]> hp) st.
Proof.
  destruct st as [| | [l0 | b] hit m | x]; cbn [gathered_from]; try trivial.
  rewrite !lookup_lt_is_Some, length_insert. trivial.
Qed.

Lemma debug_entry_sound_pop hp (l : loc) d :
  Forall debug_entry_sound hp →
  Forall debug_entry_sound (<[l := dict_pop d "debug_analysis"]> hp).
Proof.
  intros Hall. apply Forall_insert; [exact Hall |].
  unfold debug_entry_sound. now rewrite dict_get_pop_eq.
Qed.

(** The first loop always comes to an end.  When it does not raise, it
    has kept every tuple among the results of [gather]; without debug mode
    it neither raises nor touches a dictionary. *)
Lemma collect_outcome (debug : bool) (entries : list (string * caller_state)) :
  ∀ acc hp,
    Forall (gathered_from hp) entries.*2 →
    Forall (held hp) (Server.final_results acc) →
    ∃ o hp',
      Server.collect debug entries acc hp = Some (o, hp')
      ∧ (debug = false → hp' = hp)
      ∧ match o with
        | Server.Return acc' =>
            Forall (held hp') (Server.final_results acc')
            ∧ (∀ r, r ∈ Server.final_results acc →
                    r ∈ Server.final_results acc')
            ∧ (∀ b hit m, Returned (RTuple b) hit m ∈ entries.*2 →
                          RTuple b ∈ Server.final_results acc')
        | Server.Raises _ => debug = true ∧ ¬ Forall debug_entry_sound hp
        end.
Proof.
  induction entries as [| [cc st] entries IH]; intros acc hp Hall Hheld.
  - eexists _, _. split; [reflexivity |]. split; [reflexivity |].
    split; [exact Hheld |]. split; [auto |].
    intros b hit m Hin. inversion Hin.
  - cbn [fmap list_fmap snd] in Hall. apply Forall_cons in Hall as [Hst Hall].
    destruct (collect_one_outcome debug cc st acc hp Hst)
      as (o1 & hp1 & E1 & Hhp1 & Ho1).
    cbn [Server.collect]. rewrite E1. cbn [mbind option_bind].
    destruct o1 as [acc1 | e].
    + assert (Hfrom : ∀ st0, gathered_from hp st0 → gathered_from hp1 st0).
      { destruct Hhp1 as [-> | (_ & l & d & _ & ->)];
          [auto | intros st0; apply gathered_from_pop]. }
      assert (Hheld1 : ∀ r, held hp r → held hp1 r).
      { destruct Hhp1 as [-> | (_ & l & d & _ & ->)];
          [auto | intros r; apply held_pop]. }
      assert (Hsound : Forall debug_entry_sound hp →
                       Forall debug_entry_sound hp1).
      { destruct Hhp1 as [-> | (_ & l & d & _ & ->)];
          [auto | apply debug_entry_sound_pop]. }
      destruct (IH acc1 hp1) as (o & hp' & E & Hsame & Ho).
      { eapply Forall_impl; [exact Hall | exact Hfrom]. }
      { rewrite Ho1. apply Forall_app. split.
        - eapply Forall_impl; [exact Hheld | exact Hheld1].
        - destruct (succeeded hp st) as [r |] eqn:Hr; cbn [option_list];
            [| constructor].
          constructor; [| constructor].
          apply Hheld1. exact (succeeded_valid _ _ _ Hr). }
      exists o, hp'. split; [exact E |]. split.
      { intros Hd. rewrite (Hsame Hd).
        destruct Hhp1 as [-> | (Hd' & _)]; [reflexivity | congruence]. }
      destruct o as [acc' | e].
      * destruct Ho as (Hheld' & Hkeep & Htuples).
        split; [exact Hheld' |]. split.
        { intros r Hr. apply Hkeep. rewrite Ho1. apply elem_of_app. now left. }
        intros b hit m Hin. cbn [fmap list_fmap snd] in Hin.
        apply elem_of_cons in Hin as [<- | Hin]; [| eauto].
        apply Hkeep. rewrite Ho1. apply elem_of_app. right.
        cbn [succeeded option_list]. now left.
      * destruct Ho as [Hd Hn]. split; [exact Hd | auto].
    + exists (Server.Raises e), hp1. split; [reflexivity |]. split.
      { intros Hd. destruct Ho1 as [Hd' _]. congruence. }
      exact Ho1.
Qed.
End Handler.

(** A request one of whose calls found its country in flight and was
    handed what the task returned fails, with debug mode or without.
    Such a call returns the task's tuple where the result dictionary
    belongs; the handler takes it for a result and raises.  Without debug
    mode the exception is the AttributeError of sorting the results, a
    tuple having no method [get], and no dictionary has been touched by
    then; in debug mode it is the same exception whenever the debug
    analyses the handler takes out are dictionaries that stand beside an
    overall score. *)
Theorem joined_result_fails_the_request {F : Type} `{PyFloat F}
    (request : Server.request) (raw_results : list caller_state)
    (hp : list (pydict (pyvalue F))) (b : built) (hit : bool)
    (m : list string) :
  length raw_results = length (Server.countries request) →
  Forall (gathered_from hp) raw_results →
  Returned (RTuple b) hit m ∈ raw_results →
  ∃ e hp',
    Server.analyze_respond request raw_results hp = Some (Server.Raises e, hp')
    ∧ (Server.debug request = false →
       e = Server.AttributeError "get" ∧ hp' = hp)
    ∧ (Forall debug_entry_sound hp → e = Server.AttributeError "get").
Proof.
  intros Hlen Hall Hin.
  unfold Server.analyze_respond.
  destruct (collect_outcome (Server.debug request)
              (zip (Server.countries request) raw_results)
              {| Server.final_results := []; Server.cache_hits := [];
                 Server.cache_misses := []; Server.all_missing_metrics := [];
                 Server.debug_analyses := [] |} hp)
    as (o & hp' & -> & Hsame & Ho).
  { rewrite snd_zip by lia. exact Hall. }
  { constructor. }
  cbn [mbind option_bind].
  destruct o as [acc | e].
  - destruct Ho as (Hheld & _ & Htuples).
    rewrite snd_zip in Htuples by lia.
    rewrite (sort_keys_tuple hp' (Server.final_results acc) Hheld);
      [| exists b; eauto].
    cbn [mbind option_bind]. eexists _, _. split; [reflexivity |].
    split; [| reflexivity]. intros Hd. split; [reflexivity | auto].
  - destruct Ho as [Hd Hn]. eexists _, _. split; [reflexivity |].
    split; [intros Hd'; congruence | intros Hs; contradiction].
Qed.

(** The failure of a request that names France three times, with debug
    mode: the validator accepts it, the first call computes the result,
    the other two find France in flight, and the handler, having taken the
    debug analysis out of the result, raises. *)
Lemma joined_result_fails_the_request_witness :
  Server.validate_countries Server.ascii_upper Server.ascii_isalpha
    String.length ["fra"; "FRA"; "Fra"]%string
  = Server.Return ["FRA"; "FRA"; "FRA"]%string
  ∧ ∃ (w : world float) (raw_results : list caller_state) hp',
      run [ Call 0%nat {| country_code := "FRA"; risk_tolerance := "low";
                          duration := "short-term"; debug_mode := true |};
            Call 1%nat {| country_code := "FRA"; risk_tolerance := "low";
                          duration := "short-term"; debug_mode := true |};
            Call 2%nat {| country_code := "FRA"; risk_tolerance := "low";
                          duration := "short-term"; debug_mode := true |};
            Finish 0%nat (all_four_fail france);
            Resume 0%nat; Resume 1%nat; Resume 2%nat ] init_world
      = Some w
      ∧ mapM (fun c => callers w !! c) [0; 1; 2]%nat = Some raw_results
      ∧ Server.analyze_respond
          {| Server.countries := ["FRA"; "FRA"; "FRA"]%string;
             Server.risk_tolerance := "low";
             Server.duration := "short-term";
             Server.debug := true |}
          raw_results (heap w)
        = Some (Server.Raises (Server.AttributeError "get"), hp').
Proof.
  split; [vm_compute; reflexivity |].
  pose (fra_debug := {| country_code := "FRA"; risk_tolerance := "low";
                        duration := "short-term"; debug_mode := true |}).
  pose (b := {| b_result := 0%nat; b_is_cache_hit := false;
                b_missing_metrics := provider_metrics |}).
  destruct (run (F:=float)
              [ Call 0%nat fra_debug; Call 1%nat fra_debug; Call 2%nat fra_debug;
                Finish 0%nat (all_four_fail france);
                Resume 0%nat; Resume 1%nat; Resume 2%nat ] init_world)
    as [w |] eqn:E; [| vm_compute in E; discriminate].
  destruct (mapM (fun c => callers w !! c) [0; 1; 2]%nat)
    as [raw_results |] eqn:Eraw;
    [| vm_compute in E; injection E as <-; vm_compute in Eraw; discriminate].
  assert (Hfacts :
    length raw_results = 3%nat
    ∧ Forall (gathered_from (heap w)) raw_results
    ∧ Returned (RTuple b) false [] ∈ raw_results
    ∧ Forall debug_entry_sound (heap w)).
  { vm_compute in E. injection E as <-. vm_compute in Eraw.
    injection Eraw as <-. cbn [heap].
    split; [reflexivity |]. split; [| split].
    - repeat constructor. eexists. reflexivity.
    - right. left.
    - constructor; [| constructor]. unfold debug_entry_sound.
      cbn [dict_get String.eqb Ascii.eqb Bool.eqb].
      split; eexists; reflexivity. }
  destruct Hfacts as (Hlen & Hall & Hin & Hsound).
  destruct (joined_result_fails_the_request
              {| Server.countries := ["FRA"; "FRA"; "FRA"]%string;
                 Server.risk_tolerance := "low";
                 Server.duration := "short-term";
                 Server.debug := true |} raw_results (heap w) b false []
              Hlen Hall Hin) as (e & hp' & Heq & _ & Hs).
  rewrite (Hs Hsound) in Heq.
  exists w, raw_results, hp'. auto.
Defined.

Section Ranking.
Context {F : Type} `{PyFloat F}.
Implicit Types (hp : list (pydict (pyvalue F))) (acc : Server.collected F).

(** The stages an answered request has gone through. *)
Lemma analyze_respond_Return (request : Server.request)
    (raw_results : list caller_state) hp (resp : Server.response F) hp' :
  Server.analyze_respond request raw_results hp = Some (Server.Return resp, hp') →
  ∃ acc hp1 keyed sorted debug_analyses,
    Server.collect (Server.debug request)
      (zip (Server.countries request) raw_results)
      {| Server.final_results := []; Server.cache_hits := [];
         Server.cache_misses := []; Server.all_missing_metrics := [];
         Server.debug_analyses := [] |} hp
    = Some (Server.Return acc, hp1)
    ∧ Server.sort_keys hp1 (Server.final_results acc) = Some (Server.Return keyed)
    ∧ Server.sort_descending keyed = Server.Return sorted
    ∧ Server.assign_ranks (Server.debug request) 0 sorted.*2
        (Server.debug_analyses acc) hp1
      = Some (Server.Return debug_analyses, hp')
    ∧ Server.results resp = sorted.*2
    ∧ Server.metadata_cache_hits resp = Server.cache_hits acc
    ∧ Server.metadata_cache_misses resp = Server.cache_misses acc
    ∧ Server.metadata_missing_metrics resp
      = list_to_set (Server.all_missing_metrics acc).
Proof.
  unfold Server.analyze_respond. intros E.
  destruct (Server.collect _ _ _ hp) as [[[acc | e] hp1] |] eqn:Ecol;
    cbn [mbind option_bind] in E; try discriminate.
  destruct (Server.sort_keys hp1 _) as [[keyed | e] |] eqn:Ekeys;
    cbn [mbind option_bind] in E; try discriminate.
  destruct (Server.sort_descending keyed) as [sorted | e] eqn:Esort;
    try discriminate.
  change (map snd sorted) with (sorted.*2) in E.
  destruct (Server.assign_ranks _ _ _ _ hp1) as [[[da | e] hp2] |] eqn:Erank;
    cbn [mbind option_bind] in E; try discriminate.
  destruct (Server.log_final_results hp2 _) as [[[] | e] |] eqn:Elog;
    cbn [mbind option_bind] in E; try discriminate.
  injection E as <- <-.
  exists acc, hp1, keyed, sorted, da. repeat apply conj; auto.
Qed.

(** The keys are those of the dictionaries, in the order of the
    results. *)
Lemma sort_keys_Return hp (xs : list returned_result)
    (keyed : list (pyvalue F * returned_result)) :
  Server.sort_keys hp xs = Some (Server.Return keyed) →
  keyed.*2 = xs
  ∧ Forall (fun kx => ∃ l d, kx.2 = RDict l ∧ hp !! l = Some d
                           ∧ kx.1 = get_default d "overall_score"
                                      (Server.of_int 0)) keyed.
Proof.
  revert keyed. induction xs as [| x xs IH]; intros keyed; cbn [Server.sort_keys].
  - intros [= <-]. split; [reflexivity | constructor].
  - destruct x as [l | b]; cbn [Server.sort_key]; [| discriminate].
    unfold pydict in *.
    destruct (hp !! l) as [d |] eqn:Hd; cbn [mbind option_bind];
      [| discriminate].
    destruct (Server.sort_keys hp xs) as [[ks | e] |]; cbn [mbind option_bind];
      try discriminate.
    intros [= <-]. destruct (IH ks eq_refl) as [Hsnd Hall].
    split; [cbn; now rewrite Hsnd |].
    constructor; [| exact Hall]. exists l, d. auto.
Qed.

Lemma insert_descending_perm (kx : pyvalue F * returned_result) s s' :
  Server.insert_descending kx s = Server.Return s' → s' ≡ₚ kx :: s.
Proof.
  revert s'. induction s as [| ky s IH]; intros s'; cbn [Server.insert_descending].
  - now intros [= <-].
  - destruct (Server.key_lt ky.1 kx.1) as [[|] | e]; try discriminate.
    + now intros [= <-].
    + destruct (Server.insert_descending kx s) as [r | e]; try discriminate.
      intros [= <-]. rewrite (IH r eq_refl). apply Permutation_swap.
Qed.

Lemma sort_fold_Raises (l : list (pyvalue F * returned_result)) e :
  fold_left
    (fun a kx =>
       match a with
       | Server.Return sorted => Server.insert_descending kx sorted
       | Server.Raises e => Server.Raises e
       end) l (Server.Raises e) = Server.Raises e.
Proof. induction l as [| kx l IH]; [reflexivity | exact IH]. Qed.

(** What holds of the sorted prefix holds of the sorted list, if every
    insertion keeps it. *)
Lemma sort_fold_invariant (P : list (pyvalue F * returned_result) → Prop)
    (l s sorted : list (pyvalue F * returned_result)) :
  (∀ kx s s', P s → Server.insert_descending kx s = Server.Return s' → P s') →
  P s →
  fold_left
    (fun a kx =>
       match a with
       | Server.Return sorted => Server.insert_descending kx sorted
       | Server.Raises e => Server.Raises e
       end) l (Server.Return s) = Server.Return sorted →
  P sorted ∧ sorted ≡ₚ s ++ l.
Proof.
  intros Hstep. revert s. induction l as [| kx l IH]; intros s Hs; cbn [fold_left].
  - intros [= <-]. split; [exact Hs | now rewrite app_nil_r].
  - destruct (Server.insert_descending kx s) as [s1 | e] eqn:E.
    + intros Hfold. destruct (IH s1 (Hstep _ _ _ Hs E) Hfold) as [HP Hperm].
      split; [exact HP |].
      rewrite Hperm, (insert_descending_perm _ _ _ E).
      apply Permutation_middle.
    + rewrite sort_fold_Raises. discriminate.
Qed.

Lemma sort_descending_perm (keyed sorted : list (pyvalue F * returned_result)) :
  Server.sort_descending keyed = Server.Return sorted → sorted ≡ₚ keyed.
Proof.
  intros E.
  apply (sort_fold_invariant (fun _ => True) keyed [] sorted) in E; auto.
  now destruct E.
Qed.

(** The second loop writes the ranks and nothing else: every dictionary
    keeps its other entries, and ends up with the rank of the last
    position at which it is listed. *)
Lemma assign_ranks_spec (debug : bool) (xs : list returned_result) :
  ∀ (i : nat) (da da' : pydict (pydict (pyvalue F))) hp hp',
    Server.assign_ranks debug i xs da hp = Some (Server.Return da', hp') →
    length hp' = length hp
    ∧ ∀ l d, hp !! l = Some d →
        ∃ d', hp' !! l = Some d'
              ∧ (∀ k, k ≠ "rank"%string → dict_get d' k = dict_get d k)
              ∧ dict_get d' "rank"
                = match last_index (RDict l) xs with
                  | Some j => Some (Server.of_int (i + j + 1))
                  | None => dict_get d "rank"
                  end.
Proof.
  induction xs as [| x xs IH]; intros i da da' hp hp'; cbn [Server.assign_ranks].
  - intros [= _ <-]. split; [reflexivity |].
    intros l d Hd. exists d. auto.
  - destruct x as [l0 | b]; [| discriminate].
    unfold pydict in *.
    destruct (hp !! l0) as [d0 |] eqn:Hd0; cbn [mbind option_bind];
      [| discriminate].
    set (d1 := dict_set d0 "rank" (Server.of_int (i + 1))).
    set (hp1 := <[l0 := d1]> hp).
    intros E.
    assert (Erec : ∃ da1, Server.assign_ranks debug (S i) xs da1 hp1
                          = Some (Server.Return da', hp')).
    { destruct debug; [| eauto].
      destruct (dict_get d1 "country_code") as [[| cc | x | dd] |];
        try discriminate; eauto.
      destruct (dict_get da cc); eauto. }
    clear E. destruct Erec as [da1 Erec].
    destruct (IH _ _ _ _ _ Erec) as [Hlen Hspec].
    split; [rewrite Hlen; apply length_insert |].
    intros l d Hd.
    assert (Hl0 : (l0 < length hp)%nat) by now apply lookup_lt_Some in Hd0.
    cbn [last_index].
    destruct (decide (l0 = l)) as [-> | Hne].
    + assert (E1 : hp1 !! l = Some d1) by now apply list_lookup_insert_eq.
      destruct (Hspec l d1 E1) as (d' & Hd' & Hkeys & Hrank).
      rewrite Hd in Hd0. injection Hd0 as <-.
      exists d'. split; [exact Hd' |]. split.
      * intros k Hk. rewrite (Hkeys k Hk). unfold d1.
        apply dict_get_set_ne. congruence.
      * rewrite Hrank.
        destruct (last_index (RDict l) xs) as [j |].
        -- do 3 f_equal. lia.
        -- rewrite decide_True by reflexivity. unfold d1.
           rewrite dict_get_set_eq. do 3 f_equal. lia.
    + assert (E1 : hp1 !! l = Some d)
        by (unfold hp1; now rewrite list_lookup_insert_ne).
      destruct (Hspec l d E1) as (d' & Hd' & Hkeys & Hrank).
      exists d'. split; [exact Hd' |]. split; [exact Hkeys |].
      rewrite Hrank.
      destruct (last_index (RDict l) xs) as [j |].
      * do 3 f_equal. lia.
      * rewrite decide_False by congruence. reflexivity.
Qed.

Lemma last_index_NoDup {A} `{EqDecision A} (l : list A) (i : nat) (x : A) :
  NoDup l → l !! i = Some x → last_index x l = Some i.
Proof.
  revert i. induction l as [| y l IH]; intros i Hnd Hi; [discriminate |].
  apply NoDup_cons in Hnd as [Hy Hnd]. cbn [last_index].
  destruct i as [| i].
  - injection Hi as ->.
    assert (E : last_index x l = None).
    { clear IH Hnd. induction l as [| z l IH]; [reflexivity |].
      apply not_elem_of_cons in Hy as [Hz Hy]. cbn [last_index].
      rewrite (IH Hy). now rewrite decide_False by congruence. }
    rewrite E. now rewrite decide_True.
  - change ((y :: l) !! S i) with (l !! i) in Hi.
    now rewrite (IH i Hnd Hi).
Qed.

Lemma last_index_Some {A} `{EqDecision A} (l : list A) (i : nat) (x : A) :
  l !! i = Some x → ∃ j, last_index x l = Some j ∧ (i <= j)%nat.
Proof.
  revert i. induction l as [| y l IH]; intros i Hi; [discriminate |].
  cbn [last_index]. destruct i as [| i].
  - injection Hi as ->.
    destruct (last_index x l) as [j |]; [exists (S j); split; [auto | lia] |].
    rewrite decide_True by reflexivity. exists 0%nat. auto.
  - change ((y :: l) !! S i) with (l !! i) in Hi.
    destruct (IH i Hi) as (j & -> & Hj). exists (S j). split; [auto | lia].
Qed.
End Ranking.

(** The ranks of an answered request.  Every result is a dictionary, and
    its rank entry is the number of the last position at which that
    dictionary is listed, counted from 1: with results that are distinct
    dictionaries the ranks are 1, 2, ..., n in the order of the response;
    a dictionary listed twice (the same country named twice and served
    from the cache) shows the later rank at both positions.  Apart from
    the rank the second loop leaves every entry as it was. *)
Theorem ranks_follow_positions {F : Type} `{PyFloat F}
    (request : Server.request) (raw_results : list caller_state)
    (hp hp' : list (pydict (pyvalue F))) (resp : Server.response F) :
  Server.analyze_respond request raw_results hp = Some (Server.Return resp, hp') →
  (∀ i r, Server.results resp !! i = Some r →
          ∃ l d j,
            r = RDict l
            ∧ hp' !! l = Some d
            ∧ last_index r (Server.results resp) = Some j
            ∧ (i <= j)%nat
            ∧ dict_get d "rank" = Some (Server.of_int (j + 1)))
  ∧ (NoDup (Server.results resp) →
     ∀ i l, Server.results resp !! i = Some (RDict l) →
            ∃ d, hp' !! l = Some d
                 ∧ dict_get d "rank" = Some (Server.of_int (i + 1))).
Proof.
  intros E.
  destruct (analyze_respond_Return _ _ _ _ _ E)
    as (acc & hp1 & keyed & sorted & da & _ & Hkeys & Hsort & Hrank & Hres & _).
  destruct (sort_keys_Return _ _ _ Hkeys) as [_ Hall].
  destruct (assign_ranks_spec _ _ _ _ _ _ _ Hrank) as [_ Hspec].
  assert (Hdict : ∀ i r, Server.results resp !! i = Some r →
                         ∃ l d1, r = RDict l ∧ hp1 !! l = Some d1).
  { intros i r Hi. rewrite Hres in Hi.
    apply list_lookup_fmap_Some in Hi as ([k r'] & -> & Hi).
    assert (Hin : (k, r') ∈ keyed).
    { rewrite <- (sort_descending_perm _ _ Hsort).
      eapply list_elem_of_lookup_2. exact Hi. }
    rewrite Forall_forall in Hall.
    destruct (Hall _ Hin) as (l & d & Hr & Hd & _). eauto. }
  assert (Hfirst : ∀ i r, Server.results resp !! i = Some r →
            ∃ l d j,
              r = RDict l ∧ hp' !! l = Some d
              ∧ last_index r (Server.results resp) = Some j
              ∧ (i <= j)%nat
              ∧ dict_get d "rank" = Some (Server.of_int (j + 1))).
  { intros i r Hi.
    destruct (Hdict i r Hi) as (l & d1 & -> & Hd1).
    destruct (Hspec l d1 Hd1) as (d & Hd & _ & Hr).
    destruct (last_index_Some _ _ _ Hi) as (j & Hj & Hij).
    rewrite <- Hres, Hj in Hr.
    exists l, d, j. auto. }
  split; [exact Hfirst |].
  intros Hnd i l Hi.
  destruct (Hfirst i _ Hi) as (l' & d & j & [= <-] & Hd & Hj & _ & Hr).
  rewrite (last_index_NoDup _ _ _ Hnd Hi) in Hj. injection Hj as <-.
  eauto.
Qed.

(** The ranks for a request for France, Germany and Japan
    on an empty cache: Germany, at 12 degrees, comes first, and the ranks
    are 1, 2, 3. *)
Lemma ranks_follow_positions_witness :
  ∃ (w : world float) (raw_results : list caller_state)
    (resp : Server.response float) (hp' : list (pydict (pyvalue float))),
    run (three_countries_run false 0 0) init_world = Some w
    ∧ mapM (fun c => callers w !! c) [0; 1; 2]%nat = Some raw_results
    ∧ Server.analyze_respond (three_countries false) raw_results (heap w)
      = Some (Server.Return resp, hp')
    ∧ Server.results resp = [RDict 1%nat; RDict 0%nat; RDict 2%nat]
    ∧ ∀ i l, Server.results resp !! i = Some (RDict l) →
             ∃ d, hp' !! l = Some d
                  ∧ dict_get d "rank" = Some (Server.of_int (i + 1)).
Proof.
  eexists _, _, _, _.
  split; [vm_compute; reflexivity |].
  split; [vm_compute; reflexivity |].
  match goal with
  | |- ?lhs = _ ∧ _ =>
      let v := eval vm_compute in lhs in
      match v with
      | Some (Server.Return ?resp, ?hp') =>
          assert (E : lhs = Some (Server.Return resp, hp'))
            by (vm_compute; reflexivity)
      end
  end.
  split; [exact E |].
  split; [reflexivity |].
  apply (ranks_follow_positions _ _ _ _ _ E).
  apply (bool_decide_unpack _). vm_compute. reflexivity.
Defined.

Section Sorting.
Local Open Scope Q_scope.

Lemma StronglySorted_lookup {A} (R : A → A → Prop) (l : list A) (i j : nat) a b :
  StronglySorted R l → (i < j)%nat → l !! i = Some a → l !! j = Some b → R a b.
Proof.
  intros Hs. revert i j. induction Hs as [| x l Hs IH Hall]; intros i j Hij Hi Hj.
  - discriminate.
  - destruct j as [| j]; [lia |].
    change ((x :: l) !! S j) with (l !! j) in Hj.
    destruct i as [| i].
    + injection Hi as ->. rewrite Forall_forall in Hall.
      apply Hall. eapply list_elem_of_lookup_2. exact Hj.
    + change ((x :: l) !! S i) with (l !! i) in Hi.
      apply (IH i j); [lia | assumption | assumption].
Qed.

(** Inserting a key keeps the keys in descending order. *)
Lemma insert_descending_sorted (kx : pyvalue Q * returned_result) s s' :
  StronglySorted not_above s.*1 →
  Server.insert_descending kx s = Server.Return s' →
  StronglySorted not_above s'.*1.
Proof.
  revert s'. induction s as [| ky s IH]; intros s' Hs;
    cbn [Server.insert_descending].
  - intros [= <-]. repeat constructor.
  - cbn [fmap list_fmap] in Hs. apply StronglySorted_inv in Hs as [Hs Hall].
    destruct (Server.key_lt ky.1 kx.1) as [[|] | e] eqn:Elt; try discriminate.
    + intros [= <-]. cbn [fmap list_fmap].
      constructor; [constructor; assumption |].
      assert (Hky : not_above kx.1 ky.1).
      { intros x y Ex Ey. rewrite Ex, Ey in Elt. cbn in Elt.
        injection Elt as Elt. apply negb_true_iff in Elt.
        apply Qle_bool_false in Elt. lra. }
      constructor; [exact Hky |].
      rewrite Forall_forall in Hall. apply Forall_forall. intros z Hz.
      intros x v Ex Ev.
      destruct (ky.1) as [| t | y | dd] eqn:Eky;
        rewrite Ex in Elt; cbn in Elt; try discriminate.
      pose proof (Hall z Hz y v eq_refl Ev).
      pose proof (Hky x y Ex eq_refl). lra.
    + destruct (Server.insert_descending kx s) as [r | e] eqn:E;
        try discriminate.
      intros [= <-]. cbn [fmap list_fmap].
      constructor; [exact (IH r Hs eq_refl) |].
      apply insert_descending_perm in E.
      rewrite E. cbn [fmap list_fmap].
      constructor; [| exact Hall].
      intros y x Ey Ex. rewrite Ex, Ey in Elt. cbn in Elt.
      injection Elt as Elt. apply negb_false_iff in Elt.
      now apply Qle_bool_iff in Elt.
Qed.

Lemma sort_descending_sorted (keyed sorted : list (pyvalue Q * returned_result)) :
  Server.sort_descending keyed = Server.Return sorted →
  StronglySorted not_above sorted.*1.
Proof.
  intros E.
  apply (sort_fold_invariant
           (fun s => StronglySorted not_above s.*1) keyed [] sorted) in E.
  - now destruct E.
  - intros kx s s'. apply insert_descending_sorted.
  - constructor.
Qed.
End Sorting.

Section Collecting.
Context {F : Type} `{PyFloat F}.
Implicit Types (hp : list (pydict (pyvalue F))) (acc : Server.collected F).

(** Without debug mode, the first loop having gone through says that
    every call had finished. *)
Lemma collect_false_gathered (entries : list (string * caller_state)) acc hp o hp' :
  Server.collect false entries acc hp = Some (o, hp') →
  Forall (gathered_from hp) entries.*2.
Proof.
  revert acc. induction entries as [| [cc st] entries IH]; intros acc;
    cbn [Server.collect]; [constructor |].
  intros E.
  assert (Hst : gathered_from hp st).
  { destruct st as [| | [l | b] hit m | x]; cbn in E |- *; try discriminate;
      auto.
    unfold pydict in *. destruct (hp !! l); [eauto | discriminate]. }
  destruct (collect_one_no_debug cc st acc hp Hst) as (acc1 & E1 & _).
  rewrite E1 in E. cbn [mbind option_bind] in E.
  cbn [fmap list_fmap snd]. constructor; [exact Hst | eauto].
Qed.
End Collecting.

(** The order of an answered request, in exact arithmetic: of any two
    results the earlier one has the overall score that is not the lower
    one.  Without debug mode the results are, in some order, exactly what
    the calls returned, empty dictionaries left out. *)
Theorem results_sorted_by_score (request : Server.request)
    (raw_results : list caller_state)
    (hp hp' : list (pydict (pyvalue Q))) (resp : Server.response Q) :
  Server.analyze_respond request raw_results hp = Some (Server.Return resp, hp') →
  (∀ i j li lj di dj x y,
     (i < j)%nat →
     Server.results resp !! i = Some (RDict li) →
     Server.results resp !! j = Some (RDict lj) →
     hp' !! li = Some di → hp' !! lj = Some dj →
     overall_score_of di = Some x → overall_score_of dj = Some y →
     (y <= x)%Q)
  ∧ (Server.debug request = false →
     length raw_results = length (Server.countries request) →
     Server.results resp ≡ₚ omap (succeeded hp) raw_results).
Proof.
  intros E.
  destruct (analyze_respond_Return _ _ _ _ _ E)
    as (acc & hp1 & keyed & sorted & da & Hcol & Hkeys & Hsort & Hrank & Hres & _).
  destruct (sort_keys_Return _ _ _ Hkeys) as [Hsnd Hall].
  destruct (assign_ranks_spec _ _ _ _ _ _ _ Hrank) as [_ Hspec].
  pose proof (sort_descending_perm _ _ Hsort) as Hperm.
  split.
  - intros i j li lj di dj x y Hij Hi Hj Hdi Hdj Hx Hy.
    rewrite Hres in Hi, Hj.
    apply list_lookup_fmap_Some in Hi as ([ki ri] & Eri & Hi).
    apply list_lookup_fmap_Some in Hj as ([kj rj] & Erj & Hj).
    cbn [snd] in Eri, Erj. subst ri rj.
    assert (Hkey : ∀ k l d z,
              (k, RDict l) ∈ sorted → hp' !! l = Some d →
              overall_score_of d = Some z → k = PNum z).
    { intros k l d z Hin Hd Hz.
      rewrite Hperm in Hin. rewrite Forall_forall in Hall.
      destruct (Hall _ Hin) as (l' & d1 & [= <-] & Hd1 & Ek).
      cbn [fst] in Ek. subst k.
      destruct (Hspec l d1 Hd1) as (d' & Hd' & Hk & _).
      rewrite Hd in Hd'. injection Hd' as <-.
      unfold get_default. rewrite <- (Hk "overall_score"%string) by discriminate.
      unfold overall_score_of in Hz.
      destruct (dict_get d "overall_score") as [[| | z' |] |];
        try discriminate.
      now injection Hz as ->. }
    pose proof (Hkey _ _ _ _ (list_elem_of_lookup_2 _ _ _ Hi) Hdi Hx) as Eki.
    pose proof (Hkey _ _ _ _ (list_elem_of_lookup_2 _ _ _ Hj) Hdj Hy) as Ekj.
    pose proof (sort_descending_sorted _ _ Hsort) as Hs.
    apply (StronglySorted_lookup not_above sorted.*1 i j ki kj Hs Hij);
      [| | exact Eki | exact Ekj];
      rewrite list_lookup_fmap; [rewrite Hi | rewrite Hj]; reflexivity.
  - intros Hdbg Hlen. rewrite Hdbg in Hcol.
    pose proof (collect_false_gathered _ _ _ _ _ Hcol) as Hg.
    destruct (collect_no_debug _
                {| Server.final_results := []; Server.cache_hits := [];
                   Server.cache_misses := []; Server.all_missing_metrics := [];
                   Server.debug_analyses := [] |} hp Hg)
      as (acc' & Hcol' & Hfin).
    rewrite Hcol in Hcol'. injection Hcol' as <- _.
    rewrite snd_zip in Hfin by lia. cbn [Server.final_results app] in Hfin.
    rewrite Hres, <- Hfin, <- Hsnd. now apply fmap_Permutation.
Qed.

Section Accounting.
Context {F : Type} `{PyFloat F}.
Implicit Types (hp : list (pydict (pyvalue F))) (acc : Server.collected F).

(** What one round of the first loop does, when it does not raise: the
    country is marked as failed, or its result is taken. *)
Lemma collect_one_cases (debug : bool) (cc : string) (st : caller_state)
    acc hp acc' hp' :
  Server.collect_one debug cc st acc hp = Some (Server.Return acc', hp') →
  (Server.final_results acc' = Server.final_results acc
   ∧ Server.cache_hits acc' = Server.cache_hits acc
   ∧ Server.cache_misses acc' = Server.cache_misses acc
   ∧ Server.all_missing_metrics acc' = Server.all_missing_metrics acc ++ [cc]
   ∧ hp' = hp)
  ∨ (∃ r hit m,
       st = Returned r hit m
       ∧ Server.final_results acc' = Server.final_results acc ++ [r]
       ∧ Server.cache_hits acc'
         = (if hit then Server.cache_hits acc ++ [cc] else Server.cache_hits acc)
       ∧ Server.cache_misses acc'
         = (if hit then Server.cache_misses acc
            else Server.cache_misses acc ++ [cc])
       ∧ Server.all_missing_metrics acc' = Server.all_missing_metrics acc ++ m
       ∧ ((hp' = hp
           ∧ (debug = true → ∀ l, r = RDict l →
                ∃ d, hp !! l = Some d ∧ dict_get d "debug_analysis" = None))
          ∨ (∃ l d, r = RDict l ∧ hp !! l = Some d
                    ∧ hp' = <[l := dict_pop d "debug_analysis"]> hp))).
Proof.
  destruct st as [| | [l | b] hit m | x]; cbn [Server.collect_one];
    try discriminate.
  - unfold pydict in *.
    destruct (hp !! l) as [d |] eqn:Hd; cbn [mbind option_bind];
      [| discriminate].
    destruct d as [| kv d].
    { intros [= <- <-]. left. auto. }
    destruct debug.
    + destruct (dict_get (kv :: d) "debug_analysis") as [da |] eqn:Hda.
      * destruct (dict_get (dict_pop (kv :: d) "debug_analysis")
                    "overall_score"); [| discriminate].
        destruct da; try discriminate.
        intros [= <- <-]. right. exists (RDict l), hit, m.
        repeat (split; [reflexivity |]).
        right. exists l, (kv :: d). auto.
      * intros [= <- <-]. right. exists (RDict l), hit, m.
        repeat (split; [reflexivity |]).
        left. split; [reflexivity |].
        intros _ l' [= <-]. eauto.
    + intros [= <- <-]. right. exists (RDict l), hit, m.
      repeat (split; [reflexivity |]).
      left. split; [reflexivity | discriminate].
  - intros [= <- <-]. right. exists (RTuple b), hit, m.
    repeat (split; [reflexivity |]).
    left. split; [reflexivity |]. intros _ l [=].
  - intros [= <- <-]. left. auto.
Qed.

(** The first loop accounts for every entry, and with each result it
    takes it notes one cache hit or one cache miss. *)
Lemma collect_accounts (debug : bool) (entries : list (string * caller_state)) :
  ∀ acc hp acc' hp',
    Server.collect debug entries acc hp = Some (Server.Return acc', hp') →
    (length (Server.final_results acc')
     + (length (Server.cache_hits acc) + length (Server.cache_misses acc))
     = length (Server.final_results acc)
       + (length (Server.cache_hits acc') + length (Server.cache_misses acc')))%nat
    ∧ (length (Server.final_results acc')
       <= length (Server.final_results acc) + length entries)%nat
    ∧ (∀ r, r ∈ Server.final_results acc → r ∈ Server.final_results acc')
    ∧ (∀ c, c ∈ Server.cache_hits acc → c ∈ Server.cache_hits acc')
    ∧ (∀ c, c ∈ Server.cache_misses acc → c ∈ Server.cache_misses acc')
    ∧ (∀ k, k ∈ Server.all_missing_metrics acc →
            k ∈ Server.all_missing_metrics acc')
    ∧ ∀ cc st, (cc, st) ∈ entries →
        cc ∈ Server.all_missing_metrics acc'
        ∨ ∃ r hit m,
            st = Returned r hit m
            ∧ r ∈ Server.final_results acc'
            ∧ cc ∈ (if hit then Server.cache_hits acc'
                    else Server.cache_misses acc')
            ∧ ∀ k, k ∈ m → k ∈ Server.all_missing_metrics acc'.
Proof.
  induction entries as [| [cc st] entries IH]; intros acc hp acc' hp';
    cbn [Server.collect].
  - intros [= <- <-]. repeat split; auto; try lia.
    intros cc st Hin. inversion Hin.
  - destruct (Server.collect_one debug cc st acc hp) as [[[acc1 | e] hp1] |]
      eqn:E1; cbn [mbind option_bind]; try discriminate.
    intros E.
    destruct (IH _ _ _ _ E) as (Hlen & Hle & Hfin & Hhits & Hmiss & Hmm & Hent).
    assert (Hone :
      (length (Server.final_results acc1)
       + (length (Server.cache_hits acc) + length (Server.cache_misses acc))
       = length (Server.final_results acc)
         + (length (Server.cache_hits acc1) + length (Server.cache_misses acc1)))%nat
      ∧ (length (Server.final_results acc1)
         <= S (length (Server.final_results acc)))%nat
      ∧ (∀ r, r ∈ Server.final_results acc → r ∈ Server.final_results acc1)
      ∧ (∀ c, c ∈ Server.cache_hits acc → c ∈ Server.cache_hits acc1)
      ∧ (∀ c, c ∈ Server.cache_misses acc → c ∈ Server.cache_misses acc1)
      ∧ (∀ k, k ∈ Server.all_missing_metrics acc →
              k ∈ Server.all_missing_metrics acc1)
      ∧ (cc ∈ Server.all_missing_metrics acc1
         ∨ ∃ r hit m,
             st = Returned r hit m
             ∧ r ∈ Server.final_results acc1
             ∧ cc ∈ (if hit then Server.cache_hits acc1
                     else Server.cache_misses acc1)
             ∧ ∀ k, k ∈ m → k ∈ Server.all_missing_metrics acc1)).
    { apply collect_one_cases in E1
        as [(-> & -> & -> & -> & _)
           | (r & hit & m & -> & -> & -> & -> & -> & _)].
      - repeat split; auto; try lia.
        + intros k Hk. apply elem_of_app. now left.
        + left. apply elem_of_app. right. now left.
      - destruct hit; rewrite ?length_app; cbn [length];
          (repeat split; [lia | lia | | | | |]);
          try (intros z Hz; try apply elem_of_app; auto; fail).
        + right. exists r, true, m.
          split; [reflexivity |].
          split; [apply elem_of_app; right; now left |].
          split; [apply elem_of_app; right; now left |].
          intros k Hk. apply elem_of_app. now right.
        + right. exists r, false, m.
          split; [reflexivity |].
          split; [apply elem_of_app; right; now left |].
          split; [apply elem_of_app; right; now left |].
          intros k Hk. apply elem_of_app. now right. }
    destruct Hone as (Hlen1 & Hle1 & Hfin1 & Hhits1 & Hmiss1 & Hmm1 & Hcc).
    split; [lia |]. split; [cbn [length]; lia |].
    split; [auto |]. split; [auto |]. split; [auto |]. split; [auto |].
    intros cc0 st0 Hin. apply elem_of_cons in Hin as [[= -> ->] | Hin];
      [| auto].
    destruct Hcc as [Hcc | (r & hit & m & -> & Hr & Hc & Hm)]; [auto |].
    right. exists r, hit, m. split; [reflexivity |]. split; [auto |].
    split; [destruct hit; auto | auto].
Qed.

(** With debug mode, no result the first loop has taken keeps an entry
    debug_analysis. *)
Lemma collect_pops_debug (entries : list (string * caller_state)) :
  ∀ acc hp acc' hp',
    Server.collect true entries acc hp = Some (Server.Return acc', hp') →
    (∀ l, RDict l ∈ Server.final_results acc →
          ∃ d, hp !! l = Some d ∧ dict_get d "debug_analysis" = None) →
    ∀ l, RDict l ∈ Server.final_results acc' →
         ∃ d, hp' !! l = Some d ∧ dict_get d "debug_analysis" = None.
Proof.
  induction entries as [| [cc st] entries IH]; intros acc hp acc' hp';
    cbn [Server.collect].
  - now intros [= <- <-].
  - destruct (Server.collect_one true cc st acc hp) as [[[acc1 | e] hp1] |]
      eqn:E1; cbn [mbind option_bind]; try discriminate.
    intros E Hinv. apply (IH _ _ _ _ E). clear IH E.
    apply collect_one_cases in E1
      as [(-> & _ & _ & _ & ->)
         | (r & hit & m & -> & -> & _ & _ & _
            & [[-> Hr] | (l0 & d0 & -> & Hd0 & ->)])].
    + exact Hinv.
    + intros l Hl. apply elem_of_app in Hl as [Hl | Hl]; [auto |].
      apply list_elem_of_singleton in Hl. eauto.
    + intros l Hl.
      destruct (decide (l = l0)) as [-> | Hne].
      * exists (dict_pop d0 "debug_analysis"). split.
        -- apply list_lookup_insert_eq. now apply lookup_lt_Some in Hd0.
        -- apply dict_get_pop_eq.
      * rewrite list_lookup_insert_ne by congruence.
        apply elem_of_app in Hl as [Hl | Hl]; [auto |].
        apply list_elem_of_singleton in Hl. congruence.
Qed.
End Accounting.

(** Every country of an answered request is accounted for.  The response
    holds as many results as cache hits and cache misses together, and no
    more than countries were asked for; and each country either has its
    code among the missing metrics (its call raised or returned an empty
    dictionary), or its result is in the response, its code is a cache hit
    or a cache miss as the call reported, and the metrics the call
    reported missing are among the missing metrics. *)
Theorem every_country_is_accounted_for {F : Type} `{PyFloat F}
    (request : Server.request) (raw_results : list caller_state)
    (hp hp' : list (pydict (pyvalue F))) (resp : Server.response F) :
  Server.analyze_respond request raw_results hp = Some (Server.Return resp, hp') →
  length (Server.results resp)
  = (length (Server.metadata_cache_hits resp)
     + length (Server.metadata_cache_misses resp))%nat
  ∧ (length (Server.results resp) <= length (Server.countries request))%nat
  ∧ ∀ i cc st,
      Server.countries request !! i = Some cc →
      raw_results !! i = Some st →
      cc ∈ Server.metadata_missing_metrics resp
      ∨ ∃ r hit m,
          st = Returned r hit m
          ∧ r ∈ Server.results resp
          ∧ cc ∈ (if hit then Server.metadata_cache_hits resp
                  else Server.metadata_cache_misses resp)
          ∧ ∀ k, k ∈ m → k ∈ Server.metadata_missing_metrics resp.
Proof.
  intros E.
  destruct (analyze_respond_Return _ _ _ _ _ E)
    as (acc & hp1 & keyed & sorted & da & Hcol & Hkeys & Hsort & _
        & Hres & Hhits & Hmiss & Hmm).
  destruct (sort_keys_Return _ _ _ Hkeys) as [Hsnd _].
  pose proof (sort_descending_perm _ _ Hsort) as Hperm.
  assert (Hresp : Server.results resp ≡ₚ Server.final_results acc).
  { rewrite Hres, <- Hsnd. now apply fmap_Permutation. }
  destruct (collect_accounts _ _ _ _ _ _ Hcol)
    as (Hlen & Hle & _ & _ & _ & _ & Hent).
  cbn [Server.final_results Server.cache_hits Server.cache_misses length]
    in Hlen, Hle.
  rewrite Hhits, Hmiss, Hmm, Hresp.
  split; [lia |].
  split.
  { rewrite length_zip in Hle. lia. }
  intros i cc st Hcc Hst.
  assert (Hin : (cc, st) ∈ zip (Server.countries request) raw_results).
  { eapply list_elem_of_lookup_2. apply lookup_zip_Some. eauto. }
  destruct (Hent _ _ Hin) as [Hf | (r & hit & m & -> & Hr & Hc & Hm)].
  - left. now apply elem_of_list_to_set.
  - right. exists r, hit, m. split; [reflexivity |].
    split; [now rewrite Hresp |]. split; [exact Hc |].
    intros k Hk. apply elem_of_list_to_set. auto.
Qed.

(** A debug request takes the debug analyses out of the results: once it
    is answered, no dictionary of the response has an entry
    debug_analysis any more.  The dictionaries are the ones the result
    cache holds, so the debug analysis of a cached result is gone for
    every later request. *)
Theorem debug_request_strips_results {F : Type} `{PyFloat F}
    (request : Server.request) (raw_results : list caller_state)
    (hp hp' : list (pydict (pyvalue F))) (resp : Server.response F) :
  Server.debug request = true →
  Server.analyze_respond request raw_results hp = Some (Server.Return resp, hp') →
  ∀ r, r ∈ Server.results resp →
       ∃ l d, r = RDict l ∧ hp' !! l = Some d
              ∧ dict_get d "debug_analysis" = None.
Proof.
  intros Hdbg E.
  destruct (analyze_respond_Return _ _ _ _ _ E)
    as (acc & hp1 & keyed & sorted & da & Hcol & Hkeys & Hsort & Hrank
        & Hres & _).
  destruct (sort_keys_Return _ _ _ Hkeys) as [Hsnd Hall].
  destruct (assign_ranks_spec _ _ _ _ _ _ _ Hrank) as [_ Hspec].
  pose proof (sort_descending_perm _ _ Hsort) as Hperm.
  rewrite Hdbg in Hcol.
  pose proof (collect_pops_debug _ _ _ _ _ Hcol) as Hpop.
  cbn [Server.final_results] in Hpop.
  intros r Hr.
  assert (Hfin : r ∈ Server.final_results acc).
  { rewrite <- Hsnd, <- Hperm, <- Hres. exact Hr. }
  assert (Hl : ∃ l, r = RDict l).
  { rewrite <- Hsnd in Hfin. apply list_elem_of_fmap in Hfin as (kx & -> & Hkx).
    rewrite Forall_forall in Hall.
    destruct (Hall _ Hkx) as (l & d & -> & _). eauto. }
  destruct Hl as [l ->].
  destruct (Hpop ltac:(intros l0 Hl0; inversion Hl0) l Hfin) as (d1 & Hd1 & Hnone).
  destruct (Hspec l d1 Hd1) as (d & Hd & Hk & _).
  exists l, d. split; [reflexivity |]. split; [exact Hd |].
  rewrite (Hk "debug_analysis"%string) by discriminate. exact Hnone.
Qed.

(** The order of the results for France, Germany and Japan on an empty
    cache, in exact arithmetic. *)
Lemma results_sorted_by_score_witness :
  ∃ (w : world Q) (raw_results : list caller_state)
    (resp : Server.response Q) (hp' : list (pydict (pyvalue Q))),
    run (three_countries_run false 0 0) init_world = Some w
    ∧ mapM (fun c => callers w !! c) [0; 1; 2]%nat = Some raw_results
    ∧ Server.analyze_respond (three_countries false) raw_results (heap w)
      = Some (Server.Return resp, hp')
    ∧ Server.results resp = [RDict 1%nat; RDict 0%nat; RDict 2%nat]
    ∧ ∀ i j li lj di dj x y,
        (i < j)%nat →
        Server.results resp !! i = Some (RDict li) →
        Server.results resp !! j = Some (RDict lj) →
        hp' !! li = Some di → hp' !! lj = Some dj →
        overall_score_of di = Some x → overall_score_of dj = Some y →
        (y <= x)%Q.
Proof.
  eexists _, _, _, _.
  split; [vm_compute; reflexivity |].
  split; [vm_compute; reflexivity |].
  match goal with
  | |- ?lhs = _ ∧ _ =>
      let v := eval vm_compute in lhs in
      match v with
      | Some (Server.Return ?resp, ?hp') =>
          assert (E : lhs = Some (Server.Return resp, hp'))
            by (vm_compute; reflexivity)
      end
  end.
  split; [exact E |].
  split; [reflexivity |].
  apply (results_sorted_by_score _ _ _ _ _ E).
Defined.

(** The accounting of the response for France, Germany and Japan on an
    empty cache: three cache misses. *)
Lemma every_country_is_accounted_for_witness :
  ∃ (w : world float) (raw_results : list caller_state)
    (resp : Server.response float) (hp' : list (pydict (pyvalue float))),
    run (three_countries_run false 0 0) init_world = Some w
    ∧ mapM (fun c => callers w !! c) [0; 1; 2]%nat = Some raw_results
    ∧ Server.analyze_respond (three_countries false) raw_results (heap w)
      = Some (Server.Return resp, hp')
    ∧ Server.metadata_cache_misses resp = ["FRA"; "DEU"; "JPN"]%string
    ∧ length (Server.results resp)
      = (length (Server.metadata_cache_hits resp)
         + length (Server.metadata_cache_misses resp))%nat.
Proof.
  eexists _, _, _, _.
  split; [vm_compute; reflexivity |].
  split; [vm_compute; reflexivity |].
  match goal with
  | |- ?lhs = _ ∧ _ =>
      let v := eval vm_compute in lhs in
      match v with
      | Some (Server.Return ?resp, ?hp') =>
          assert (E : lhs = Some (Server.Return resp, hp'))
            by (vm_compute; reflexivity)
      end
  end.
  split; [exact E |].
  split; [reflexivity |].
  apply (every_country_is_accounted_for _ _ _ _ _ E).
Defined.

(** The stripping of debug analyses for a debug request for France,
    Germany and Japan on an empty cache, followed by the same request
    again: the first response carries three debug analyses, the second,
    served from the cache, none. *)
Lemma debug_request_strips_results_witness :
  ∃ (w w1 w2 w3 : world float) (raw_results : list caller_state)
    (resp resp2 : Server.response float),
    run (three_countries_run true 0 0) init_world = Some w
    ∧ mapM (fun c => callers w !! c) [0; 1; 2]%nat = Some raw_results
    ∧ Server.analyze_resume (three_countries true) [0; 1; 2]%nat w
      = Some (Server.Return resp, w1)
    ∧ Server.analyze_respond (three_countries true) raw_results (heap w)
      = Some (Server.Return resp, heap w1)
    ∧ dict_keys <$> Server.metadata_debug_analyses resp
      = Some ["FRA"; "DEU"; "JPN"]%string
    ∧ (∀ r, r ∈ Server.results resp →
            ∃ l d, r = RDict l ∧ heap w1 !! l = Some d
                   ∧ dict_get d "debug_analysis" = None)
    ∧ run (F:=float)
        (Call 3%nat <$> take 1 (Server.analyze_tasks (three_countries true)))
        w1 = Some w2
    ∧ Server.analyze_resume
        {| Server.countries := ["FRA"]%string;
           Server.risk_tolerance := "low"; Server.duration := "short-term";
           Server.debug := true |} [3]%nat w2
      = Some (Server.Return resp2, w3)
    ∧ Server.metadata_cache_hits resp2 = ["FRA"]%string
    ∧ Server.metadata_debug_analyses resp2 = Some [].
Proof.
  eexists _, _, _, _, _, _, _.
  split; [vm_compute; reflexivity |].
  split; [vm_compute; reflexivity |].
  split; [vm_compute; reflexivity |].
  match goal with
  | |- ?lhs = ?rhs ∧ _ => assert (E : lhs = rhs) by (vm_compute; reflexivity)
  end.
  split; [exact E |].
  split; [vm_compute; reflexivity |].
  split;
    [exact (debug_request_strips_results (three_countries true) _ _ _ _
              eq_refl E) |].
  split; [vm_compute; reflexivity |].
  split; [vm_compute; reflexivity |].
  split; vm_compute; reflexivity.
Defined.

(** What the validators of a request guarantee.  An accepted list of
    countries has at least three codes, each of length 3 and alphabetic,
    and comes back in upper case; an accepted risk tolerance and an
    accepted duration come back in lower case and are among low, moderate,
    high and short-term, long-term: the six pairs [get_weights] has a
    table and an adjustment for, whose weights sum to 1 within 1e-9.  The
    handler then makes one call per country, each with these
    parameters. *)
Theorem validated_request_parameters
    (lower upper : string → string) (isalpha : string → bool)
    (len : string → nat) (countries_in : list string)
    (risk_in duration_in : string) (request : Server.request) :
  Server.validate_countries upper isalpha len countries_in
  = Server.Return (Server.countries request) →
  Server.validate_risk lower risk_in
  = Server.Return (Server.risk_tolerance request) →
  Server.validate_duration lower duration_in
  = Server.Return (Server.duration request) →
  (3 <= length (Server.countries request))%nat
  ∧ Server.countries request = upper <$> countries_in
  ∧ Forall (fun code => len code = 3%nat ∧ isalpha code = true) countries_in
  ∧ Server.risk_tolerance request = lower risk_in
  ∧ Server.duration request = lower duration_in
  ∧ (∃ (r : risk_level) (d : stay),
       Server.risk_tolerance request = risk_name r
       ∧ Server.duration request = stay_name d)
  ∧ within 1e-9 1
      (exact (pysum (dict_values
         (WeightingEngine.get_weights (F:=float)
            (Server.risk_tolerance request) (Server.duration request)))))
    = true
  ∧ length (Server.analyze_tasks request) = length countries_in
  ∧ Forall (fun a => risk_tolerance a = Server.risk_tolerance request
                     ∧ duration a = Server.duration request
                     ∧ debug_mode a = Server.debug request)
      (Server.analyze_tasks request).
Proof.
  unfold Server.validate_countries, Server.validate_risk,
    Server.validate_duration.
  case_bool_decide as Hlen; [discriminate |].
  destruct (forallb _ countries_in) eqn:Hall; [| discriminate].
  intros [= Ecs].
  case_bool_decide as Hrisk; [discriminate |]. intros [= Ert].
  case_bool_decide as Hdur; [discriminate |]. intros [= Edu].
  assert (Hrd : ∃ (r : risk_level) (d : stay),
                  Server.risk_tolerance request = risk_name r
                  ∧ Server.duration request = stay_name d).
  { rewrite <- Ert, <- Edu.
    assert (Hr : ∃ r, lower risk_in = risk_name r).
    { repeat (apply elem_of_cons in Hrisk as [-> | Hrisk]);
        [exists Low | exists Moderate | exists High |]; try reflexivity.
      inversion Hrisk. }
    assert (Hd : ∃ d, lower duration_in = stay_name d).
    { repeat (apply elem_of_cons in Hdur as [-> | Hdur]);
        [exists ShortTerm | exists LongTerm |]; try reflexivity.
      inversion Hdur. }
    destruct Hr as [r ->], Hd as [d ->]. eauto. }
  split.
  { rewrite <- Ecs, length_fmap. lia. }
  split; [now rewrite <- Ecs |].
  split.
  { apply Forall_forall. intros code Hcode.
    rewrite forallb_forall in Hall.
    apply list_elem_of_In in Hcode. specialize (Hall _ Hcode).
    apply negb_true_iff, orb_false_iff in Hall as [Hl Ha].
    apply negb_false_iff in Hl, Ha. apply Nat.eqb_eq in Hl. auto. }
  split; [now rewrite <- Ert |]. split; [now rewrite <- Edu |].
  split; [exact Hrd |].
  split.
  { destruct Hrd as (r & d & -> & ->). destruct r, d; vm_compute; reflexivity. }
  split.
  { unfold Server.analyze_tasks. rewrite length_map, <- Ecs.
    apply length_fmap. }
  unfold Server.analyze_tasks. apply Forall_forall. intros a Ha.
  apply list_elem_of_In, in_map_iff in Ha as (cc & <- & _). auto.
Qed.

(** The validators at "fra", "deu", "jpn", "LOW" and
    "Short-Term", written in ASCII. *)
Lemma validated_request_parameters_witness :
  Server.validate_countries Server.ascii_upper Server.ascii_isalpha
    String.length ["fra"; "deu"; "jpn"]%string
  = Server.Return ["FRA"; "DEU"; "JPN"]%string
  ∧ Server.validate_risk Server.ascii_lower "LOW" = Server.Return "low"%string
  ∧ Server.validate_duration Server.ascii_lower "Short-Term"
    = Server.Return "short-term"%string
  ∧ Server.analyze_tasks (three_countries false)
    = [ analyze_fra;
        {| country_code := "DEU"; risk_tolerance := "low";
           duration := "short-term"; debug_mode := false |};
        {| country_code := "JPN"; risk_tolerance := "low";
           duration := "short-term"; debug_mode := false |} ]
  ∧ within 1e-9 1
      (exact (pysum (dict_values
         (WeightingEngine.get_weights (F:=float) "low" "short-term")))) = true.
Proof.
  assert (Ec : Server.validate_countries Server.ascii_upper
                 Server.ascii_isalpha String.length
                 ["fra"; "deu"; "jpn"]%string
               = Server.Return (Server.countries (three_countries false)))
    by (vm_compute; reflexivity).
  assert (Er : Server.validate_risk Server.ascii_lower "LOW"
               = Server.Return (Server.risk_tolerance (three_countries false)))
    by (vm_compute; reflexivity).
  assert (Ed : Server.validate_duration Server.ascii_lower "Short-Term"
               = Server.Return (Server.duration (three_countries false)))
    by (vm_compute; reflexivity).
  destruct (validated_request_parameters _ _ _ _ _ _ _ _ Ec Er Ed)
    as (_ & _ & _ & _ & _ & _ & Hsum & _).
  split; [exact Ec |]. split; [exact Er |]. split; [exact Ed |].
  split; [reflexivity | exact Hsum].
Defined.

(* ===================================================================== *)
(** * Further properties: the registry and the alternate normalizers *)
(* ===================================================================== *)

(** The registry of requests in flight.  A task registered under a key
    is found under it; removing a key leaves it absent, and removing a key
    that is not registered changes nothing (the test in [remove_in_flight]
    keeps [del] from raising KeyError); registering and removing a key
    that was not registered gives the registry back; other keys are not
    touched; and [is_in_flight] says whether [get_in_flight] finds a
    task. *)
Theorem registry_round_trip (m : gmap string task_id) (k k' : string)
    (t : task_id) :
  CacheManager.is_in_flight (CacheManager.set_in_flight m k t) k = true
  ∧ CacheManager.get_in_flight (CacheManager.set_in_flight m k t) k = Some t
  ∧ CacheManager.is_in_flight (CacheManager.remove_in_flight m k) k = false
  ∧ CacheManager.get_in_flight (CacheManager.remove_in_flight m k) k = None
  ∧ (CacheManager.is_in_flight m k = false →
     CacheManager.remove_in_flight m k = m
     ∧ CacheManager.remove_in_flight (CacheManager.set_in_flight m k t) k = m)
  ∧ (k ≠ k' →
     CacheManager.get_in_flight (CacheManager.set_in_flight m k t) k'
     = CacheManager.get_in_flight m k'
     ∧ CacheManager.get_in_flight (CacheManager.remove_in_flight m k) k'
       = CacheManager.get_in_flight m k')
  ∧ (CacheManager.is_in_flight m k = true
     ↔ is_Some (CacheManager.get_in_flight m k)).
Proof.
  rewrite !remove_in_flight_delete.
  unfold CacheManager.get_in_flight, CacheManager.set_in_flight.
  split; [apply is_in_flight_true; exists t; apply lookup_insert_eq |].
  split; [apply lookup_insert_eq |].
  split; [apply is_in_flight_false, lookup_delete_eq |].
  split; [apply lookup_delete_eq |].
  split.
  { intros Hk. apply is_in_flight_false in Hk.
    split; [now apply delete_id |].
    rewrite delete_insert_eq. now apply delete_id. }
  split.
  { intros Hne. split;
      [now apply lookup_insert_ne | now apply lookup_delete_ne]. }
  rewrite is_in_flight_true. reflexivity.
Qed.

(** The normalizers of utils/normalizer.py next to those of
    services/aggregator.py.  Five of them are the same functions.  The
    advisory normalizer of utils expects a score from 0 to 5 and falls
    back to 0.5: it stays within [0,1] exactly for scores from 0 to 5, so
    the 0-100 scores of the pipeline would leave the interval (25 gives
    -4), and its fallback differs from the pipeline's 0.2.  Its humidity
    normalizer grades the value, within [0,1], where the pipeline's is
    constant. *)
Theorem alternate_normalizers_compared :
  (∀ (F : Type) (HF : PyFloat F) (v : option F),
     Normalizer._normalize_life_expectancy v = _normalize_life_expectancy v
     ∧ Normalizer._normalize_gdp_per_capita v = _normalize_gdp_per_capita v
     ∧ Normalizer._normalize_population v = _normalize_population v
     ∧ Normalizer._normalize_pm25 v = _normalize_pm25 v
     ∧ Normalizer._normalize_temperature v = _normalize_temperature v)
  ∧ (∀ v : Q,
       in_unit_interval (Normalizer._normalize_travel_advisory_score (Some v))
       = true ↔ (0 <= v ∧ v <= 5)%Q)
  ∧ (∀ v : option Q,
       in_unit_interval (Normalizer._normalize_humidity v) = true)
  ∧ (Normalizer._normalize_travel_advisory_score (Some 25) = -4
     ∧ Normalizer._normalize_travel_advisory_score None = 0.5
     ∧ _normalize_travel_advisory_score None = 0.2
     ∧ Normalizer._normalize_humidity (Some 15) = 0.5
     ∧ Normalizer._normalize_humidity (Some 50) = 1
     ∧ _normalize_humidity (Some 50) = 0.5)%float.
Proof.
  split; [intros F HF v; repeat apply conj; reflexivity |].
  split.
  { intros v. unfold in_unit_interval, Normalizer._normalize_travel_advisory_score.
    cbn [exact lit fsub fdiv Q_PyFloat].
    rewrite andb_true_iff, !Qle_bool_iff.
    unfold Qdiv; cbn [Qinv Qnum Qden]. split; intros [? ?]; split; lra. }
  split.
  { intros [v |]; [| reflexivity].
    unfold Normalizer._normalize_humidity. cbn [fle flt lit Q_PyFloat].
    destruct (Qle_bool 30 v) eqn:E1; destruct (Qle_bool v 70) eqn:E2;
      cbn [andb negb]; try reflexivity.
    - apply Qle_bool_iff in E1. apply Qle_bool_false in E2.
      apply in_unit_interval_Q; q_minmax.
    - apply Qle_bool_false in E1. apply Qle_bool_iff in E2.
      apply in_unit_interval_Q; q_minmax.
    - apply Qle_bool_false in E1. apply Qle_bool_false in E2. lra. }
  repeat apply conj; vm_compute; reflexivity.
Qed.

(** The profile fetch and the pipeline together.  [fetch_country_profile]
    returns a dictionary on every path, so [_fetch_and_build] never gives
    the marker country_profile; when the provider has no data or the
    request fails, the profile has no ISO2 code and the result is the
    empty dictionary with the marker iso2_code, whatever the other
    providers answer; and the result is empty exactly when the ISO2 code
    is absent or empty. *)
Theorem profile_failure_is_an_iso2_failure (F : Type) (HF : PyFloat F)
    (country_code risk_tolerance duration : string) (debug_mode : bool)
    (outcome : profile_outcome F)
    (worldbank travel weather aqi : gathered (pydict (option F))) :
  let r :=
    {| r_country_profile :=
         Some (ExternalClients.fetch_country_profile country_code outcome);
       r_worldbank_health := worldbank; r_travel_advisory := travel;
       r_weather := weather; r_aqi := aqi |} in
  ∃ d m,
    _fetch_and_build country_code risk_tolerance duration debug_mode r
    = Ok (d, false, m)
    ∧ (m = ["country_profile"%string] → False)
    ∧ (d = [] ↔ falsy (iso2 (ExternalClients.fetch_country_profile
                               country_code outcome)) = true)
    ∧ match outcome with
      | ProfileFound country_data =>
          falsy (rc_cca2 country_data) = false →
          dict_get d "country_name"
          = Some (PStr (default country_code (rc_name_common country_data)))
      | ProfileNoData | ProfileFailed =>
          d = [] ∧ m = ["iso2_code"%string]
      end.
Proof.
  intros r.
  destruct (falsy (iso2 (ExternalClients.fetch_country_profile
                           country_code outcome))) eqn:Hiso.
  - exists [], ["iso2_code"%string].
    split; [unfold _fetch_and_build; cbn [r_country_profile r]; now rewrite Hiso |].
    split; [discriminate |]. split; [tauto |].
    destruct outcome as [country_data | |]; [| auto | auto].
    cbn [ExternalClients.fetch_country_profile iso2] in Hiso. congruence.
  - destruct (fetch_and_build_identified country_code risk_tolerance duration
                debug_mode r) as (p & l & Hp & Hl & Hm & Hfb).
    { unfold identified. cbn [r_country_profile r]. now rewrite Hiso. }
    injection Hp as <-.
    eexists _, _. split; [exact Hfb |].
    split.
    { intros E. pose proof (humidity_is_missing
                              (population (ExternalClients.fetch_country_profile
                                             country_code outcome)) r) as Hh.
      rewrite <- Hm, E in Hh.
      apply list_elem_of_singleton in Hh. discriminate. }
    split.
    { split; [| discriminate]. destruct debug_mode; discriminate. }
    destruct outcome as [country_data | |]; [| discriminate | discriminate].
    intros _. destruct debug_mode; reflexivity.
Qed.

(** The World Bank fetch and the pipeline together.  The health
    expenditure it fetches is not read by the pipeline: with the three
    requests answered, the locals of the pipeline do not depend on that
    series.  Yet when the request for it fails, life expectancy and GDP
    per capita are lost with it: both are reported missing and normalized
    to the fallback 0.5, whatever their own requests returned. *)
Theorem unused_indicator_voids_health_metrics (F : Type) (HF : PyFloat F)
    (risk_tolerance duration : string) (p : country_profile F)
    (travel weather aqi : gathered (pydict (option F)))
    (life_expectancy gdp_per_capita : indicator_response F)
    (l h h' g : list (option F)) :
  let answers worldbank :=
    {| r_country_profile := Some p;
       r_worldbank_health := Value worldbank; r_travel_advisory := travel;
       r_weather := weather; r_aqi := aqi |} in
  pipeline risk_tolerance duration p
    (answers (ExternalClients.fetch_worldbank_health
                (IndicatorData l) (IndicatorData h) (IndicatorData g)))
  = pipeline risk_tolerance duration p
      (answers (ExternalClients.fetch_worldbank_health
                  (IndicatorData l) (IndicatorData h') (IndicatorData g)))
  ∧ ∃ locals,
      pipeline risk_tolerance duration p
        (answers (ExternalClients.fetch_worldbank_health
                    life_expectancy IndicatorError gdp_per_capita))
      = Ok locals
      ∧ "life_expectancy"%string ∈ missing_metrics locals
      ∧ "gdp_per_capita"%string ∈ missing_metrics locals
      ∧ dict_get (normalized_scores locals) "life_expectancy" = Some (lit 0.5)
      ∧ dict_get (normalized_scores locals) "gdp_per_capita" = Some (lit 0.5)
      ∧ health_infra_score locals
        = ((lit 0.5 + lit 0.5) / lit 2 * lit 100)%py.
Proof.
  intros answers. split; [reflexivity |].
  assert (E : ExternalClients.fetch_worldbank_health
                life_expectancy IndicatorError gdp_per_capita
              = [ ("life_expectancy", None); ("health_expenditure", None);
                  ("gdp_per_capita", None) ]%string)
    by (destruct life_expectancy, gdp_per_capita; reflexivity).
  rewrite E. unfold pipeline. rewrite score_raw_metrics_locals.
  eexists. split; [reflexivity |].
  cbn [missing_metrics normalized_scores health_infra_score].
  split; [| split; [| repeat apply conj; reflexivity]].
  - apply filter_None_keys; [apply metric_names_NoDup |].
    split; [| reflexivity].
    apply (bool_decide_unpack _). vm_compute. reflexivity.
  - apply filter_None_keys; [apply metric_names_NoDup |].
    split; [| reflexivity].
    apply (bool_decide_unpack _). vm_compute. reflexivity.
Qed.
